(** * cli-crypto: wallet derivation, wallet store and network registry

    A shallow embedding of the three managers of the repository
    ([BlockchainManager], [WalletManager], [NetworkManager]), the
    properties of the specification that concern them, and further
    properties of the managers read off the code.

    The embedding follows the TypeScript sources function by function:
    a rejected promise or a [throw] is the [Throw] outcome of [result], a
    [try]/[catch] is [try_catch], the JSON files are explicit state, and
    everything the program learns from outside (RPC replies, timers, the
    libraries that draw keys) is read from an oracle record.

    Left out: the logger (a [catch] that logs and rethrows is kept as a
    rethrow), and failures of the file system other than a registry file
    that does not exist yet and a wallet file that cannot be written or
    parsed. Reading the registry and the wallets takes no time on the
    clock of the model. *)

From stdpp Require Import base option list strings gmap pretty.
From Stdlib Require Import ZArith QArith Lia.
From Stdlib.Strings Require Import Byte.

Local Open Scope string_scope.
Local Open Scope list_scope.
Local Open Scope Z_scope.

(** ** JavaScript values the sources rely on *)

Module Js.

(** What a [throw] carries: an [Error] with its message, or some other
    value (the sources test [error instanceof Error]). *)
Inductive thrown : Type :=
| Error (message : string)
| NonError.

(** [(error as Error).message]; a value that is no [Error] has none and
    a template string prints it as [undefined]. *)
Definition message_of (e : thrown) : string :=
  match e with
  | Error m => m
  | NonError => "undefined"
  end.

Inductive result (A : Type) : Type :=
| Ok (a : A)
| Throw (e : thrown).
Arguments Ok {A} a.
Arguments Throw {A} e.

Definition is_Ok {A} (r : result A) : bool :=
  match r with Ok _ => true | Throw _ => false end.

#[global] Instance result_ret : MRet result := @Ok.
#[global] Instance result_bind : MBind result := λ A B f r,
  match r with
  | Ok a => f a
  | Throw e => Throw e
  end.

(** An [async] method over mutable state [S]: it ends with a value or a
    rejection, and leaves a state behind in both cases. *)
Definition ST (S A : Type) : Type := S → result A * S.

#[global] Instance ST_ret {S} : MRet (ST S) := λ A a s, (Ok a, s).
#[global] Instance ST_bind {S} : MBind (ST S) := λ A B f m s,
  match m s with
  | (Ok a, s') => f a s'
  | (Throw e, s') => (Throw e, s')
  end.

Definition throw {S A} (e : thrown) : ST S A := λ s, (Throw e, s).

(** A synchronous call that returns or throws, inside an [async] body. *)
Definition of_result {S A} (r : result A) : ST S A := λ s, (r, s).

(** [try { body } catch (error) { handler error }] *)
Definition try_catch {S A} (body : ST S A) (handler : thrown → ST S A) : ST S A :=
  λ s, match body s with
       | (Ok a, s') => (Ok a, s')
       | (Throw e, s') => handler e s'
       end.

Definition gets {S A} (f : S → A) : ST S A := λ s, (Ok (f s), s).
Definition modify {S} (f : S → S) : ST S unit := λ s, (Ok (), f s).

(** Local variables [L] of a method body, kept next to the state so that
    what was pushed before a [throw] is still there in the [catch]. *)
Definition lift {L S A} (m : ST S A) : ST (L * S) A :=
  λ ls, let rs := m ls.2 in (rs.1, (ls.1, rs.2)).

Definition local {L S A} (f : L → A) : ST (L * S) A := gets (λ ls, f ls.1).
Definition set_local {L S} (f : L → L) : ST (L * S) unit :=
  modify (λ ls, (f ls.1, ls.2)).

Definition with_locals {L S A} (init : L) (m : ST (L * S) A) : ST S A :=
  λ s, let rls := m (init, s) in (rls.1, rls.2.2).

(** [for (const x of xs) { body x }] *)
Fixpoint for_each {S A} (xs : list A) (body : A → ST S unit) : ST S unit :=
  match xs with
  | [] => mret ()
  | x :: rest => body x ;; for_each rest body
  end.

(** Truthiness of the values the sources branch on. *)
Definition truthy_string (s : string) : bool :=
  match s with EmptyString => false | String _ _ => true end.

Definition truthy_opt_string (s : option string) : bool :=
  match s with Some s => truthy_string s | None => false end.

Definition truthy_opt_bool (b : option bool) : bool :=
  match b with Some true => true | _ => false end.

Definition truthy_Z (z : Z) : bool := negb (z =? 0).

Definition truthy_opt_Z (z : option Z) : bool :=
  match z with Some z => truthy_Z z | None => false end.

(** [a || b] on optional numbers and strings. *)
Definition or_Z (a : option Z) (b : Z) : Z :=
  match a with
  | Some z => if truthy_Z z then z else b
  | None => b
  end.

Definition or_string (a : option string) (b : string) : string :=
  match a with
  | Some s => if truthy_string s then s else b
  | None => b
  end.

Definition or_opt_string (a b : option string) : option string :=
  if truthy_opt_string a then a else b.

(** [s.includes(sub)] *)
Fixpoint includes (s sub : string) : bool :=
  String.prefix sub s
  || match s with
     | EmptyString => false
     | String _ rest => includes rest sub
     end.

(** [s.toLowerCase()] on the ASCII letters; other bytes are kept. (Of the
    characters outside ASCII only the Kelvin sign has an ASCII lower case,
    [k], which none of the network names contains.) *)
Definition lower_ascii (c : Ascii.ascii) : Ascii.ascii :=
  let n := Ascii.N_of_ascii c in
  if ((65 <=? n) && (n <=? 90))%N then Ascii.ascii_of_N (n + 32) else c.

Fixpoint toLowerCase (s : string) : string :=
  match s with
  | EmptyString => EmptyString
  | String c rest => String (lower_ascii c) (toLowerCase rest)
  end.

(** [s.toUpperCase()], likewise. *)
Definition upper_ascii (c : Ascii.ascii) : Ascii.ascii :=
  let n := Ascii.N_of_ascii c in
  if ((97 <=? n) && (n <=? 122))%N then Ascii.ascii_of_N (n - 32) else c.

Fixpoint toUpperCase (s : string) : string :=
  match s with
  | EmptyString => EmptyString
  | String c rest => String (upper_ascii c) (toUpperCase rest)
  end.

(** [s.slice(0, n)] *)
Definition slice0 (n : nat) (s : string) : string := String.substring 0 n s.

(** [Buffer.from(bytes).toString('hex')] *)
Definition hex_digit (n : N) : Ascii.ascii :=
  if (n <? 10)%N then Ascii.ascii_of_N (48 + n) else Ascii.ascii_of_N (87 + n).

Fixpoint to_hex (bytes : list Byte.byte) : string :=
  match bytes with
  | [] => EmptyString
  | b :: rest =>
      let n := Byte.to_N b in
      String (hex_digit (n / 16)) (String (hex_digit (n mod 16)) (to_hex rest))
  end.

End Js.
Import Js.

(** ** BlockchainManager (src/src/core/network/blockchain.ts, first part) *)

Module BlockchainManager.

(** [WalletData] of types/wallet.ts. *)
Record WalletData : Type := {
  name : string;
  network : string;
  address : string;
  privateKey : string;
  mnemonic : option string;
  createdAt : string;
  filePath : option string;
  qrPath : option string;
  qrString : option string;
}.

Record BlockchainWallet : Type := {
  bw_address : string;
  bw_privateKey : string;
  bw_mnemonic : option string;
}.

Record BlockchainConfig : Type := {
  cfg_name : string;
  symbols : list string;
  decimals : Z;
  generateWallet : string → bool → result WalletData;
}.

(** The key material the libraries hand back. *)
Record KeyNode : Type := {
  node_privateKey : option (list Byte.byte);
  node_publicKey : list Byte.byte;
}.

Record Mnemonic : Type := {
  phrase : string;
  path : string;
  locale : string;
}.

Record EthersWallet : Type := {
  eth_address : string;
  eth_privateKey : string;
  eth_mnemonic : option Mnemonic;
}.

(** The libraries the manager calls (bip39, bip32, ecpair, bitcoinjs-lib,
    ethers) and the clock; each draw of randomness is a field. *)
Record Libs : Type := {
  bip39_generateMnemonic : string;
  bip39_mnemonicToSeed : string → list Byte.byte;
  bip32_fromSeed_derivePath : list Byte.byte → string → KeyNode;
  ECPair_makeRandom : KeyNode;
  payments_p2wpkh : list Byte.byte → option string;
  ethers_Wallet_createRandom : EthersWallet;
  ethers_utils_randomBytes : nat → list Byte.byte;
  ethers_Wallet_new : list Byte.byte → EthersWallet;
  Date_toISOString : string;
}.

Section WithLibs.
Variable lib : Libs.

Definition generateBitcoinWallet (useMnemonic : bool) : result BlockchainWallet :=
  if useMnemonic then
    let mnemonic := bip39_generateMnemonic lib in
    let seed := bip39_mnemonicToSeed lib mnemonic in
    let path := "m/84'/0'/0'/0/0" in
    let child := bip32_fromSeed_derivePath lib seed path in
    match node_privateKey child with
    | None => Throw (Error "Failed to generate Bitcoin private key")
    | Some priv =>
        let address := payments_p2wpkh lib (node_publicKey child) in
        if negb (truthy_opt_string address) then
          Throw (Error "Failed to generate Bitcoin address")
        else
          Ok {| bw_address := default "" address;
                bw_privateKey := to_hex priv;
                bw_mnemonic := Some mnemonic |}
    end
  else
    let keyPair := ECPair_makeRandom lib in
    match node_privateKey keyPair with
    | None => Throw (Error "Failed to generate Bitcoin private key")
    | Some priv =>
        let address := payments_p2wpkh lib (node_publicKey keyPair) in
        if negb (truthy_opt_string address) then
          Throw (Error "Failed to generate Bitcoin address")
        else
          Ok {| bw_address := default "" address;
                bw_privateKey := to_hex priv;
                bw_mnemonic := None |}
    end.

Definition generateEVMWallet (useMnemonic : bool) : result BlockchainWallet :=
  let wallet :=
    if useMnemonic then ethers_Wallet_createRandom lib
    else ethers_Wallet_new lib (ethers_utils_randomBytes lib 32) in
  Ok {| bw_address := eth_address wallet;
        bw_privateKey := eth_privateKey wallet;
        bw_mnemonic :=
          if useMnemonic then phrase <$> eth_mnemonic wallet else None |}.

Definition bitcoinConfig : BlockchainConfig :=
  {| cfg_name := "bitcoin";
     symbols := ["BTC"];
     decimals := 8;
     generateWallet := λ name useMnemonic,
       wallet ← generateBitcoinWallet useMnemonic;
       mret {| name := name;
               network := "bitcoin";
               address := bw_address wallet;
               privateKey := bw_privateKey wallet;
               mnemonic := bw_mnemonic wallet;
               createdAt := Date_toISOString lib;
               filePath := None; qrPath := None; qrString := None |} |}.

Definition evmNetworks : list string :=
  ["ethereum"; "polygon"; "bsc"; "arbitrum"; "optimism"; "avalanche"].

Definition evmConfig (network : string) : BlockchainConfig :=
  {| cfg_name := network;
     symbols := [if String.eqb network "ethereum" then "ETH"
                 else toUpperCase network];
     decimals := 18;
     generateWallet := λ name useMnemonic,
       wallet ← generateEVMWallet useMnemonic;
       mret {| name := name;
               network := network;
               address := bw_address wallet;
               privateKey := bw_privateKey wallet;
               mnemonic := bw_mnemonic wallet;
               createdAt := Date_toISOString lib;
               filePath := None; qrPath := None; qrString := None |} |}.

(** [initializeNetworks]: the map the constructor fills. *)
Definition supportedNetworks : gmap string BlockchainConfig :=
  foldl (λ m network, <[network := evmConfig network]> m)
        (<["bitcoin" := bitcoinConfig]> ∅)
        evmNetworks.

(** The [catch] around [generateWallet] logs and rethrows. *)
Definition createWallet (name network : string) (useMnemonic : bool)
  : result WalletData :=
  match supportedNetworks !! toLowerCase network with
  | None => Throw (Error ("Unsupported blockchain network: " +:+ network))
  | Some networkConfig => generateWallet networkConfig name useMnemonic
  end.

Definition isNetworkSupported (network : string) : bool :=
  bool_decide (is_Some (supportedNetworks !! toLowerCase network)).

End WithLibs.

End BlockchainManager.

(** ** WalletManager (src/unnamed/part_002) *)

Module WalletManager.
Import BlockchainManager.

Record WalletFilter : Type := {
  f_name : option string;
  f_network : option string;
  f_date : option string;
  f_hash : option string;
}.

Record WalletImportResult : Type := {
  imported : nat;
  skipped : nat;
}.

(** A [*.json] file under the wallets directory: the text of a wallet, or
    text that [JSON.parse] refuses. *)
Inductive JsonFile : Type :=
| WalletJson (wallet : WalletData)
| Unparsable.

(** The wallets directory: file name ↦ content. *)
Record Disk : Type := {
  files : gmap string JsonFile;
}.

Section WithFs.
(** [new Date(s).getTime()]; [None] stands for an invalid date. *)
Variable Date_parse : string → option Z.
(** The write error of a path, for the paths the file system refuses. *)
Variable write_error : string → option thrown.

Definition matchesFilter (wallet : WalletData) (filter : WalletFilter) : bool :=
  if truthy_opt_string (f_network filter)
     && negb (bool_decide (Some (network wallet) = f_network filter)) then false
  else if truthy_opt_string (f_name filter)
          && negb (includes (name wallet) (default "" (f_name filter))) then false
  else if truthy_opt_string (f_hash filter)
          && negb (includes (toLowerCase (address wallet))
                            (toLowerCase (default "" (f_hash filter)))) then false
  else if truthy_opt_string (f_date filter) then
    match Date_parse (default "" (f_date filter)), Date_parse (createdAt wallet) with
    | Some filterDate, Some walletDate =>
        if walletDate <? filterDate then false else true
    | _, _ => true
    end
  else true.

(** The loop of [listWallets] over the files that [glob] found. *)
Fixpoint read_wallets (found : list (string * JsonFile)) (options : WalletFilter)
  : result (list WalletData) :=
  match found with
  | [] => Ok []
  | (_, WalletJson wallet) :: rest =>
      wallets ← read_wallets rest options;
      Ok (if matchesFilter wallet options then wallet :: wallets else wallets)
  | (_, Unparsable) :: _ => Throw (Error "Unexpected token in JSON")
  end.

Definition listWallets (options : WalletFilter) : ST Disk (list WalletData) :=
  try_catch
    (found ← gets (λ d, map_to_list (files d));
     of_result (read_wallets found options))
    (λ error, throw (Error "Failed to list wallets")).

Definition findWallets (filter : WalletFilter) : ST Disk (list WalletData) :=
  listWallets filter.

Definition walletExists (name network : string) : ST Disk bool :=
  try_catch
    (wallets ← findWallets {| f_name := Some name; f_network := Some network;
                              f_date := None; f_hash := None |};
     mret (0 <? length wallets)%nat)
    (λ _, mret false).

Definition walletFileName (walletData : WalletData) (output : option string) : string :=
  name walletData +:+ "-" +:+ network walletData +:+ "-"
    +:+ slice0 8 (address walletData) +:+ "." +:+ or_string output "json".

(** [saveWallet] as [importWallets] calls it: no [path], no [output]. *)
Definition saveWallet (walletData : WalletData) : ST Disk unit :=
  let fileName := walletFileName walletData None in
  match write_error fileName with
  | Some error => throw error
  | None =>
      modify (λ d, {| files := <[fileName := WalletJson walletData]> (files d) |})
  end.

(** [importWallets] once the file has been read and parsed into
    [wallets]; [network] and [overwrite] are the options. *)
Definition importWallets (wallets : list WalletData) (network : string)
    (overwrite : option bool) : ST Disk WalletImportResult :=
  try_catch
    (with_locals {| imported := 0; skipped := 0 |}
       (for_each wallets (λ wallet,
          try_catch
            (exists_ ← lift (walletExists (name wallet) network);
             if exists_ && negb (truthy_opt_bool overwrite) then
               set_local (λ c, {| imported := imported c; skipped := S (skipped c) |})
             else
               lift (saveWallet wallet);;
               set_local (λ c, {| imported := S (imported c); skipped := skipped c |}))
            (λ error,
               set_local (λ c, {| imported := imported c; skipped := S (skipped c) |})));;
        local id))
    (λ error, throw error).

(** The error of [fs.unlink] for a path that does not exist. *)
Variable unlink_error : string → thrown.

(** [fs.unlink] of a file of the wallets directory. *)
Definition unlink (fileName : string) : ST Disk unit :=
  present ← gets (λ d, files d !! fileName);
  match present with
  | Some _ => modify (λ d, {| files := delete fileName (files d) |})
  | None => throw (unlink_error fileName)
  end.

(** [deleteWallets({name, network})]: the file to unlink is named after the
    wallet that was read, whatever file it was read from. *)
Definition deleteWallets (name : string) (network : option string) : ST Disk nat :=
  try_catch
    (wallets ← findWallets {| f_name := Some name; f_network := network;
                              f_date := None; f_hash := None |};
     if (length wallets =? 0)%nat then mret 0%nat
     else
       with_locals 0%nat
         (for_each wallets (λ wallet,
            lift (unlink (walletFileName wallet None));;
            set_local S);;
          local id))
    (λ error, throw error).

End WithFs.

(** *** CSV *)

(** An object whose values are strings, as [Object.keys] and
    [Object.values] see it: the keys in the order of their insertion, with
    their values. (Keys that are array indices, which JavaScript puts
    first, are not covered.) *)
Definition JsObject : Type := list (string * string).

(** The characters [,], line feed and double quote. *)
Definition comma : Ascii.ascii := Ascii.ascii_of_nat 44.
Definition newline : Ascii.ascii := Ascii.ascii_of_nat 10.
Definition quote : Ascii.ascii := Ascii.ascii_of_nat 34.

(** [s.split(sep)], for a separator of one character. *)
Fixpoint split (sep : Ascii.ascii) (s : string) : list string :=
  match s with
  | EmptyString => [EmptyString]
  | String c rest =>
      if Ascii.eqb c sep then EmptyString :: split sep rest
      else match split sep rest with
           | first :: others => String c first :: others
           | [] => [String c EmptyString]
           end
  end.

(** [l.join(sep)] *)
Fixpoint join (sep : Ascii.ascii) (l : list string) : string :=
  match l with
  | [] => EmptyString
  | x :: rest =>
      match rest with
      | [] => x
      | _ :: _ => x +:+ String sep (join sep rest)
      end
  end.

(** [s.replace(/c/g, '')] *)
Fixpoint remove_all (c : Ascii.ascii) (s : string) : string :=
  match s with
  | EmptyString => EmptyString
  | String a rest =>
      if Ascii.eqb a c then remove_all c rest else String a (remove_all c rest)
  end.

(** [{...obj, [key]: value}] *)
Fixpoint with_key (key value : string) (obj : JsObject) : JsObject :=
  match obj with
  | [] => [(key, value)]
  | (k, v) :: rest =>
      if String.eqb k key then (k, value) :: rest
      else (k, v) :: with_key key value rest
  end.

(** The [reduce] of [parseCsvWallets] over the headers, from [index] on:
    past the end of [values], [values[index]] is [undefined] and the call
    of [replace] on it throws. *)
Fixpoint reduce_headers (values headers : list string) (index : nat) (obj : JsObject)
  : result JsObject :=
  match headers with
  | [] => Ok obj
  | header :: rest =>
      match values !! index with
      | Some value =>
          reduce_headers values rest (S index)
            (with_key header (remove_all quote value) obj)
      | None =>
          Throw (Error "Cannot read properties of undefined (reading 'replace')")
      end
  end.

Definition parseCsvWallets (content : string) : result (list JsObject) :=
  let lines := split newline content in
  let headers := split comma (default EmptyString (head lines)) in
  mapM (λ line, reduce_headers (split comma line) headers 0 []) (tail lines).

(** [Object.keys(wallets[0])] throws when there is no wallet. *)
Definition formatWalletsAsCsv (wallets : list JsObject) : result string :=
  match wallets with
  | [] => Throw (Error "Cannot convert undefined or null to object")
  | first :: _ =>
      let headers := join comma first.*1 in
      let rows :=
        (λ wallet : JsObject,
           join comma
             ((λ value, String quote (value +:+ String quote EmptyString))
                <$> wallet.*2))
          <$> wallets in
      Ok (join newline (headers :: rows))
  end.

End WalletManager.

(** ** NetworkManager (src/src/core/network/blockchain.ts, second part) *)

Module NetworkManager.

(** *** Numbers that come out of a division

    A quotient is kept as an exact rational; the rounding of a double is
    not modelled. Division by zero gives [NaN] or an infinity as in
    JavaScript. *)
Inductive number : Type :=
| Finite (q : Q)
| PosInfinity
| NegInfinity
| NaN.

Definition div (a b : Q) : number :=
  if Qeq_bool b 0 then
    if Qeq_bool a 0 then NaN
    else if Qle_bool 0 a then PosInfinity else NegInfinity
  else Finite (Qred (a / b)).

(** *** Types of types/network.ts (src/unnamed/part_004)

    A field that the interface marks optional is an [option]; so is
    [chainId], which [addNetwork] fills from a value that may be
    [undefined]. Dates are milliseconds since the epoch. *)

Record NetworkBenchmarkResult : Type := {
  b_success : bool;
  requestsPerSecond : number;
  averageLatency : number;
  maxLatency : Z;
  minLatency : Z;
  errorRate : number;
  b_timestamp : Z;
}.

Record NetworkConfig : Type := {
  name : string;
  rpcUrl : string;
  chainId : option Z;
  currency : string;
  explorer : option string;
  isTestnet : option bool;
  isActive : option bool;
  lastValidated : option Z;
  maxGasPrice : option string;
  timeout : option Z;
  retryAttempts : option Z;
  benchmarkResults : option NetworkBenchmarkResult;
  monitoringEnabled : option bool;
  monitoringInterval : option Z;
}.

Record NetworkOptions : Type := {
  o_name : string;
  o_rpcUrl : string;
  o_chainId : option Z;
  o_currency : option string;
  o_explorer : option string;
  o_testnet : option bool;
  o_timeout : option Z;
  o_maxGasPrice : option string;
  o_retryAttempts : option Z;
}.

Record NetworkStatus : Type := {
  s_name : string;
  isConnected : bool;
  blockNumber : Z;
  gasPrice : string;
  peers : option Z;
  s_chainId : Z;
  isSyncing : bool;
  lastChecked : Z;
}.

Record NetworkTestResult : Type := {
  success : bool;
  latency : option Z;
  t_chainId : option Z;
  error : option string;
  timestamp : Z;
  blockHeight : option Z;
}.

Record NetworkSwitchResult : Type := {
  previousNetwork : option string;
  newNetwork : string;
  sw_success : bool;
}.

Record NetworkValidationResult : Type := {
  isValid : bool;
  v_chainId : option Z;
  errors : list string;
  warnings : list string;
  v_latency : option Z;
}.

Record TestOptions : Type := {
  to_name : option string;
  to_timeout : option Z;
}.

Record CleanupOptions : Type := {
  inactive : option Z;
  unvalidated : option Z;
}.

(** *** The outside world *)

Inductive Method : Type :=
| GetNetwork        (* provider.getNetwork(): the chain id *)
| GetBlockNumber
| GetGasPrice
| EthSyncing        (* send('eth_syncing'): 0 for false *)
| NetPeerCount.     (* send('net_peerCount'), already read as a number *)

(** A promise in flight: how long it takes to settle, in ms, and how. *)
Record Reply (A : Type) : Type := {
  took : N;
  answer : result A;
}.
Arguments took {A} _.
Arguments answer {A} _.

(** What the endpoints, the timers and the number formatting of ethers
    answer. The [n]-th request of a run is asked with index [n], so that
    one endpoint may answer differently each time. *)
Record Oracle : Type := {
  rpc : nat → string → Method → Reply Z;
  timer_lag : nat → N;
  formatUnits_gwei : Z → string;
  parseUnits_gwei : string → result Z;
}.

(** What a run does to the outside, oldest event last. *)
Inductive Event : Type :=
| Request (url : string) (method : Method) (ok : bool)
| Sleep (ms : Z)
| WriteFile (networks : list NetworkConfig).

(** The manager and its surroundings: the registry file ([None] before it
    exists), [this.providers] (name ↦ URL of the cached provider),
    [this.activeNetwork], the clock ([Date.now()]), the number of events
    so far, which is the index the oracle is asked with, and the events. *)
Record World : Type := {
  file : option (list NetworkConfig);
  providers : gmap string string;
  activeNetwork : option string;
  clock : Z;
  asked : nat;
  trace : list Event;
}.

Abbreviation M := (ST World).

Definition set_file (f : option (list NetworkConfig)) (w : World) : World :=
  {| file := f; providers := providers w; activeNetwork := activeNetwork w;
     clock := clock w; asked := asked w; trace := trace w |}.
Definition set_providers (p : gmap string string) (w : World) : World :=
  {| file := file w; providers := p; activeNetwork := activeNetwork w;
     clock := clock w; asked := asked w; trace := trace w |}.
Definition set_activeNetwork (a : option string) (w : World) : World :=
  {| file := file w; providers := providers w; activeNetwork := a;
     clock := clock w; asked := asked w; trace := trace w |}.
Definition advance (ms : Z) (w : World) : World :=
  {| file := file w; providers := providers w; activeNetwork := activeNetwork w;
     clock := clock w + ms; asked := asked w; trace := trace w |}.
Definition record (e : Event) (w : World) : World :=
  {| file := file w; providers := providers w; activeNetwork := activeNetwork w;
     clock := clock w; asked := S (asked w); trace := e :: trace w |}.

Definition set_isActive (b : option bool) (n : NetworkConfig) : NetworkConfig :=
  {| name := name n; rpcUrl := rpcUrl n; chainId := chainId n;
     currency := currency n; explorer := explorer n; isTestnet := isTestnet n;
     isActive := b; lastValidated := lastValidated n;
     maxGasPrice := maxGasPrice n; timeout := timeout n;
     retryAttempts := retryAttempts n; benchmarkResults := benchmarkResults n;
     monitoringEnabled := monitoringEnabled n;
     monitoringInterval := monitoringInterval n |}.
Definition set_benchmarkResults (b : option NetworkBenchmarkResult)
    (n : NetworkConfig) : NetworkConfig :=
  {| name := name n; rpcUrl := rpcUrl n; chainId := chainId n;
     currency := currency n; explorer := explorer n; isTestnet := isTestnet n;
     isActive := isActive n; lastValidated := lastValidated n;
     maxGasPrice := maxGasPrice n; timeout := timeout n;
     retryAttempts := retryAttempts n; benchmarkResults := b;
     monitoringEnabled := monitoringEnabled n;
     monitoringInterval := monitoringInterval n |}.

(** [Promise.all] of two promises: both values once the slower one is
    there, or the rejection that comes first. *)
Definition all2 {A B} (p : Reply A) (q : Reply B) : Reply (A * B) :=
  match answer p, answer q with
  | Ok a, Ok b => {| took := N.max (took p) (took q); answer := Ok (a, b) |}
  | Throw e, Ok _ => {| took := took p; answer := Throw e |}
  | Ok _, Throw e => {| took := took q; answer := Throw e |}
  | Throw e, Throw e' =>
      if (took p <=? took q)%N then {| took := took p; answer := Throw e |}
      else {| took := took q; answer := Throw e' |}
  end.

(** [Promise.race([p, timeoutPromise])] where the second promise rejects
    with [Error(message)] after [ms]. *)
Definition race_timeout {A} (p : Reply A) (ms : Z) (message : string) : Reply A :=
  if Z.of_N (took p) <? ms then p
  else {| took := Z.to_N ms; answer := Throw (Error message) |}.

(** [p.then(f)] and [p.catch(() => a)] on a promise in flight. *)
Definition then_reply {A B} (p : Reply A) (f : A → B) : Reply B :=
  {| took := took p;
     answer := match answer p with Ok a => Ok (f a) | Throw e => Throw e end |}.

Definition catch_reply {A} (p : Reply A) (a : A) : Reply A :=
  {| took := took p;
     answer := match answer p with Ok v => Ok v | Throw _ => Ok a end |}.

(** *** The types of the other methods *)

Record NetworkListOptions : Type := {
  lo_active : option bool;
  lo_testnet : option bool;
  lo_mainnet : option bool;
}.

(** [{ ...network, blockNumber, gasPrice, peers }] *)
Record NetworkInfo : Type := {
  info_config : NetworkConfig;
  i_blockNumber : Z;
  i_gasPrice : string;
  i_peers : Z;
}.

Record NetworkExportData : Type := {
  e_version : string;
  e_timestamp : Z;
  e_networks : list NetworkConfig;
}.

(** What [syncNetwork] returns. *)
Record SyncResult : Type := {
  sync_name : string;
  sync_status : string;
}.

(** What the manager emits as an [EventEmitter]. *)
Inductive Emitted : Type :=
| NetworkStatusEvent (status : NetworkStatus) (timestamp : Z)
| MonitoringError (monitored : string) (error : thrown) (timestamp : Z).

(** A timer that [setInterval] armed: its handle, and the name and the
    period its callback was made with. The callbacks themselves are not
    run by the model. *)
Record Timer : Type := {
  handle : nat;
  t_name : string;
  t_interval : Z;
}.

(** The part of the manager that monitoring touches: the field
    [this.monitoringInterval], the timers that are armed, the number of
    timers made so far, and the events emitted, newest first. *)
Record Monitoring : Type := {
  monitoringHandle : option nat;
  armed : list Timer;
  timers_made : nat;
  emitted : list Emitted;
}.

(** Files other than the registry's own, by path: what [exportNetworks]
    writes and [importNetworks] reads. *)
Abbreviation Exports := (gmap string NetworkExportData).

Definition set_lastValidated (d : option Z) (n : NetworkConfig) : NetworkConfig :=
  {| name := name n; rpcUrl := rpcUrl n; chainId := chainId n;
     currency := currency n; explorer := explorer n; isTestnet := isTestnet n;
     isActive := isActive n; lastValidated := d;
     maxGasPrice := maxGasPrice n; timeout := timeout n;
     retryAttempts := retryAttempts n; benchmarkResults := benchmarkResults n;
     monitoringEnabled := monitoringEnabled n;
     monitoringInterval := monitoringInterval n |}.
Definition set_monitoringEnabled (b : option bool) (n : NetworkConfig) : NetworkConfig :=
  {| name := name n; rpcUrl := rpcUrl n; chainId := chainId n;
     currency := currency n; explorer := explorer n; isTestnet := isTestnet n;
     isActive := isActive n; lastValidated := lastValidated n;
     maxGasPrice := maxGasPrice n; timeout := timeout n;
     retryAttempts := retryAttempts n; benchmarkResults := benchmarkResults n;
     monitoringEnabled := b;
     monitoringInterval := monitoringInterval n |}.
Definition set_monitoringInterval (i : option Z) (n : NetworkConfig) : NetworkConfig :=
  {| name := name n; rpcUrl := rpcUrl n; chainId := chainId n;
     currency := currency n; explorer := explorer n; isTestnet := isTestnet n;
     isActive := isActive n; lastValidated := lastValidated n;
     maxGasPrice := maxGasPrice n; timeout := timeout n;
     retryAttempts := retryAttempts n; benchmarkResults := benchmarkResults n;
     monitoringEnabled := monitoringEnabled n;
     monitoringInterval := i |}.

(** A [NetworkConfig] read where [addNetwork] expects its options, as
    [importNetworks] passes it: the fields are looked up by name, and a
    [NetworkConfig] has no field [testnet]. *)
Definition as_options (network : NetworkConfig) : NetworkOptions :=
  {| o_name := name network;
     o_rpcUrl := rpcUrl network;
     o_chainId := chainId network;
     o_currency := Some (currency network);
     o_explorer := explorer network;
     o_testnet := None;
     o_timeout := timeout network;
     o_maxGasPrice := maxGasPrice network;
     o_retryAttempts := retryAttempts network |}.

Section WithOracle.
Variable net : Oracle.

Definition Date_now : M Z := gets clock.

(** Start a request: the reply is known to the oracle, the caller has
    not waited for it yet. *)
Definition issue (url : string) (method : Method) : M (Reply Z) :=
  λ w, let reply := rpc net (asked w) url method in
       (Ok reply, record (Request url method (is_Ok (answer reply))) w).

Definition await {A} (p : Reply A) : M A :=
  λ w, (answer p, advance (Z.of_N (took p)) w).

Definition request (url : string) (method : Method) : M Z :=
  p ← issue url method; await p.

(** [await new Promise((resolve) => setTimeout(resolve, ms))] *)
Definition sleep (ms : Z) : M unit :=
  λ w, (Ok (), advance (Z.max 0 ms + Z.of_N (timer_lag net (asked w)))
                       (record (Sleep ms) w)).

Definition saveNetworks (networks : list NetworkConfig) : M unit :=
  modify (λ w, record (WriteFile networks) (set_file (Some networks) w)).

Definition loadNetworks : M (list NetworkConfig) :=
  stored ← gets file;
  match stored with
  | Some networks => mret networks
  | None => saveNetworks [];; mret []
  end.

Definition named (target : string) (n : NetworkConfig) : bool :=
  String.eqb (name n) target.

Definition getProvider (networkName : string) : M string :=
  cached ← gets (λ w, providers w !! networkName);
  match cached with
  | Some provider => mret provider
  | None =>
      networks ← loadNetworks;
      match find (named networkName) networks with
      | None => throw (Error ("Network '" +:+ networkName +:+ "' not found"))
      | Some network =>
          modify (λ w, set_providers (<[networkName := rpcUrl network]> (providers w)) w);;
          mret (rpcUrl network)
      end
  end.

(** Local variables of [validateNetwork]. *)
Record ValidateLocals : Type := {
  l_errors : list string;
  l_warnings : list string;
  l_chainId : option Z;
  l_measureLatency : option Z;
}.

Definition push_error (e : string) (l : ValidateLocals) : ValidateLocals :=
  {| l_errors := l_errors l ++ [e]; l_warnings := l_warnings l;
     l_chainId := l_chainId l; l_measureLatency := l_measureLatency l |}.
Definition push_warning (x : string) (l : ValidateLocals) : ValidateLocals :=
  {| l_errors := l_errors l; l_warnings := l_warnings l ++ [x];
     l_chainId := l_chainId l; l_measureLatency := l_measureLatency l |}.
Definition set_chainId (c : Z) (l : ValidateLocals) : ValidateLocals :=
  {| l_errors := l_errors l; l_warnings := l_warnings l;
     l_chainId := Some c; l_measureLatency := l_measureLatency l |}.
Definition set_measureLatency (t : Z) (l : ValidateLocals) : ValidateLocals :=
  {| l_errors := l_errors l; l_warnings := l_warnings l;
     l_chainId := l_chainId l; l_measureLatency := Some t |}.

(** The message pushed by the outer [catch] of [validateNetwork]. *)
Definition connection_error (error : thrown) : string :=
  match error with
  | Error message =>
      if includes message "timeout" then
        "Connection timed out. The RPC endpoint might be down or responding slowly."
      else if includes message "getaddrinfo" then
        "DNS resolution failed. Please check if the RPC URL is correct."
      else if includes message "ECONNREFUSED" then
        "Connection refused. The RPC endpoint might be down or blocking requests."
      else "Connection failed: " +:+ message
  | NonError => "Unknown connection error occurred"
  end.

Definition when {S} (b : bool) (m : ST S unit) : ST S unit :=
  if b then m else mret ().

Definition validateNetwork (options : NetworkOptions) : M NetworkValidationResult :=
  with_locals {| l_errors := []; l_warnings := []; l_chainId := None;
                 l_measureLatency := None |}
    (try_catch
       (let provider := o_rpcUrl options in
        networkPromise ← lift (issue provider GetNetwork);
        network ← lift (await (race_timeout networkPromise 10000
                                 "Network detection timeout"));
        set_local (set_chainId network);;
        let chainId := network in
        when (truthy_Z chainId)
          (try_catch
             (p1 ← lift (issue provider GetBlockNumber);
              p2 ← lift (issue provider GetGasPrice);
              both ← lift (await (all2 p1 p2));
              let blockNumber := both.1 in
              let gasPrice := both.2 in
              when (truthy_opt_Z (o_chainId options)
                    && negb (bool_decide (o_chainId options = Some chainId)))
                (set_local (push_error
                   ("Chain ID mismatch: expected "
                      +:+ pretty (default 0 (o_chainId options))
                      +:+ ", got " +:+ pretty chainId)));;
              when (blockNumber =? 0)
                (set_local (push_warning
                   "Network might be inactive (block number is 0)"));;
              start ← lift Date_now;
              _ ← lift (request provider GetBlockNumber);
              finish ← lift Date_now;
              let measureLatency := finish - start in
              set_local (set_measureLatency measureLatency);;
              when (1000 <? measureLatency)
                (set_local (push_warning
                   ("High latency detected: " +:+ pretty measureLatency +:+ "ms")));;
              when (truthy_opt_string (o_maxGasPrice options))
                (maxGwei ← of_result
                   (parseUnits_gwei net (default "" (o_maxGasPrice options)));
                 when (maxGwei <? gasPrice)
                   (set_local (push_warning
                      ("Current gas price (" +:+ formatUnits_gwei net gasPrice
                         +:+ " gwei) exceeds specified maximum")))))
             (λ error,
                set_local (push_warning
                  ("Additional checks failed: " +:+ message_of error)))))
       (λ error, set_local (push_error (connection_error error)));;
     l ← local id;
     mret {| isValid := (length (l_errors l) =? 0)%nat;
             v_chainId := l_chainId l;
             errors := l_errors l;
             warnings := l_warnings l;
             v_latency := l_measureLatency l |}).

Definition testNetwork (options : TestOptions) : M NetworkTestResult :=
  try_catch
    (active ← gets activeNetwork;
     let networkName := or_opt_string (to_name options) active in
     if negb (truthy_opt_string networkName) then
       throw (Error "No network specified or active")
     else
       provider ← getProvider (default "" networkName);
       startTime ← Date_now;
       p1 ← issue provider GetNetwork;
       p2 ← issue provider GetBlockNumber;
       both ← await (race_timeout (all2 p1 p2) (or_Z (to_timeout options) 5000)
                       "Connection timeout");
       finish ← Date_now;
       mret {| success := true;
               latency := Some (finish - startTime);
               t_chainId := Some both.1;
               error := None;
               timestamp := finish;
               blockHeight := Some both.2 |})
    (λ thrown_error,
       finish ← Date_now;
       mret {| success := false;
               latency := None;
               t_chainId := None;
               error := match thrown_error with
                        | Error message => Some message
                        | NonError => None
                        end;
               timestamp := finish;
               blockHeight := None |}).

Definition getNetworkStatus (name : option string) : M NetworkStatus :=
  try_catch
    (active ← gets activeNetwork;
     let networkName := or_opt_string name active in
     if negb (truthy_opt_string networkName) then
       throw (Error "No network specified or active")
     else
       let networkName := default "" networkName in
       provider ← getProvider networkName;
       p1 ← issue provider GetBlockNumber;
       p2 ← issue provider GetNetwork;
       p3 ← issue provider GetGasPrice;
       p4 ← issue provider EthSyncing;
       four ← await (all2 (all2 p1 p2) (all2 p3 p4));
       let blockNumber := four.1.1 in
       let network := four.1.2 in
       let gasPrice := four.2.1 in
       let syncing := four.2.2 in
       peers ← request provider NetPeerCount;
       finish ← Date_now;
       mret {| s_name := networkName;
               isConnected := true;
               blockNumber := blockNumber;
               gasPrice := formatUnits_gwei net gasPrice;
               s_chainId := network;
               peers := Some peers;
               isSyncing := truthy_Z syncing;
               lastChecked := finish |})
    (λ error, throw error).

(** How one round of the retry loop of [addNetwork] ends. *)
Inductive Round : Type :=
| Break (validation : NetworkValidationResult)
| Again.

(** [while (retryCount < maxRetries) { ... }]: [retryCount] runs through
    [pending], which is [0, 1, ..., maxRetries - 1]. *)
Fixpoint retry_loop (options : NetworkOptions) (maxRetries : Z) (pending : list Z)
  : M (option NetworkValidationResult) :=
  match pending with
  | [] => mret None
  | retryCount :: rest =>
      round ← try_catch
                (validation ← validateNetwork options;
                 mret (Break validation))
                (λ error,
                   let retryCount := retryCount + 1 in
                   if retryCount =? maxRetries then throw error
                   else sleep 1000;; mret Again);
      match round with
      | Break validation => mret (Some validation)
      | Again => retry_loop options maxRetries rest
      end
  end.

(** The warnings of a valid configuration are logged, nothing more. *)
Definition addNetwork (options : NetworkOptions) : M NetworkConfig :=
  try_catch
    (let maxRetries := or_Z (o_retryAttempts options) 3 in
     validation ← retry_loop options maxRetries (seqZ 0 maxRetries);
     match validation with
     | None => throw (Error "Invalid network configuration: undefined")
     | Some validation =>
         if negb (isValid validation) then
           throw (Error ("Invalid network configuration: "
                           +:+ String.concat ", " (errors validation)))
         else
           today ← Date_now;
           let newNetwork :=
             {| name := o_name options;
                rpcUrl := o_rpcUrl options;
                chainId := if truthy_opt_Z (o_chainId options)
                           then o_chainId options else v_chainId validation;
                currency := or_string (o_currency options) "ETH";
                explorer := o_explorer options;
                isTestnet := Some (truthy_opt_bool (o_testnet options));
                isActive := Some false;
                lastValidated := Some today;
                maxGasPrice := None;
                timeout := Some (or_Z (o_timeout options) 10000);
                retryAttempts := Some (or_Z (o_retryAttempts options) 3);
                benchmarkResults := None;
                monitoringEnabled := None;
                monitoringInterval := None |} in
           networks ← loadNetworks;
           if existsb (named (name newNetwork)) networks then
             throw (Error ("Network '" +:+ name newNetwork +:+ "' already exists"))
           else
             saveNetworks (networks ++ [newNetwork]);;
             mret newNetwork
     end)
    (λ error, throw error).

(** The result of [testNetwork] is awaited and dropped, as in the source. *)
Definition switchNetwork (name : string) : M NetworkSwitchResult :=
  try_catch
    (networks ← loadNetworks;
     match find (named name) networks with
     | None => throw (Error ("Network '" +:+ name +:+ "' not found"))
     | Some network =>
         let previousNetwork :=
           NetworkManager.name
             <$> find (λ n, truthy_opt_bool (isActive n)) networks in
         _ ← testNetwork {| to_name := Some name; to_timeout := None |};
         let networks :=
           map (λ n, set_isActive (Some (named name n)) n) networks in
         saveNetworks networks;;
         modify (set_activeNetwork (Some name));;
         mret {| previousNetwork := previousNetwork;
                 newNetwork := name;
                 sw_success := true |}
     end)
    (λ error, throw error).

Definition removeNetwork (name : string) : M unit :=
  try_catch
    (networks ← loadNetworks;
     match list_find (λ n, NetworkManager.name n = name) networks with
     | None => throw (Error ("Network '" +:+ name +:+ "' not found"))
     | Some (index, found) =>
         if truthy_opt_bool (isActive found) then
           throw (Error "Cannot remove active network")
         else
           saveNetworks (delete index networks);;
           modify (λ w, set_providers (delete name (providers w)) w)
     end)
    (λ error, throw error).

(** An assignment to a field of the object that [find] returned: it
    changes the first entry of the array that satisfies [p]. *)
Fixpoint update_first {A} (p : A → bool) (f : A → A) (l : list A) : list A :=
  match l with
  | [] => []
  | x :: rest => if p x then f x :: rest else x :: update_first p f rest
  end.

(** Local variables of [benchmarkNetwork]. *)
Record BenchLocals : Type := {
  results : list Z;
  bench_errors : list thrown;
  requestCount : Z;
}.

Definition sum_Z (l : list Z) : Z := foldl Z.add 0 l.
Definition max_Z (l : list Z) : Z :=
  match l with [] => 0 | x :: rest => foldl Z.max x rest end.
Definition min_Z (l : list Z) : Z :=
  match l with [] => 0 | x :: rest => foldl Z.min x rest end.

(** The [while] loop of [benchmarkNetwork]. It stops when the clock says
    so; [fuel] bounds the rounds of the model, and the answer is
    [false] when the fuel ends before the loop does. *)
Fixpoint benchmark_loop (fuel : nat) (provider : string) (startTime duration : Z)
  : ST (BenchLocals * World) bool :=
  current ← lift Date_now;
  if current - startTime <? duration * 1000 then
    match fuel with
    | O => mret false
    | S fuel =>
        try_catch
          (requestStart ← lift Date_now;
           _ ← lift (request provider GetBlockNumber);
           finish ← lift Date_now;
           set_local (λ l, {| results := results l ++ [finish - requestStart];
                              bench_errors := bench_errors l;
                              requestCount := requestCount l |});;
           set_local (λ l, {| results := results l;
                              bench_errors := bench_errors l;
                              requestCount := requestCount l + 1 |}))
          (λ error,
             set_local (λ l, {| results := results l;
                                bench_errors := bench_errors l ++ [error];
                                requestCount := requestCount l |}));;
        lift (sleep 100);;
        benchmark_loop fuel provider startTime duration
    end
  else mret true.

(** [benchmarkNetwork(name, duration)], [duration] being the argument
    after its default; [None] when [fuel] was too small for the loop to
    end. *)
Definition benchmarkNetwork (fuel : nat) (name : string) (duration : Z)
  : M (option NetworkBenchmarkResult) :=
  provider ← getProvider name;
  startTime ← Date_now;
  networks ← loadNetworks;
  match find (named name) networks with
  | None => throw (Error ("Network '" +:+ name +:+ "' not found"))
  | Some network =>
      with_locals {| results := []; bench_errors := []; requestCount := 0 |}
        (finished ← benchmark_loop fuel provider startTime duration;
         if negb finished then mret None
         else
           l ← local id;
           finish ← lift Date_now;
           let totalTime := (inject_Z (finish - startTime) / inject_Z 1000)%Q in
           let count := inject_Z (Z.of_nat (length (results l))) in
           let benchmarkResult :=
             {| b_success := (length (bench_errors l) =? 0)%nat;
                requestsPerSecond := div (inject_Z (requestCount l)) totalTime;
                averageLatency :=
                  if (0 <? length (results l))%nat
                  then div (inject_Z (sum_Z (results l))) count
                  else Finite 0;
                maxLatency := max_Z (results l);
                minLatency := min_Z (results l);
                errorRate :=
                  if 0 <? requestCount l
                  then div (inject_Z (Z.of_nat (length (bench_errors l))))
                           (inject_Z (requestCount l))
                  else Finite 1;
                b_timestamp := finish |} in
           (* network.benchmarkResults = benchmarkResult: [network] is the
              entry of [networks] that [find] returned *)
           let networks :=
             update_first (named name)
               (set_benchmarkResults (Some benchmarkResult)) networks in
           lift (saveNetworks networks);;
           mret (Some benchmarkResult))
  end.

(** [skip] is the [continue] of the [inactive] branch. The second [if]
    tests two values that are already at hand, [options.unvalidated] and
    [network.lastValidated]. *)
Definition cleanup (options : CleanupOptions) : M (list string) :=
  networks ← loadNetworks;
  with_locals ([] : list string)
    (for_each networks (λ network,
       try_catch
         (skip ←
            (if truthy_opt_Z (inactive options) then
               status ← lift (getNetworkStatus (Some (name network)));
               if negb (isConnected status) then
                 lift (removeNetwork (name network));;
                 set_local (λ removed : list string, (removed ++ [name network])%list);;
                 mret true
               else mret false
             else mret false);
          if (skip : bool) then mret ()
          else
            match lastValidated network with
            | Some validated =>
                if truthy_opt_Z (unvalidated options) then
                  today ← lift Date_now;
                  let daysSinceValidation :=
                    (inject_Z (today - validated)
                       / inject_Z (1000 * 60 * 60 * 24))%Q in
                  if negb (Qle_bool daysSinceValidation
                             (inject_Z (default 0 (unvalidated options)))) then
                    lift (removeNetwork (name network));;
                    set_local (λ removed : list string, (removed ++ [name network])%list)
                  else mret ()
                else mret ()
            | None => mret ()
            end)
         (λ error, mret ()));;
     local id).

(** *** The other methods *)

(** The test of the [filter] callback of [listNetworks]. *)
Definition listed (options : NetworkListOptions) (network : NetworkConfig) : bool :=
  if match lo_testnet options with
     | Some testnet => negb (bool_decide (isTestnet network = Some testnet))
     | None => false
     end then false
  else if truthy_opt_bool (lo_active options)
          && negb (truthy_opt_bool (isActive network)) then false
  else if match lo_mainnet options with
          | Some mainnet => bool_decide (isTestnet network = Some mainnet)
          | None => false
          end then false
  else true.

Definition listNetworks (options : NetworkListOptions) : M (list NetworkConfig) :=
  try_catch
    (networks ← loadNetworks;
     mret (List.filter (listed options) networks))
    (λ error, throw error).

(** The name is checked outside the [try]: only that check can throw. *)
Definition syncNetwork (name : option string) : M SyncResult :=
  active ← gets activeNetwork;
  let networkName := or_opt_string name active in
  if negb (truthy_opt_string networkName) then
    throw (Error "No network specified or active")
  else
    let networkName := default "" networkName in
    try_catch
      (provider ← getProvider networkName;
       _ ← request provider GetBlockNumber;
       mret {| sync_name := networkName; sync_status := "synchronized" |})
      (λ error, mret {| sync_name := networkName; sync_status := "failed" |}).

(** The three requests start in the order of the array literal; a failed
    peer count is read as 0 by its [catch]. *)
Definition getNetworkInfo (name : option string) : M NetworkInfo :=
  active ← gets activeNetwork;
  let networkName := or_opt_string name active in
  if negb (truthy_opt_string networkName) then
    throw (Error "No network specified or active")
  else
    let networkName := default "" networkName in
    networks ← loadNetworks;
    match find (named networkName) networks with
    | None => throw (Error ("Network '" +:+ networkName +:+ "' not found"))
    | Some network =>
        provider ← getProvider networkName;
        p1 ← issue provider GetBlockNumber;
        p2 ← issue provider GetGasPrice;
        p3 ← issue provider NetPeerCount;
        three ← await (all2 (all2 p1 (then_reply p2 (formatUnits_gwei net)))
                            (catch_reply p3 0));
        mret {| info_config := network;
                i_blockNumber := three.1.1;
                i_gasPrice := three.1.2;
                i_peers := three.2 |}
    end.

(** [exportNetworks(filepath)], for a path other than the registry's. *)
Definition exportNetworks (filepath : string) : ST (Exports * World) unit :=
  networks ← lift loadNetworks;
  today ← lift Date_now;
  set_local (λ files : Exports,
    <[filepath := {| e_version := "1.0"; e_timestamp := today;
                     e_networks := networks |}]> files).

(** [importNetworks], once the file has been read and parsed into
    [importData]. [exists] is looked up in the registry as it was read
    before the loop. *)
Definition import_parsed (importData : NetworkExportData) (overwrite : bool) : M nat :=
  currentNetworks ← loadNetworks;
  with_locals 0%nat
    (for_each (e_networks importData) (λ network,
       let exists_ := existsb (named (name network)) currentNetworks in
       if negb exists_ || overwrite then
         (if exists_ then lift (removeNetwork (name network)) else mret ());;
         _ ← lift (addNetwork (as_options network));
         set_local S
       else mret ());;
     local id).

(** [importNetworks(filepath, overwrite)]; [overwrite] is the argument
    after its default. *)
Definition importNetworks (filepath : string) (overwrite : bool)
  : ST (Exports * World) nat :=
  stored ← local (λ files : Exports, files !! filepath);
  match stored with
  | None =>
      throw (Error ("ENOENT: no such file or directory, open '" +:+ filepath +:+ "'"))
  | Some importData => lift (import_parsed importData overwrite)
  end.

Definition emit (e : Emitted) (m : Monitoring) : Monitoring :=
  {| monitoringHandle := monitoringHandle m; armed := armed m;
     timers_made := timers_made m; emitted := e :: emitted m |}.

Definition clearInterval (h : nat) : ST (Monitoring * World) unit :=
  set_local (λ m,
    {| monitoringHandle := monitoringHandle m;
       armed := List.filter (λ t, negb (handle t =? h)%nat) (armed m);
       timers_made := timers_made m; emitted := emitted m |}).

Definition setInterval (monitored : string) (interval : Z)
  : ST (Monitoring * World) nat :=
  made ← local timers_made;
  set_local (λ m,
    {| monitoringHandle := monitoringHandle m;
       armed := {| handle := made; t_name := monitored; t_interval := interval |}
                  :: armed m;
       timers_made := S made; emitted := emitted m |});;
  mret made.

Definition set_monitoringHandle (h : option nat) : ST (Monitoring * World) unit :=
  set_local (λ m,
    {| monitoringHandle := h; armed := armed m;
       timers_made := timers_made m; emitted := emitted m |}).

(** The closure [monitor] of [startNetworkMonitoring], run once: [networks]
    is the array the closure holds, and the array as the run leaves it is
    returned. Only the status check can throw, before the array is touched. *)
Definition monitor (name : string) (networks : list NetworkConfig)
  : ST (Monitoring * World) (list NetworkConfig) :=
  try_catch
    (status ← lift (getNetworkStatus (Some name));
     today ← lift Date_now;
     let networks :=
       update_first (named name) (set_lastValidated (Some today)) networks in
     lift (saveNetworks networks);;
     stamp ← lift Date_now;
     set_local (emit (NetworkStatusEvent status stamp));;
     mret networks)
    (λ error,
       stamp ← lift Date_now;
       set_local (emit (MonitoringError name error stamp));;
       mret networks).

(** [startNetworkMonitoring(name, interval)], [interval] being the argument
    after its default. *)
Definition startNetworkMonitoring (name : string) (interval : Z)
  : ST (Monitoring * World) unit :=
  networks ← lift loadNetworks;
  match find (named name) networks with
  | None => throw (Error ("Network '" +:+ name +:+ "' not found"))
  | Some network =>
      running ← local monitoringHandle;
      match running with
      | Some h => clearInterval h
      | None => mret ()
      end;;
      networks ← monitor name networks;
      h ← setInterval name interval;
      set_monitoringHandle (Some h);;
      let networks :=
        update_first (named name)
          (λ n, set_monitoringInterval (Some interval)
                  (set_monitoringEnabled (Some true) n)) networks in
      lift (saveNetworks networks)
  end.

Definition stopNetworkMonitoring : ST (Monitoring * World) unit :=
  running ← local monitoringHandle;
  match running with
  | Some h =>
      clearInterval h;;
      set_monitoringHandle None;;
      networks ← lift loadNetworks;
      lift (saveNetworks (map (set_monitoringEnabled (Some false)) networks))
  | None => mret ()
  end.

End WithOracle.

End NetworkManager.

(** ** Inputs the examples run on *)

Module Samples.
Import BlockchainManager.

(** Libraries that always hand back the same key material. *)
Definition fixed_libs : Libs :=
  {| bip39_generateMnemonic :=
       "abandon abandon abandon abandon abandon abandon abandon abandon abandon abandon abandon about";
     bip39_mnemonicToSeed := λ _, [x5e; xb0; x0b];
     bip32_fromSeed_derivePath := λ _ _,
       {| node_privateKey := Some [x4b; x0c]; node_publicKey := [x03; x30] |};
     ECPair_makeRandom :=
       {| node_privateKey := Some [xe8; xf3]; node_publicKey := [x02; x6a] |};
     payments_p2wpkh := λ _, Some "bc1qcr8te4kr609gcawutmrza0j4xv80jy8z306fyu";
     ethers_Wallet_createRandom :=
       {| eth_address := "0x9858EfFD232B4033E47d90003D41EC34EcaEda94";
          eth_privateKey := "0x1ab42cc412b618bdea3a599e3c9bae199ebf030895b039e9db1e30dafb12b727";
          eth_mnemonic :=
            Some {| phrase := "test test test test test test test test test test test junk";
                    path := "m/44'/60'/0'/0/0";
                    locale := "en" |} |};
     ethers_utils_randomBytes := λ n, replicate n x2a;
     ethers_Wallet_new := λ _,
       {| eth_address := "0x71C7656EC7ab88b098defB751B7401B5f6d8976F";
          eth_privateKey := "0x2a2a2a2a2a2a2a2a2a2a2a2a2a2a2a2a2a2a2a2a2a2a2a2a2a2a2a2a2a2a2a2a";
          eth_mnemonic := None |};
     Date_toISOString := "2024-01-01T00:00:00.000Z" |}.

(** An endpoint of chain 1337 that answers, though slowly, with block
    height 0 and a gas price of 50 gwei. *)
Definition slow_idle_chain : NetworkManager.Oracle :=
  {| NetworkManager.rpc := λ _ _ method,
       match method with
       | NetworkManager.GetNetwork =>
           {| NetworkManager.took := 20; NetworkManager.answer := Ok 1337 |}
       | NetworkManager.GetBlockNumber =>
           {| NetworkManager.took := 1500; NetworkManager.answer := Ok 0 |}
       | NetworkManager.GetGasPrice =>
           {| NetworkManager.took := 30; NetworkManager.answer := Ok 50000000000 |}
       | _ => {| NetworkManager.took := 10; NetworkManager.answer := Ok 0 |}
       end;
     NetworkManager.timer_lag := λ _, 1%N;
     NetworkManager.formatUnits_gwei := λ wei, pretty (wei / 1000000000);
     NetworkManager.parseUnits_gwei := λ _, Ok 20000000000 |}.

(** An endpoint nobody listens on. *)
Definition refusing : NetworkManager.Oracle :=
  {| NetworkManager.rpc := λ _ _ _,
       {| NetworkManager.took := 3;
          NetworkManager.answer := Throw (Error "connect ECONNREFUSED 127.0.0.1:8545") |};
     NetworkManager.timer_lag := λ _, 0%N;
     NetworkManager.formatUnits_gwei := λ wei, pretty (wei / 1000000000);
     NetworkManager.parseUnits_gwei := λ _, Ok 20000000000 |}.

(** An endpoint that answers one liveness call in four. The requests of a
    benchmark have even indices: every round is a request and a pause. *)
Definition flaky : NetworkManager.Oracle :=
  {| NetworkManager.rpc := λ n _ _,
       if (n mod 8 =? 0)%nat
       then {| NetworkManager.took := 5; NetworkManager.answer := Ok 42 |}
       else {| NetworkManager.took := 3;
               NetworkManager.answer := Throw (Error "socket hang up") |};
     NetworkManager.timer_lag := λ _, 0%N;
     NetworkManager.formatUnits_gwei := λ wei, pretty (wei / 1000000000);
     NetworkManager.parseUnits_gwei := λ _, Ok 20000000000 |}.

Definition local_options : NetworkManager.NetworkOptions :=
  {| NetworkManager.o_name := "local";
     NetworkManager.o_rpcUrl := "http://127.0.0.1:8545";
     NetworkManager.o_chainId := Some 1337;
     NetworkManager.o_currency := None;
     NetworkManager.o_explorer := None;
     NetworkManager.o_testnet := None;
     NetworkManager.o_timeout := None;
     NetworkManager.o_maxGasPrice := Some "20";
     NetworkManager.o_retryAttempts := Some 3 |}.

Definition network_named (name : string) (active : option bool)
  : NetworkManager.NetworkConfig :=
  {| NetworkManager.name := name;
     NetworkManager.rpcUrl := "http://127.0.0.1:8545";
     NetworkManager.chainId := Some 1337;
     NetworkManager.currency := "ETH";
     NetworkManager.explorer := None;
     NetworkManager.isTestnet := Some false;
     NetworkManager.isActive := active;
     NetworkManager.lastValidated := Some 1700000000000;
     NetworkManager.maxGasPrice := None;
     NetworkManager.timeout := Some 10000;
     NetworkManager.retryAttempts := Some 3;
     NetworkManager.benchmarkResults := None;
     NetworkManager.monitoringEnabled := None;
     NetworkManager.monitoringInterval := None |}.

(** A manager that has just started, over a registry file. *)
Definition world_with (networks : list NetworkManager.NetworkConfig)
  : NetworkManager.World :=
  {| NetworkManager.file := Some networks;
     NetworkManager.providers := ∅;
     NetworkManager.activeNetwork := None;
     NetworkManager.clock := 1700000000000;
     NetworkManager.asked := 0;
     NetworkManager.trace := [] |}.

(** A registry of two networks, [a] being the active one. *)
Definition two_networks : NetworkManager.World :=
  world_with [network_named "a" (Some true); network_named "b" None].

(** A registry whose only network, [local], is not active. *)
Definition local_world : NetworkManager.World :=
  world_with [network_named "local" (Some false)].

(** A wallets directory that holds one wallet, [alice] on ethereum. *)
Definition wallet_named (name network address : string) : WalletData :=
  {| name := name; network := network; address := address;
     privateKey := "0x2a2a2a2a2a2a2a2a2a2a2a2a2a2a2a2a2a2a2a2a2a2a2a2a2a2a2a2a2a2a2a2a";
     mnemonic := None;
     createdAt := "2024-01-01T00:00:00.000Z";
     filePath := None; qrPath := None; qrString := None |}.

Definition alice : WalletData :=
  wallet_named "alice" "ethereum" "0x9858EfFD232B4033E47d90003D41EC34EcaEda94".
Definition al : WalletData :=
  wallet_named "al" "ethereum" "0x71C7656EC7ab88b098defB751B7401B5f6d8976F".
Definition bob : WalletData :=
  wallet_named "bob" "ethereum" "0x2546BcD3c84621e976D8185a91A922aE77ECEc30".
Definition carol : WalletData :=
  wallet_named "carol" "ethereum" "0xbDA5747bFD65F08deb54cb465eB87D40e51B197E".

Definition disk_with_alice : WalletManager.Disk :=
  {| WalletManager.files :=
       {[ "alice-ethereum-0x9858Ef.json" := WalletManager.WalletJson alice ]} |}.

(** A wallets directory that holds [alice] and [bob], and one that holds
    [alice] in the subdirectory [team]. *)
Definition disk_with_alice_and_bob : WalletManager.Disk :=
  {| WalletManager.files :=
       <["alice-ethereum-0x9858Ef.json" := WalletManager.WalletJson alice]>
         {[ "bob-ethereum-0x2546Bc.json" := WalletManager.WalletJson bob ]} |}.

Definition disk_with_alice_in_team : WalletManager.Disk :=
  {| WalletManager.files :=
       {[ "team/alice-ethereum-0x9858Ef.json" := WalletManager.WalletJson alice ]} |}.

(** Two wallets as objects with the same three keys. *)
Definition alice_object : WalletManager.JsObject :=
  [("name", "alice"); ("network", "ethereum");
   ("address", "0x9858EfFD232B4033E47d90003D41EC34EcaEda94")].

Definition bob_object : WalletManager.JsObject :=
  [("name", "bob"); ("network", "ethereum");
   ("address", "0x2546BcD3c84621e976D8185a91A922aE77ECEc30")].

(** The error of [fs.unlink] for a file that is not there. *)
Definition no_such_file : string → thrown :=
  λ path, Error ("ENOENT: no such file or directory, unlink '" +:+ path +:+ "'").

(** No date is parsed and every write succeeds. *)
Definition no_dates : string → option Z := λ _, None.
Definition writes_succeed : string → option thrown := λ _, None.

(** An endpoint of chain 5 that names its chain and answers nothing else. *)
Definition names_chain_only : NetworkManager.Oracle :=
  {| NetworkManager.rpc := λ _ _ method,
       match method with
       | NetworkManager.GetNetwork =>
           {| NetworkManager.took := 20; NetworkManager.answer := Ok 5 |}
       | _ =>
           {| NetworkManager.took := 40;
              NetworkManager.answer := Throw (Error "missing trie node") |}
       end;
     NetworkManager.timer_lag := λ _, 0%N;
     NetworkManager.formatUnits_gwei := λ wei, pretty (wei / 1000000000);
     NetworkManager.parseUnits_gwei := λ _, Ok 20000000000 |}.

(** An endpoint of chain 1337, at block 120 and 50 gwei, that does not
    know the method [net_peerCount]. *)
Definition no_peer_count : NetworkManager.Oracle :=
  {| NetworkManager.rpc := λ _ _ method,
       match method with
       | NetworkManager.GetNetwork =>
           {| NetworkManager.took := 20; NetworkManager.answer := Ok 1337 |}
       | NetworkManager.GetBlockNumber =>
           {| NetworkManager.took := 25; NetworkManager.answer := Ok 120 |}
       | NetworkManager.GetGasPrice =>
           {| NetworkManager.took := 30; NetworkManager.answer := Ok 50000000000 |}
       | _ =>
           {| NetworkManager.took := 10;
              NetworkManager.answer :=
                Throw (Error "the method net_peerCount does not exist/is not available") |}
       end;
     NetworkManager.timer_lag := λ _, 0%N;
     NetworkManager.formatUnits_gwei := λ wei, pretty (wei / 1000000000);
     NetworkManager.parseUnits_gwei := λ _, Ok 20000000000 |}.

(** The registry of two networks, forty days after their validation. *)
Definition forty_days_later : NetworkManager.World :=
  NetworkManager.advance (40 * 86400000) two_networks.

(** An export file that names [a] and a testnet [c]. *)
Definition export_of_a_and_c : NetworkManager.NetworkExportData :=
  {| NetworkManager.e_version := "1.0";
     NetworkManager.e_timestamp := 1700000000000;
     NetworkManager.e_networks :=
       [network_named "a" None;
        NetworkManager.set_isActive (Some true)
          {| NetworkManager.name := "c";
             NetworkManager.rpcUrl := "http://127.0.0.1:8545";
             NetworkManager.chainId := Some 1337;
             NetworkManager.currency := "ETH";
             NetworkManager.explorer := None;
             NetworkManager.isTestnet := Some true;
             NetworkManager.isActive := None;
             NetworkManager.lastValidated := None;
             NetworkManager.maxGasPrice := Some "20";
             NetworkManager.timeout := None;
             NetworkManager.retryAttempts := None;
             NetworkManager.benchmarkResults := None;
             NetworkManager.monitoringEnabled := None;
             NetworkManager.monitoringInterval := None |}] |}.

Definition exported_files : NetworkManager.Exports :=
  {[ "networks-export.json" := export_of_a_and_c ]}.

(** Two registry files with a repeated name, as a file edited by hand can
    hold: [d] twice with neither entry active, and [d] twice with the
    second entry active. *)
Definition d_twice : NetworkManager.World :=
  world_with [network_named "d" None; network_named "d" None].

Definition d_shadowed : NetworkManager.World :=
  world_with [network_named "d" (Some false); network_named "d" (Some true)].

(** A manager that monitors nothing yet. *)
Definition no_monitoring : NetworkManager.Monitoring :=
  {| NetworkManager.monitoringHandle := None;
     NetworkManager.armed := [];
     NetworkManager.timers_made := 0;
     NetworkManager.emitted := [] |}.

End Samples.

(** * What the properties are stated with *)

(** The names [initializeNetworks] registers. *)
Definition wallet_networks : list string :=
  ["bitcoin"; "ethereum"; "polygon"; "bsc"; "arbitrum"; "optimism"; "avalanche"].

(** The state a computation leaves is related to the one it started in. *)
Definition keeps {S A} (R : relation S) (m : ST S A) : Prop :=
  ∀ s, R s (m s).2.

(** The computation never throws. *)
Definition total {S A} (m : ST S A) : Prop :=
  ∀ s, ∃ a, (m s).1 = Ok a.

(** Whatever the computation returns satisfies [Q]. *)
Definition post {S A} (Q : A → Prop) (m : ST S A) : Prop :=
  ∀ s a, (m s).1 = Ok a → Q a.

(** Local variables do not matter to a relation on the state proper. *)
Definition on_state {L S} (R : relation S) : relation (L * S) :=
  λ a b, R a.2 b.2.

(** The persisted network collection: what [loadNetworks] reads. *)
Definition collection (w : NetworkManager.World) : list NetworkManager.NetworkConfig :=
  default [] (NetworkManager.file w).

(** A step that leaves the registry and [activeNetwork] alone; at most it
    creates the registry file, empty, where there was none. *)
Definition quiet (w w' : NetworkManager.World) : Prop :=
  collection w' = collection w
  ∧ NetworkManager.activeNetwork w' = NetworkManager.activeNetwork w
  ∧ (is_Some (NetworkManager.file w) → NetworkManager.file w' = NetworkManager.file w).

(** A step of a loop body that pushes nothing and leaves the registry alone. *)
Definition untouched (a b : list string * NetworkManager.World) : Prop :=
  b.1 = a.1 ∧ quiet a.2 b.2.

(** The entries that count as active, and the two parts of a well-formed
    registry. *)
Definition is_active (n : NetworkManager.NetworkConfig) : bool :=
  truthy_opt_bool (NetworkManager.isActive n).

Definition at_most_one_active (networks : list NetworkManager.NetworkConfig) : Prop :=
  (length (filter (λ n, is_active n = true) networks) ≤ 1)%nat.

Definition unique_names (networks : list NetworkManager.NetworkConfig) : Prop :=
  NoDup (NetworkManager.name <$> networks).

(** The three calls of the registry that the invariant is about. *)
Inductive Call : Type :=
| CallAdd (options : NetworkManager.NetworkOptions)
| CallSwitch (name : string)
| CallRemove (name : string).

Definition run_call (net : NetworkManager.Oracle) (w : NetworkManager.World)
    (c : Call) : NetworkManager.World :=
  match c with
  | CallAdd options => (NetworkManager.addNetwork net options w).2
  | CallSwitch name => (NetworkManager.switchNetwork net name w).2
  | CallRemove name => (NetworkManager.removeNetwork name w).2
  end.

Definition run_calls (net : NetworkManager.Oracle) (calls : list Call)
    (w : NetworkManager.World) : NetworkManager.World :=
  foldl (run_call net) w calls.

(** What the registry has to satisfy: names are unique (the data model), and
    at most one entry is active. *)
Definition registry_ok (w : NetworkManager.World) : Prop :=
  unique_names (collection w) ∧ at_most_one_active (collection w).

(** The liveness calls of a run, by outcome. *)
Definition is_liveness_call (ok : bool) (e : NetworkManager.Event) : bool :=
  match e with
  | NetworkManager.Request _ NetworkManager.GetBlockNumber ok' => Bool.eqb ok ok'
  | _ => false
  end.

Definition liveness_calls (ok : bool) (events : list NetworkManager.Event) : nat :=
  length (List.filter (is_liveness_call ok) events).

(** One round of the loop: the request, what it does to the local
    variables, and the pause. *)
Definition round_world (net : NetworkManager.Oracle) (provider : string)
    (w : NetworkManager.World) : NetworkManager.World :=
  let reply :=
    NetworkManager.rpc net (NetworkManager.asked w) provider
      NetworkManager.GetBlockNumber in
  let requested :=
    NetworkManager.advance (Z.of_N (NetworkManager.took reply))
      (NetworkManager.record
         (NetworkManager.Request provider NetworkManager.GetBlockNumber
            (is_Ok (NetworkManager.answer reply))) w) in
  NetworkManager.advance
    (Z.max 0 100
     + Z.of_N (NetworkManager.timer_lag net (NetworkManager.asked requested)))
    (NetworkManager.record (NetworkManager.Sleep 100) requested).

Definition round_locals (net : NetworkManager.Oracle) (provider : string)
    (l : NetworkManager.BenchLocals) (w : NetworkManager.World)
  : NetworkManager.BenchLocals :=
  let reply :=
    NetworkManager.rpc net (NetworkManager.asked w) provider
      NetworkManager.GetBlockNumber in
  match NetworkManager.answer reply with
  | Ok _ =>
      {| NetworkManager.results :=
           NetworkManager.results l ++ [Z.of_N (NetworkManager.took reply)];
         NetworkManager.bench_errors := NetworkManager.bench_errors l;
         NetworkManager.requestCount := NetworkManager.requestCount l + 1 |}
  | Throw e =>
      {| NetworkManager.results := NetworkManager.results l;
         NetworkManager.bench_errors := NetworkManager.bench_errors l ++ [e];
         NetworkManager.requestCount := NetworkManager.requestCount l |}
  end.

(** A number that is greater than one. *)
Definition exceeds_one (x : NetworkManager.number) : Prop :=
  match x with
  | NetworkManager.Finite q => (1 < q)%Q
  | NetworkManager.PosInfinity => True
  | NetworkManager.NegInfinity | NetworkManager.NaN => False
  end.

(** Where an entry of the error list of [validateNetwork] can come from:
    the chain id check, or the [catch] of the connection. *)
Definition validation_error (options : NetworkManager.NetworkOptions) (e : string) : Prop :=
  (∃ chain : Z,
     e = "Chain ID mismatch: expected "
           +:+ pretty (default 0 (NetworkManager.o_chainId options))
           +:+ ", got " +:+ pretty chain)
  ∨ (∃ thrown_error, e = NetworkManager.connection_error thrown_error).

(** Every cached provider is the one of the registry entry of its name. *)
Definition cache_coherent (w : NetworkManager.World) : Prop :=
  ∀ name url,
    NetworkManager.providers w !! name = Some url →
    ∃ network,
      find (NetworkManager.named name) (collection w) = Some network
      ∧ NetworkManager.rpcUrl network = url.

(** A step that leaves the registry alone and adds to the provider cache
    only what the registry says. *)
Definition cache_step (w w' : NetworkManager.World) : Prop :=
  collection w' = collection w
  ∧ ∀ name url,
      NetworkManager.providers w' !! name = Some url →
      NetworkManager.providers w !! name = Some url
      ∨ ∃ network,
          find (NetworkManager.named name) (collection w) = Some network
          ∧ NetworkManager.rpcUrl network = url.

(** Two entries with the same name and the same URL. *)
Definition same_endpoint (a b : NetworkManager.NetworkConfig) : Prop :=
  NetworkManager.name a = NetworkManager.name b
  ∧ NetworkManager.rpcUrl a = NetworkManager.rpcUrl b.

(** The registry and the provider cache as the manager means them to be. *)
Definition well_formed (w : NetworkManager.World) : Prop :=
  registry_ok w ∧ cache_coherent w.

(** A step under which a property of the state, once true, stays true. *)
Definition preserves {S} (P : S → Prop) : relation S := λ s s', P s → P s'.

(** The methods of the manager that work on the registry: one call each. *)
Inductive Op : Type :=
| OpList (options : NetworkManager.NetworkListOptions)
| OpAdd (options : NetworkManager.NetworkOptions)
| OpSwitch (name : string)
| OpStatus (name : option string)
| OpValidate (options : NetworkManager.NetworkOptions)
| OpSync (name : option string)
| OpRemove (name : string)
| OpBenchmark (fuel : nat) (name : string) (duration : Z)
| OpImport (importData : NetworkManager.NetworkExportData) (overwrite : bool)
| OpCleanup (options : NetworkManager.CleanupOptions)
| OpTest (options : NetworkManager.TestOptions)
| OpInfo (name : option string).

Definition run_op (net : NetworkManager.Oracle) (w : NetworkManager.World) (op : Op)
  : NetworkManager.World :=
  match op with
  | OpList options => (NetworkManager.listNetworks options w).2
  | OpAdd options => (NetworkManager.addNetwork net options w).2
  | OpSwitch name => (NetworkManager.switchNetwork net name w).2
  | OpStatus name => (NetworkManager.getNetworkStatus net name w).2
  | OpValidate options => (NetworkManager.validateNetwork net options w).2
  | OpSync name => (NetworkManager.syncNetwork net name w).2
  | OpRemove name => (NetworkManager.removeNetwork name w).2
  | OpBenchmark fuel name duration =>
      (NetworkManager.benchmarkNetwork net fuel name duration w).2
  | OpImport importData overwrite =>
      (NetworkManager.import_parsed net importData overwrite w).2
  | OpCleanup options => (NetworkManager.cleanup net options w).2
  | OpTest options => (NetworkManager.testNetwork net options w).2
  | OpInfo name => (NetworkManager.getNetworkInfo net name w).2
  end.

Definition run_ops (net : NetworkManager.Oracle) (ops : list Op)
    (w : NetworkManager.World) : NetworkManager.World :=
  foldl (run_op net) w ops.

(** The registry has unique names and holds the entry [n]. *)
Definition holds (n : NetworkManager.NetworkConfig) (w : NetworkManager.World) : Prop :=
  unique_names (collection w) ∧ n ∈ collection w.

(** An entry as [addNetwork] stores it when it is called by
    [importNetworks]: not a testnet, not active, without a gas price
    ceiling and without benchmark results. *)
Definition stored_afresh (n : NetworkManager.NetworkConfig) : Prop :=
  NetworkManager.isTestnet n = Some false
  ∧ NetworkManager.isActive n = Some false
  ∧ NetworkManager.maxGasPrice n = None
  ∧ NetworkManager.benchmarkResults n = None.

(** A step after which every entry of the registry was there before or
    has been stored afresh. *)
Definition kept_or_afresh (w w' : NetworkManager.World) : Prop :=
  ∀ n, n ∈ collection w' → n ∈ collection w ∨ stored_afresh n.

(** A step of the loop of [cleanup], on the list [removed] and the manager:
    entries only leave the registry, an active one never does, and
    [removed] grows by one name of the registry for each entry that left. *)
Definition cleanup_step (a b : list string * NetworkManager.World) : Prop :=
  collection b.2 `sublist_of` collection a.2
  ∧ (length (collection a.2) + length a.1 = length (collection b.2) + length b.1)%nat
  ∧ (∀ n, n ∈ collection a.2 → is_active n = true → n ∈ collection b.2)
  ∧ ∃ names,
      b.1 = a.1 ++ names
      ∧ Forall (λ r, r ∈ NetworkManager.name <$> collection a.2) names.

(** The entries that [cleanup] removes for their age: validated more than
    [days] days before [today], and not active. *)
Definition outdated (today days : Z) (n : NetworkManager.NetworkConfig) : bool :=
  negb (is_active n)
  && match NetworkManager.lastValidated n with
     | Some validated => days * 86400000 <? today - validated
     | None => false
     end.

(** The timers as the manager means them to be: none is armed and the
    manager holds no handle, or one is armed and the manager holds its
    handle. *)
Definition one_timer (m : NetworkManager.Monitoring) : Prop :=
  match NetworkManager.monitoringHandle m with
  | None => NetworkManager.armed m = []
  | Some h => ∃ t, NetworkManager.armed m = [t] ∧ NetworkManager.handle t = h
  end.

(** The two calls of monitoring. *)
Inductive MonitoringCall : Type :=
| CallStart (name : string) (interval : Z)
| CallStop.

Definition run_monitoring (net : NetworkManager.Oracle)
    (s : NetworkManager.Monitoring * NetworkManager.World) (c : MonitoringCall)
  : NetworkManager.Monitoring * NetworkManager.World :=
  match c with
  | CallStart name interval => (NetworkManager.startNetworkMonitoring net name interval s).2
  | CallStop => (NetworkManager.stopNetworkMonitoring s).2
  end.

(** Every file of the wallets directory holds a wallet and bears the name
    that [saveWallet] and [createWallet] give the file of that wallet. *)
Definition named_after_wallets (d : WalletManager.Disk) : Prop :=
  ∀ file content,
    WalletManager.files d !! file = Some content →
    ∃ wallet,
      content = WalletManager.WalletJson wallet
      ∧ file = WalletManager.walletFileName wallet None.

(** The filter of [deleteWallets]. *)
Definition delete_filter (name : string) (network : option string)
  : WalletManager.WalletFilter :=
  {| WalletManager.f_name := Some name; WalletManager.f_network := network;
     WalletManager.f_date := None; WalletManager.f_hash := None |}.

(** The string holds the character. *)
Fixpoint has_char (c : Ascii.ascii) (s : string) : bool :=
  match s with
  | EmptyString => false
  | String a rest => Ascii.eqb a c || has_char c rest
  end.

(** The string is made of decimal digits, as the keys that JavaScript
    treats as array indices are. *)
Definition is_digit (c : Ascii.ascii) : bool :=
  let n := Ascii.N_of_ascii c in ((48 <=? n) && (n <=? 57))%N.

Fixpoint all_digits (s : string) : bool :=
  match s with
  | EmptyString => true
  | String c rest => is_digit c && all_digits rest
  end.

(** A key that survives a header line: no comma, no line feed, and not
    an array index. *)
Definition csv_key (key : string) : Prop :=
  has_char WalletManager.comma key = false
  ∧ has_char WalletManager.newline key = false
  ∧ all_digits key = false.

(** A value that survives a row: no comma, no line feed, no double quote. *)
Definition csv_value (value : string) : Prop :=
  has_char WalletManager.comma value = false
  ∧ has_char WalletManager.newline value = false
  ∧ has_char WalletManager.quote value = false.

(** * Properties *)

(** Unfolding of the operations of [ST], for proofs that run a method one
    statement at a time. *)
Ltac st_unfold :=
  unfold mbind, mret, ST_bind, ST_ret, result_bind, result_ret, try_catch, gets,
    modify, throw, of_result, lift, local, set_local, with_locals in *.
Ltac st_run := repeat (st_unfold; cbn beta iota zeta delta [fst snd] in *).

(** ** BlockchainManager *)

Section BlockchainManagerFacts.
Import BlockchainManager.
Variable lib : Libs.


Lemma supportedNetworks_lookup (key : string) (config : BlockchainConfig) :
  supportedNetworks lib !! key = Some config →
  key ∈ wallet_networks
  ∧ (config = bitcoinConfig lib ∨ ∃ network, config = evmConfig lib network).
Proof.
  unfold supportedNetworks, evmNetworks, wallet_networks; simpl.
  repeat (rewrite lookup_insert; case_decide;
          [ subst key; intros [= <-]; split; [set_solver | eauto] | ]).
  rewrite lookup_empty. discriminate.
Qed.

Lemma supportedNetworks_lookup_None (key : string) :
  key ∉ wallet_networks → supportedNetworks lib !! key = None.
Proof.
  intros Hkey. destruct (supportedNetworks lib !! key) as [config|] eqn:E; [|done].
  apply supportedNetworks_lookup in E as [? _]. contradiction.
Qed.

Lemma generateBitcoinWallet_mnemonic (useMnemonic : bool) (wallet : BlockchainWallet) :
  generateBitcoinWallet lib useMnemonic = Ok wallet →
  (is_Some (bw_mnemonic wallet) ↔ useMnemonic = true).
Proof.
  unfold generateBitcoinWallet.
  destruct useMnemonic; repeat case_match; intros [= <-]; simpl;
    (split; [done | intros; try discriminate; eauto]).
Qed.

Lemma generateEVMWallet_mnemonic (useMnemonic : bool) (wallet : BlockchainWallet) :
  is_Some (eth_mnemonic (ethers_Wallet_createRandom lib)) →
  generateEVMWallet lib useMnemonic = Ok wallet →
  (is_Some (bw_mnemonic wallet) ↔ useMnemonic = true).
Proof.
  intros [m Hm]. unfold generateEVMWallet.
  destruct useMnemonic; intros [= <-]; simpl.
  - rewrite Hm. simpl. split; eauto.
  - split; [intros [? [=]] | discriminate].
Qed.

Lemma supportedNetworks_lookup_Some (key : string) :
  key ∈ wallet_networks → is_Some (supportedNetworks lib !! key).
Proof.
  unfold wallet_networks. rewrite !elem_of_cons, elem_of_nil.
  unfold supportedNetworks, evmNetworks; simpl.
  intros H; repeat (destruct H as [-> | H]; [by eexists |]); done.
Qed.

End BlockchainManagerFacts.

(** C9. Wallet creation succeeds only for bitcoin, ethereum, polygon, bsc,
    arbitrum, optimism and avalanche, the name being compared in lower
    case; for a registered name the call is handed to the generator of that
    network, and for every other string, solana and tezos among them,
    [createWallet] throws the unsupported-network error. *)
Theorem createWallet_only_registered_networks
    (lib : BlockchainManager.Libs) (name network : string) (useMnemonic : bool) :
  (∀ wallet, BlockchainManager.createWallet lib name network useMnemonic = Ok wallet →
             toLowerCase network ∈ wallet_networks)
  ∧ (toLowerCase network ∈ wallet_networks →
     ∃ config,
       BlockchainManager.supportedNetworks lib !! toLowerCase network = Some config
       ∧ BlockchainManager.createWallet lib name network useMnemonic
         = BlockchainManager.generateWallet config name useMnemonic)
  ∧ (toLowerCase network ∉ wallet_networks →
     BlockchainManager.createWallet lib name network useMnemonic
     = Throw (Error ("Unsupported blockchain network: " +:+ network)))
  ∧ BlockchainManager.createWallet lib name "solana" useMnemonic
    = Throw (Error "Unsupported blockchain network: solana")
  ∧ BlockchainManager.createWallet lib name "tezos" useMnemonic
    = Throw (Error "Unsupported blockchain network: tezos").
Proof.
  unfold BlockchainManager.createWallet.
  split; [|split; [|split; [|split]]].
  - intros wallet.
    destruct (BlockchainManager.supportedNetworks lib !! toLowerCase network)
      as [config|] eqn:E; [|discriminate].
    intros _. by apply supportedNetworks_lookup in E as [? _].
  - intros Hin. destruct (supportedNetworks_lookup_Some lib _ Hin) as [config E].
    exists config. by rewrite E.
  - intros Hout. by rewrite supportedNetworks_lookup_None.
  - rewrite supportedNetworks_lookup_None; [done|].
    compute_done.
  - rewrite supportedNetworks_lookup_None; [done|].
    compute_done.
Qed.

(** The name is matched whatever its case ([PoLyGoN]), and a family the
    manager has no generator for is refused ([Solana]). *)
Lemma createWallet_only_registered_networks_witness :
  (∃ wallet, BlockchainManager.createWallet Samples.fixed_libs "alice" "PoLyGoN" false
             = Ok wallet
             ∧ BlockchainManager.network wallet = "polygon")
  ∧ BlockchainManager.createWallet Samples.fixed_libs "alice" "Solana" false
    = Throw (Error "Unsupported blockchain network: Solana").
Proof.
  destruct (createWallet_only_registered_networks Samples.fixed_libs "alice" "PoLyGoN" false)
    as (_ & Hin & _).
  destruct (createWallet_only_registered_networks Samples.fixed_libs "alice" "Solana" false)
    as (_ & _ & Hout & _).
  split.
  - eexists. split; [vm_compute; reflexivity | reflexivity].
  - apply Hout. compute_done.
Defined.

(** C5. The record a wallet creation returns carries a mnemonic exactly
    when it was asked for with [useMnemonic = true]: for the Bitcoin
    deriver, for the EVM deriver (ethers' [createRandom] builds its wallet
    from a phrase: the hypothesis), and for [createWallet] on any network. *)
Theorem mnemonic_iff_phrase_based
    (lib : BlockchainManager.Libs) (name network : string) (useMnemonic : bool) :
  is_Some (BlockchainManager.eth_mnemonic
             (BlockchainManager.ethers_Wallet_createRandom lib)) →
  (∀ wallet, BlockchainManager.generateBitcoinWallet lib useMnemonic = Ok wallet →
     (is_Some (BlockchainManager.bw_mnemonic wallet) ↔ useMnemonic = true))
  ∧ (∀ wallet, BlockchainManager.generateEVMWallet lib useMnemonic = Ok wallet →
       (is_Some (BlockchainManager.bw_mnemonic wallet) ↔ useMnemonic = true))
  ∧ (∀ wallet, BlockchainManager.createWallet lib name network useMnemonic = Ok wallet →
       (is_Some (BlockchainManager.mnemonic wallet) ↔ useMnemonic = true)).
Proof.
  intros Hrandom. split; [|split].
  - apply generateBitcoinWallet_mnemonic.
  - intros wallet. by apply generateEVMWallet_mnemonic.
  - intros wallet. unfold BlockchainManager.createWallet.
    destruct (BlockchainManager.supportedNetworks lib !! toLowerCase network)
      as [config|] eqn:E; [|discriminate].
    apply supportedNetworks_lookup in E as [_ [-> | [evm ->]]];
      cbn [BlockchainManager.generateWallet BlockchainManager.bitcoinConfig
           BlockchainManager.evmConfig].
    + destruct (BlockchainManager.generateBitcoinWallet lib useMnemonic)
        as [bw|] eqn:Ebw; [|discriminate].
      intros [= <-]. exact (generateBitcoinWallet_mnemonic lib _ _ Ebw).
    + destruct (BlockchainManager.generateEVMWallet lib useMnemonic)
        as [bw|] eqn:Ebw; [|discriminate].
      intros [= <-]. exact (generateEVMWallet_mnemonic lib _ _ Hrandom Ebw).
Qed.

Lemma mnemonic_iff_phrase_based_witness :
  (∃ wallet, BlockchainManager.createWallet Samples.fixed_libs "alice" "bitcoin" true
             = Ok wallet
             ∧ is_Some (BlockchainManager.mnemonic wallet))
  ∧ (∃ wallet, BlockchainManager.createWallet Samples.fixed_libs "bob" "ethereum" false
               = Ok wallet
               ∧ ¬ is_Some (BlockchainManager.mnemonic wallet)).
Proof.
  assert (Hrandom : is_Some (BlockchainManager.eth_mnemonic
            (BlockchainManager.ethers_Wallet_createRandom Samples.fixed_libs)))
    by (eexists; reflexivity).
  split.
  - eexists. split; [vm_compute; reflexivity |].
    eapply (mnemonic_iff_phrase_based Samples.fixed_libs "alice" "bitcoin" true Hrandom);
      [vm_compute; reflexivity | reflexivity].
  - eexists. split; [vm_compute; reflexivity |].
    intros Hsome.
    eapply (mnemonic_iff_phrase_based Samples.fixed_libs "bob" "ethereum" false Hrandom)
      in Hsome; [discriminate | vm_compute; reflexivity].
Defined.

(** ** WalletManager *)

Section WalletManagerFacts.
Import BlockchainManager WalletManager.
Variable Date_parse : string → option Z.
Variable write_error : string → option thrown.

(** The filter [walletExists] hands to [findWallets] keeps a wallet when its
    network is the asked one and its name contains the asked name. *)
Lemma matchesFilter_exists (wallet : WalletData) (name network : string) :
  truthy_string name = true → truthy_string network = true →
  matchesFilter Date_parse wallet
    {| f_name := Some name; f_network := Some network;
       f_date := None; f_hash := None |}
  = bool_decide (BlockchainManager.network wallet = network)
    && includes (BlockchainManager.name wallet) name.
Proof.
  intros Hname Hnetwork. unfold matchesFilter; simpl.
  rewrite Hname, Hnetwork; simpl.
  destruct (decide (BlockchainManager.network wallet = network)) as [->|Hne].
  - rewrite !bool_decide_eq_true_2 by done. simpl.
    by destruct (includes _ _).
  - rewrite !bool_decide_eq_false_2 by congruence. done.
Qed.

Lemma read_wallets_parsable (found : list (string * JsonFile)) (options : WalletFilter) :
  Forall (λ entry, entry.2 ≠ Unparsable) found →
  ∃ wallets,
    read_wallets Date_parse found options = Ok wallets
    ∧ ∀ wallet, wallet ∈ wallets ↔
        matchesFilter Date_parse wallet options = true
        ∧ ∃ file, (file, WalletJson wallet) ∈ found.
Proof.
  induction 1 as [|[file [wallet|]] found Hparse _ IH]; simpl.
  - exists []. split; [done|]. intros wallet. rewrite elem_of_nil.
    split; [done|]. intros [_ [file Hin]]. by apply elem_of_nil in Hin.
  - destruct IH as (wallets & -> & Hspec). simpl.
    eexists. split; [done|]. intros other.
    destruct (matchesFilter Date_parse wallet options) eqn:Hm.
    + rewrite elem_of_cons, Hspec. split.
      * intros [-> | [? [f ?]]]; (split; [done|]); [exists file | exists f];
          apply elem_of_cons; eauto.
      * intros [? [f Hin]]. apply elem_of_cons in Hin as [[= _ ->] | Hin]; eauto.
    + rewrite Hspec. split.
      * intros [? [f ?]]. split; [done|]. exists f. apply elem_of_cons; eauto.
      * intros [? [f Hin]]. apply elem_of_cons in Hin as [[= _ ->] | Hin];
          [congruence | eauto].
  - done.
Qed.

(** [walletExists(name, network)] answers whether some stored wallet of that
    network has a name that contains [name]. *)
Lemma walletExists_spec (name network : string) (disk : Disk) :
  truthy_string name = true → truthy_string network = true →
  (∀ file, files disk !! file ≠ Some Unparsable) →
  ∃ answer,
    walletExists Date_parse name network disk = (Ok answer, disk)
    ∧ (answer = true ↔
         ∃ file wallet,
           files disk !! file = Some (WalletJson wallet)
           ∧ BlockchainManager.network wallet = network
           ∧ includes (BlockchainManager.name wallet) name = true).
Proof.
  intros Hname Hnetwork Hparse.
  unfold walletExists, findWallets, listWallets. st_run.
  destruct (read_wallets_parsable (map_to_list (files disk))
              {| f_name := Some name; f_network := Some network;
                 f_date := None; f_hash := None |}) as (wallets & -> & Hspec).
  { apply Forall_forall. intros [file content] Hin%elem_of_map_to_list; simpl.
    intros ->. by apply (Hparse file). }
  simpl. eexists. split; [done|].
  rewrite Nat.ltb_lt. split.
  - intros Hlen. destruct wallets as [|wallet rest]; [simpl in Hlen; lia|].
    destruct (Hspec wallet) as [[Hm [file Hin]] _]; [apply elem_of_cons; eauto|].
    rewrite matchesFilter_exists in Hm by done.
    apply andb_true_iff in Hm as [Hnet%bool_decide_eq_true Hinc].
    exists file, wallet. by rewrite <- elem_of_map_to_list.
  - intros (file & wallet & Hin & Hnet & Hinc).
    assert (wallet ∈ wallets) as Hw.
    { apply Hspec. split.
      - rewrite matchesFilter_exists by done.
        by rewrite bool_decide_eq_true_2, Hinc.
      - exists file. by apply elem_of_map_to_list. }
    destruct wallets; [by apply elem_of_nil in Hw | simpl; lia].
Qed.

End WalletManagerFacts.

(** The scenario of the specification: three records, of which [alice] is
    already stored. *)
Example importWallets_three_records_one_collision :
  WalletManager.importWallets Samples.no_dates Samples.writes_succeed
    [Samples.alice; Samples.bob; Samples.carol] "ethereum" (Some false)
    Samples.disk_with_alice
  = (Ok {| WalletManager.imported := 2; WalletManager.skipped := 1 |},
     {| WalletManager.files :=
          <["carol-ethereum-0xbDA574.json" := WalletManager.WalletJson Samples.carol]>
            (<["bob-ethereum-0x2546Bc.json" := WalletManager.WalletJson Samples.bob]>
               (WalletManager.files Samples.disk_with_alice)) |}).
Proof. vm_compute. reflexivity. Qed.

(** C8 at its failing input. No wallet named [al] is stored, yet importing
    the record [al] with [overwrite = false] writes nothing and counts the
    record as skipped: [walletExists] looks the name up with the substring
    filter of [findWallets], and [alice] contains [al]. *)
Theorem importWallets_skips_name_contained_in_stored_name :
  (∀ file wallet,
     WalletManager.files Samples.disk_with_alice !! file
       = Some (WalletManager.WalletJson wallet) →
     BlockchainManager.name wallet ≠ "al")
  ∧ WalletManager.importWallets Samples.no_dates Samples.writes_succeed
      [Samples.al] "ethereum" (Some false) Samples.disk_with_alice
    = (Ok {| WalletManager.imported := 0; WalletManager.skipped := 1 |},
       Samples.disk_with_alice).
Proof.
  split.
  - intros file wallet. unfold Samples.disk_with_alice; simpl.
    intros [_ [= <-]]%lookup_singleton_Some. discriminate.
  - vm_compute. reflexivity.
Qed.

(** ** Reasoning about [ST] computations *)

Section Hoare.
Context {S : Type}.


Lemma run_bind {A B} (m : ST S A) (f : A → ST S B) (s : S) :
  (m ≫= f) s
  = match m s with
    | (Ok a, s') => f a s'
    | (Throw e, s') => (Throw e, s')
    end.
Proof. reflexivity. Qed.

Lemma run_try_catch {A} (body : ST S A) (handler : thrown → ST S A) (s : S) :
  try_catch body handler s
  = match body s with
    | (Ok a, s') => (Ok a, s')
    | (Throw e, s') => handler e s'
    end.
Proof. reflexivity. Qed.

(** [catch (error) { throw error }] changes nothing. *)
Lemma try_catch_rethrow {A} (body : ST S A) (s : S) :
  try_catch body (λ error, throw error) s = body s.
Proof. unfold try_catch, throw. by destruct (body s) as [[a|e] s']. Qed.

Section Keeps.
Context (R : relation S) `{!PreOrder R}.

Lemma keeps_ret {A} (a : A) : keeps R (mret a).
Proof. intros s. simpl. reflexivity. Qed.

Lemma keeps_throw {A} (e : thrown) : keeps R (throw (A:=A) e).
Proof. intros s. simpl. reflexivity. Qed.

Lemma keeps_of_result {A} (r : result A) : keeps R (of_result r).
Proof. intros s. simpl. reflexivity. Qed.

Lemma keeps_gets {A} (f : S → A) : keeps R (gets f).
Proof. intros s. simpl. reflexivity. Qed.

Lemma keeps_bind {A B} (m : ST S A) (f : A → ST S B) :
  keeps R m → (∀ a, keeps R (f a)) → keeps R (m ≫= f).
Proof.
  intros Hm Hf s. rewrite run_bind. specialize (Hm s).
  destruct (m s) as [[a|e] s']; simpl in *; [|done].
  etrans; [exact Hm | apply Hf].
Qed.

Lemma keeps_try_catch {A} (body : ST S A) (handler : thrown → ST S A) :
  keeps R body → (∀ e, keeps R (handler e)) → keeps R (try_catch body handler).
Proof.
  intros Hm Hh s. rewrite run_try_catch. specialize (Hm s).
  destruct (body s) as [[a|e] s']; simpl in *; [done|].
  etrans; [exact Hm | apply Hh].
Qed.

Lemma keeps_when (b : bool) (m : ST S unit) :
  keeps R m → keeps R (NetworkManager.when b m).
Proof. intros Hm. destruct b; [done | apply keeps_ret]. Qed.

Lemma keeps_for_each {A} (xs : list A) (body : A → ST S unit) :
  (∀ x, keeps R (body x)) → keeps R (for_each xs body).
Proof.
  intros Hbody. induction xs as [|x xs IH]; simpl.
  - apply keeps_ret.
  - apply keeps_bind; [apply Hbody | intros _; exact IH].
Qed.

End Keeps.

Lemma total_ret {A} (a : A) : total (mret a : ST S A).
Proof. intros s. by exists a. Qed.

Lemma total_gets {A} (f : S → A) : total (gets f).
Proof. intros s. by eexists. Qed.

Lemma total_modify (f : S → S) : total (modify f).
Proof. intros s. by eexists. Qed.

Lemma total_bind {A B} (m : ST S A) (f : A → ST S B) :
  total m → (∀ a, total (f a)) → total (m ≫= f).
Proof.
  intros Hm Hf s. rewrite run_bind. destruct (Hm s) as [a Ha].
  destruct (m s) as [r s']; simpl in *; subst r. apply Hf.
Qed.

Lemma total_try_catch {A} (body : ST S A) (handler : thrown → ST S A) :
  (∀ e, total (handler e)) → total (try_catch body handler).
Proof.
  intros Hh s. rewrite run_try_catch.
  destruct (body s) as [[a|e] s']; [by exists a | apply Hh].
Qed.

Lemma post_ret {A} (Q : A → Prop) (a : A) : Q a → post Q (mret a : ST S A).
Proof. intros HQ s b [= <-]. exact HQ. Qed.

Lemma post_throw {A} (Q : A → Prop) (e : thrown) : post Q (throw (S:=S) e).
Proof. intros s a [=]. Qed.

Lemma post_bind {A B} (Q : B → Prop) (m : ST S A) (f : A → ST S B) :
  (∀ a, post Q (f a)) → post Q (m ≫= f).
Proof.
  intros Hf s b. rewrite run_bind.
  destruct (m s) as [[a|e] s']; [apply Hf | discriminate].
Qed.

Lemma post_try_catch {A} (Q : A → Prop) (body : ST S A) (handler : thrown → ST S A) :
  post Q body → (∀ e, post Q (handler e)) → post Q (try_catch body handler).
Proof.
  intros Hb Hh s a. rewrite run_try_catch. specialize (Hb s).
  destruct (body s) as [[b|e] s']; simpl in *; [|apply Hh].
  intros [= <-]. by apply Hb.
Qed.

End Hoare.


#[local] Instance on_state_preorder {L S} (R : relation S) `{!PreOrder R} :
  PreOrder (on_state (L:=L) R).
Proof.
  split.
  - intros a. unfold on_state. reflexivity.
  - intros a b c. unfold on_state. apply transitivity.
Qed.

Lemma keeps_lift {L S A} (R : relation S) (m : ST S A) :
  keeps R m → keeps (on_state (L:=L) R) (lift m).
Proof. intros Hm [l s]. unfold on_state, lift; simpl. apply Hm. Qed.

Lemma keeps_local {L S A} (R : relation S) `{!PreOrder R} (f : L → A) :
  keeps (on_state R) (local (S:=S) f).
Proof. intros [l s]. unfold on_state; simpl. reflexivity. Qed.

Lemma keeps_set_local {L S} (R : relation S) `{!PreOrder R} (f : L → L) :
  keeps (on_state R) (set_local (S:=S) f).
Proof. intros [l s]. unfold on_state; simpl. reflexivity. Qed.

Lemma keeps_with_locals {L S A} (R : relation S) (init : L) (m : ST (L * S) A) :
  keeps (on_state R) m → keeps R (with_locals init m).
Proof. intros Hm s. unfold with_locals; simpl. apply (Hm (init, s)). Qed.

Lemma total_with_locals {L S A} (init : L) (m : ST (L * S) A) :
  total m → total (with_locals init m).
Proof. intros Hm s. unfold with_locals; simpl. apply Hm. Qed.

Lemma total_set_local {L S} (f : L → L) : total (set_local (S:=S) f).
Proof. intros s. by eexists. Qed.

Lemma total_local {L S A} (f : L → A) : total (local (S:=S) f).
Proof. intros s. by eexists. Qed.

(** ** NetworkManager *)


#[local] Instance quiet_preorder : PreOrder quiet.
Proof.
  split.
  - by intros w.
  - intros w1 w2 w3 (Hc & Ha & Hf) (Hc' & Ha' & Hf').
    split; [congruence | split; [congruence|]].
    intros Hsome. rewrite Hf' by (by rewrite Hf). by apply Hf.
Qed.

Create HintDb keeps.

Ltac keeps_auto :=
  repeat first
    [ progress intros
    | progress cbv zeta
    | match goal with |- PreOrder _ => apply _ end
    | solve [eauto with keeps]
    | apply keeps_ret | apply keeps_throw | apply keeps_gets
    | apply keeps_of_result | apply keeps_local | apply keeps_set_local
    | apply keeps_lift | apply keeps_with_locals
    | apply keeps_bind | apply keeps_try_catch | apply keeps_when
    | apply keeps_for_each
    | match goal with
      | |- keeps _ (match ?x with _ => _ end) => destruct x
      end ].

Section NetworkManagerFacts.
Import NetworkManager.
Variable net : Oracle.

Lemma Date_now_quiet : keeps quiet Date_now.
Proof. apply keeps_gets; apply _. Qed.

Lemma issue_quiet (url : string) (method : Method) : keeps quiet (issue net url method).
Proof. by intros w. Qed.

Lemma await_quiet {A} (p : Reply A) : keeps quiet (await p).
Proof. by intros w. Qed.

Lemma sleep_quiet (ms : Z) : keeps quiet (sleep net ms).
Proof. by intros w. Qed.

Lemma request_quiet (url : string) (method : Method) : keeps quiet (request net url method).
Proof.
  apply keeps_bind; [apply _ | apply issue_quiet | intros p; apply await_quiet].
Qed.

Lemma loadNetworks_quiet : keeps quiet loadNetworks.
Proof.
  intros w. unfold loadNetworks, quiet, collection. st_run.
  destruct (file w) as [networks|] eqn:E; simpl; rewrite ?E.
  - done.
  - repeat split; done.
Qed.

Lemma loadNetworks_run (w : World) :
  ∃ w', loadNetworks w = (Ok (collection w), w')
        ∧ quiet w w' ∧ file w' = Some (collection w)
        ∧ providers w' = providers w.
Proof.
  unfold loadNetworks, quiet, collection. st_run.
  destruct (file w) as [networks|] eqn:E; simpl; eexists; (split; [done|]); simpl;
    rewrite ?E; repeat split; done.
Qed.

#[local] Hint Resolve Date_now_quiet issue_quiet await_quiet sleep_quiet
  request_quiet loadNetworks_quiet : keeps.

Lemma getProvider_quiet (networkName : string) : keeps quiet (getProvider networkName).
Proof. unfold getProvider. keeps_auto. Qed.

#[local] Hint Resolve getProvider_quiet : keeps.

Lemma validateNetwork_quiet (options : NetworkOptions) :
  keeps quiet (validateNetwork net options).
Proof. unfold validateNetwork. keeps_auto. Qed.

Lemma testNetwork_quiet (options : TestOptions) : keeps quiet (testNetwork net options).
Proof. unfold testNetwork. keeps_auto. Qed.

Lemma getNetworkStatus_quiet (name : option string) :
  keeps quiet (getNetworkStatus net name).
Proof. unfold getNetworkStatus. keeps_auto. Qed.

(** [validateNetwork] and [testNetwork] catch everything: they never throw. *)
Lemma validateNetwork_total (options : NetworkOptions) :
  total (validateNetwork net options).
Proof.
  unfold validateNetwork.
  apply total_with_locals, total_bind.
  - apply total_try_catch. intros e. apply total_set_local.
  - intros _. apply total_bind; [apply total_local | intros l; apply total_ret].
Qed.

Lemma testNetwork_total (options : TestOptions) : total (testNetwork net options).
Proof.
  unfold testNetwork. apply total_try_catch. intros e.
  apply total_bind; [apply total_gets | intros t; apply total_ret].
Qed.

(** A status that [getNetworkStatus] returns always says [isConnected]. *)
Lemma getNetworkStatus_connected (name : option string) :
  post (λ status, isConnected status = true) (getNetworkStatus net name).
Proof.
  unfold getNetworkStatus.
  apply post_try_catch; [|intros e; apply post_throw].
  apply post_bind; intros active; cbv zeta.
  destruct (negb _); [apply post_throw|].
  repeat (apply post_bind; intros ?). by apply post_ret.
Qed.

End NetworkManagerFacts.

Lemma post_with_locals {L S A} (Q : A → Prop) (init : L) (m : ST (L * S) A) :
  post Q m → post Q (with_locals init m).
Proof. intros Hm s a. unfold with_locals; simpl. apply Hm. Qed.

Lemma validateNetwork_isValid (net : NetworkManager.Oracle)
    (options : NetworkManager.NetworkOptions) :
  post (λ v, NetworkManager.isValid v = true ↔ NetworkManager.errors v = [])
       (NetworkManager.validateNetwork net options).
Proof.
  unfold NetworkManager.validateNetwork.
  apply post_with_locals, post_bind; intros _.
  apply post_bind; intros l. apply post_ret; simpl.
  rewrite Nat.eqb_eq. apply length_zero_iff_nil.
Qed.

Section ValidationFacts.
Import NetworkManager.

(** The run in which every reply arrives: what the checks push. *)
Lemma validateNetwork_checks (net : Oracle) (options : NetworkOptions) (w : World)
    (chain block gas probe : Z) (v : NetworkValidationResult) :
  answer (rpc net (asked w) (o_rpcUrl options) GetNetwork) = Ok chain →
  Z.of_N (took (rpc net (asked w) (o_rpcUrl options) GetNetwork)) < 10000 →
  chain ≠ 0 →
  answer (rpc net (S (asked w)) (o_rpcUrl options) GetBlockNumber) = Ok block →
  answer (rpc net (S (S (asked w))) (o_rpcUrl options) GetGasPrice) = Ok gas →
  answer (rpc net (S (S (S (asked w)))) (o_rpcUrl options) GetBlockNumber) = Ok probe →
  (validateNetwork net options w).1 = Ok v →
  errors v
  = (if truthy_opt_Z (o_chainId options)
        && negb (bool_decide (o_chainId options = Some chain))
     then ["Chain ID mismatch: expected " +:+ pretty (default 0 (o_chainId options))
             +:+ ", got " +:+ pretty chain]
     else [])
  ∧ warnings v
    = ((if block =? 0 then ["Network might be inactive (block number is 0)"] else [])
      ++ (let measureLatency :=
            Z.of_N (took (rpc net (S (S (S (asked w)))) (o_rpcUrl options) GetBlockNumber)) in
          if 1000 <? measureLatency
          then ["High latency detected: " +:+ pretty measureLatency +:+ "ms"]
          else [])
      ++ (if truthy_opt_string (o_maxGasPrice options) then
            match parseUnits_gwei net (default "" (o_maxGasPrice options)) with
            | Ok maxGwei =>
                if maxGwei <? gas
                then ["Current gas price (" +:+ formatUnits_gwei net gas
                        +:+ " gwei) exceeds specified maximum"]
                else []
            | Throw error => ["Additional checks failed: " +:+ message_of error]
            end
          else []))%list.
Proof.
  destruct w as [stored cache active now n events]; simpl.
  destruct (rpc net n (o_rpcUrl options) GetNetwork) as [t0 a0] eqn:E0.
  destruct (rpc net (S n) (o_rpcUrl options) GetBlockNumber) as [t1 a1] eqn:E1.
  destruct (rpc net (S (S n)) (o_rpcUrl options) GetGasPrice) as [t2 a2] eqn:E2.
  destruct (rpc net (S (S (S n))) (o_rpcUrl options) GetBlockNumber) as [t3 a3] eqn:E3.
  simpl. intros -> Hfast%Z.ltb_lt Hchain%Z.eqb_neq -> -> ->.
  unfold validateNetwork, request, issue, await, race_timeout, all2, Date_now,
    when, truthy_Z.
  st_run. simpl. rewrite E0. simpl. rewrite Hfast. simpl. rewrite Hchain. simpl.
  rewrite E1, E2. simpl.
  destruct (truthy_opt_Z _ && _); simpl;
    destruct (block =? 0); simpl; rewrite E3; simpl;
    match goal with
    | |- context [?c + Z.of_N t3 - ?c] =>
        replace (c + Z.of_N t3 - c) with (Z.of_N t3) by lia
    end;
    destruct (1000 <? Z.of_N t3); simpl;
    destruct (truthy_opt_string _); simpl;
    try (destruct (parseUnits_gwei net _); simpl; try destruct (_ <? gas); simpl);
    intros [= <-]; done.
Qed.

(** Whatever the endpoint does, an error is a chain id mismatch or a failed
    connection: block height, latency and gas price never produce one. *)
Lemma validateNetwork_error_sources (net : Oracle) (options : NetworkOptions)
    (w : World) (v : NetworkValidationResult) :
  (validateNetwork net options w).1 = Ok v →
  Forall (validation_error options) (errors v).
Proof.
  destruct w as [stored cache active now n events].
  unfold validateNetwork, request, issue, await, race_timeout, all2, Date_now,
    when, truthy_Z.
  st_run. simpl.
  repeat (case_match; simpl in *; simplify_eq/=);
    intros [= <-]; simpl;
    repeat (apply Forall_cons; split); try apply Forall_nil;
    unfold validation_error;
    first [ done
          | by left; eauto
          | by right; eauto
          | by right; exists (Error "Network detection timeout") ].
Qed.

End ValidationFacts.

(** C6. [validateNetwork] always returns, and its result is valid exactly
    when its error list is empty. An error is a chain id mismatch or a
    failed connection, never one of the three conditions; and when the
    endpoint answers every request, a zero block height, a latency over
    1000 ms and a gas price above the ceiling each add a warning and
    nothing else: validity does not depend on them. *)
Theorem validateNetwork_valid_iff_no_errors
    (net : NetworkManager.Oracle) (options : NetworkManager.NetworkOptions)
    (w : NetworkManager.World) :
  ∃ v w',
    NetworkManager.validateNetwork net options w = (Ok v, w')
    ∧ (NetworkManager.isValid v = true ↔ NetworkManager.errors v = [])
    ∧ Forall (validation_error options) (NetworkManager.errors v)
    ∧ ∀ chain block gas probe,
        NetworkManager.answer
          (NetworkManager.rpc net (NetworkManager.asked w)
             (NetworkManager.o_rpcUrl options) NetworkManager.GetNetwork) = Ok chain →
        Z.of_N (NetworkManager.took
          (NetworkManager.rpc net (NetworkManager.asked w)
             (NetworkManager.o_rpcUrl options) NetworkManager.GetNetwork)) < 10000 →
        chain ≠ 0 →
        NetworkManager.answer
          (NetworkManager.rpc net (S (NetworkManager.asked w))
             (NetworkManager.o_rpcUrl options) NetworkManager.GetBlockNumber) = Ok block →
        NetworkManager.answer
          (NetworkManager.rpc net (S (S (NetworkManager.asked w)))
             (NetworkManager.o_rpcUrl options) NetworkManager.GetGasPrice) = Ok gas →
        NetworkManager.answer
          (NetworkManager.rpc net (S (S (S (NetworkManager.asked w))))
             (NetworkManager.o_rpcUrl options) NetworkManager.GetBlockNumber) = Ok probe →
        NetworkManager.errors v
        = (if truthy_opt_Z (NetworkManager.o_chainId options)
              && negb (bool_decide (NetworkManager.o_chainId options = Some chain))
           then ["Chain ID mismatch: expected "
                   +:+ pretty (default 0 (NetworkManager.o_chainId options))
                   +:+ ", got " +:+ pretty chain]
           else [])
        ∧ NetworkManager.warnings v
          = ((if block =? 0
              then ["Network might be inactive (block number is 0)"] else [])
             ++ (let measureLatency :=
                   Z.of_N (NetworkManager.took
                     (NetworkManager.rpc net (S (S (S (NetworkManager.asked w))))
                        (NetworkManager.o_rpcUrl options) NetworkManager.GetBlockNumber)) in
                 if 1000 <? measureLatency
                 then ["High latency detected: " +:+ pretty measureLatency +:+ "ms"]
                 else [])
             ++ (if truthy_opt_string (NetworkManager.o_maxGasPrice options) then
                   match NetworkManager.parseUnits_gwei net
                           (default "" (NetworkManager.o_maxGasPrice options)) with
                   | Ok maxGwei =>
                       if maxGwei <? gas
                       then ["Current gas price ("
                               +:+ NetworkManager.formatUnits_gwei net gas
                               +:+ " gwei) exceeds specified maximum"]
                       else []
                   | Throw error => ["Additional checks failed: " +:+ message_of error]
                   end
                 else []))%list.
Proof.
  destruct (validateNetwork_total net options w) as [v Hv].
  destruct (NetworkManager.validateNetwork net options w) as [r w'] eqn:Hrun.
  simpl in Hv; subst r. exists v, w'. split; [done|]. split; [|split].
  - apply (validateNetwork_isValid net options w). by rewrite Hrun.
  - apply (validateNetwork_error_sources net options w). by rewrite Hrun.
  - intros chain block gas probe H0 Hfast Hchain H1 H2 H3.
    apply (validateNetwork_checks net options w chain block gas probe v);
      try done.
    by rewrite Hrun.
Qed.

(** A slow endpoint at block 0 with expensive gas: three warnings, and the
    configuration is valid. *)
Lemma validateNetwork_valid_iff_no_errors_witness :
  ∃ v w',
    NetworkManager.validateNetwork Samples.slow_idle_chain Samples.local_options
      (Samples.world_with []) = (Ok v, w')
    ∧ NetworkManager.isValid v = true
    ∧ NetworkManager.warnings v
      = ["Network might be inactive (block number is 0)";
         "High latency detected: 1500ms";
         "Current gas price (50 gwei) exceeds specified maximum"].
Proof.
  destruct (validateNetwork_valid_iff_no_errors Samples.slow_idle_chain
              Samples.local_options (Samples.world_with []))
    as (v & w' & Hrun & Hvalid & _ & Hchecks).
  exists v, w'. split; [exact Hrun|].
  destruct (Hchecks 1337 0 50000000000 0) as [Herrors Hwarnings];
    [reflexivity | reflexivity | discriminate | reflexivity | reflexivity
    | reflexivity |].
  split.
  - apply Hvalid. rewrite Herrors. reflexivity.
  - rewrite Hwarnings. vm_compute. reflexivity.
Defined.

(** *** The registry operations *)

Section RegistryFacts.
Import NetworkManager.
Variable net : Oracle.


Lemma switchNetwork_run (target : string) (w : World) :
  match find (named target) (collection w) with
  | None =>
      ∃ w', switchNetwork net target w
            = (Throw (Error ("Network '" +:+ target +:+ "' not found")), w')
            ∧ quiet w w'
  | Some _ =>
      ∃ result w',
        switchNetwork net target w = (Ok result, w')
        ∧ file w'
          = Some (map (λ n, set_isActive (Some (named target n)) n) (collection w))
        ∧ activeNetwork w' = Some target
  end.
Proof.
  unfold switchNetwork. rewrite try_catch_rethrow, run_bind.
  destruct (loadNetworks_run w) as (w1 & -> & Hquiet & Hfile & _).
  destruct (find (named target) (collection w)) as [network|].
  - rewrite run_bind.
    pose proof (testNetwork_total net {| to_name := Some target; to_timeout := None |} w1)
      as [tested Htested].
    destruct (testNetwork net _ w1) as [r w2]; simpl in Htested; subst r.
    st_run. eauto.
  - st_run. eauto.
Qed.

Lemma removeNetwork_run (target : string) (w : World) :
  match list_find (λ n, name n = target) (collection w) with
  | None =>
      ∃ w', removeNetwork target w
            = (Throw (Error ("Network '" +:+ target +:+ "' not found")), w')
            ∧ quiet w w'
  | Some (index, found) =>
      if is_active found then
        removeNetwork target w = (Throw (Error "Cannot remove active network"), w)
      else
        ∃ w', removeNetwork target w = (Ok (), w')
              ∧ file w' = Some (delete index (collection w))
  end.
Proof.
  unfold removeNetwork. rewrite try_catch_rethrow, run_bind.
  destruct (list_find _ (collection w)) as [[index found]|] eqn:Hfind.
  - assert (∃ networks, file w = Some networks) as [networks Hfile].
    { unfold collection in Hfind. destruct (file w); [eauto | discriminate]. }
    unfold loadNetworks, collection in *. st_run. rewrite Hfile in *. simpl in *.
    rewrite Hfind. unfold is_active. destruct (truthy_opt_bool _); simpl; eauto.
  - destruct (loadNetworks_run w) as (w1 & -> & Hquiet & _).
    rewrite Hfind. st_run. eauto.
Qed.

(** The retry loop of [addNetwork] is one call of [validateNetwork]: the
    call returns whatever the endpoint does, so the [catch] that counts a
    retry and sleeps is never entered. *)
Lemma retry_loop_single_attempt (options : NetworkOptions) (maxRetries retryCount : Z)
    (rest : list Z) (w : World) :
  retry_loop net options maxRetries (retryCount :: rest) w
  = ((validateNetwork net options w).1 ≫= λ validation, Ok (Some validation),
     (validateNetwork net options w).2).
Proof.
  destruct (validateNetwork_total net options w) as [validation Hv].
  cbn [retry_loop]. rewrite run_bind, run_try_catch, run_bind.
  destruct (validateNetwork net options w) as [r w']; simpl in Hv; subst r.
  reflexivity.
Qed.

Lemma retry_loop_quiet (options : NetworkOptions) (maxRetries : Z) (pending : list Z) :
  keeps quiet (retry_loop net options maxRetries pending).
Proof.
  destruct pending as [|retryCount rest]; [apply keeps_ret; apply _|].
  intros w. rewrite retry_loop_single_attempt. simpl.
  apply validateNetwork_quiet.
Qed.

Lemma addNetwork_run (options : NetworkOptions) (w : World) :
  ∃ r w',
    addNetwork net options w = (r, w')
    ∧ (quiet w w'
       ∨ ∃ new,
           r = Ok new
           ∧ file w' = Some (collection w ++ [new])
           ∧ name new = o_name options
           ∧ isActive new = Some false
           ∧ existsb (named (o_name options)) (collection w) = false).
Proof.
  unfold addNetwork. rewrite try_catch_rethrow. cbv zeta. rewrite run_bind.
  pose proof (retry_loop_quiet options (or_Z (o_retryAttempts options) 3)
                (seqZ 0 (or_Z (o_retryAttempts options) 3)) w) as Hquiet.
  destruct (retry_loop net options _ _ w) as [[[validation|]|e] w1]; simpl in Hquiet;
    [| by eexists _, _; split; [done | left] ..].
  destruct (isValid validation); cbn [negb];
    [| by eexists _, _; split; [done | left]].
  rewrite run_bind. unfold Date_now, gets. rewrite run_bind.
  destruct (loadNetworks_run w1) as (w2 & -> & Hquiet2 & Hfile & _).
  assert (collection w1 = collection w) as Hsame by apply Hquiet.
  rewrite Hsame. cbn [name].
  destruct (existsb _ (collection w)) eqn:Hexists.
  - eexists _, _. split; [done|]. left. by etrans.
  - st_run. eexists _, _. split; [done|]. right. eexists. by repeat split.
Qed.

(** *** At most one active network *)

Lemma switch_names (target : string) (networks : list NetworkConfig) :
  name <$> map (λ n, set_isActive (Some (named target n)) n) networks
  = name <$> networks.
Proof. induction networks as [|n networks IH]; simpl; by f_equal. Qed.

Lemma is_active_set (b : bool) (n : NetworkConfig) :
  is_active (set_isActive (Some b) n) = b.
Proof. by destruct b. Qed.

Lemma switch_none_active (target : string) (networks : list NetworkConfig) :
  target ∉ name <$> networks →
  filter (λ n, is_active n = true)
         (map (λ n, set_isActive (Some (named target n)) n) networks) = [].
Proof.
  induction networks as [|n networks IH]; simpl; [done|].
  rewrite not_elem_of_cons. intros [Hne Hrest].
  rewrite filter_cons, decide_False; [by apply IH|].
  rewrite is_active_set. unfold named.
  rewrite (proj2 (String.eqb_neq _ _)); done.
Qed.

Lemma switch_at_most_one_active (target : string) (networks : list NetworkConfig) :
  unique_names networks →
  at_most_one_active (map (λ n, set_isActive (Some (named target n)) n) networks).
Proof.
  unfold unique_names, at_most_one_active.
  induction networks as [|n networks IH]; simpl; [lia|].
  intros [Hfresh Hrest]%NoDup_cons. rewrite filter_cons.
  case_decide as Hactive; [|by apply IH].
  rewrite is_active_set in Hactive. unfold named in Hactive.
  apply String.eqb_eq in Hactive as <-.
  rewrite switch_none_active by done. simpl. lia.
Qed.

Lemma delete_at_most_one_active (index : nat) (networks : list NetworkConfig) :
  at_most_one_active networks → at_most_one_active (delete index networks).
Proof.
  unfold at_most_one_active. intros Hone. etrans; [|exact Hone]. clear Hone.
  revert index. induction networks as [|n networks IH]; intros [|index]; simpl;
    rewrite ?filter_cons; try case_decide; simpl; try lia.
  - specialize (IH index). lia.
  - apply IH.
Qed.

Lemma delete_unique_names (index : nat) (networks : list NetworkConfig) :
  unique_names networks → unique_names (delete index networks).
Proof.
  unfold unique_names. rewrite list_fmap_delete. intros Hnames.
  eapply sublist_NoDup; [exact Hnames | apply sublist_delete].
Qed.

Lemma existsb_named_false (target : string) (networks : list NetworkConfig) :
  existsb (named target) networks = false → target ∉ name <$> networks.
Proof.
  induction networks as [|n networks IH]; simpl; [intros _; apply not_elem_of_nil|].
  intros [Hn Hrest]%orb_false_iff. apply not_elem_of_cons. split; [|by apply IH].
  unfold named in Hn. apply String.eqb_neq in Hn. congruence.
Qed.


Lemma quiet_registry_ok (w w' : World) : quiet w w' → registry_ok w → registry_ok w'.
Proof. intros [Hsame _]. unfold registry_ok. by rewrite Hsame. Qed.

Lemma run_call_registry_ok (w : World) (c : Call) :
  registry_ok w → registry_ok (run_call net w c).
Proof.
  intros [Hnames Hone]. destruct c as [options|target|target]; simpl.
  - destruct (addNetwork_run options w)
      as (r & w' & -> & [Hquiet | (new & -> & Hfile & Hname & Hnew & Hfresh)]).
    + by apply (quiet_registry_ok w).
    + unfold registry_ok, collection; simpl. rewrite Hfile; simpl.
      fold (collection w). split.
      * unfold unique_names. rewrite fmap_app. apply NoDup_app.
        split; [done|]. split; [|apply NoDup_singleton].
        intros x Hx [->|[]%elem_of_nil]%elem_of_cons.
        rewrite Hname in Hx. by apply existsb_named_false in Hfresh.
      * unfold at_most_one_active. rewrite filter_app, filter_cons, decide_False.
        -- by rewrite filter_nil, app_nil_r.
        -- unfold is_active. by rewrite Hnew.
  - pose proof (switchNetwork_run target w) as Hrun.
    destruct (find (named target) (collection w)).
    + destruct Hrun as (result & w' & -> & Hfile & _).
      unfold registry_ok, collection; simpl. rewrite Hfile; simpl.
      fold (collection w). split.
      * unfold unique_names. by rewrite switch_names.
      * by apply switch_at_most_one_active.
    + destruct Hrun as (w' & -> & Hquiet). by apply (quiet_registry_ok w).
  - pose proof (removeNetwork_run target w) as Hrun.
    destruct (list_find _ (collection w)) as [[index found]|].
    + destruct (is_active found).
      * by rewrite Hrun.
      * destruct Hrun as (w' & -> & Hfile).
        unfold registry_ok, collection; simpl. rewrite Hfile; simpl.
        fold (collection w). split.
        -- by apply delete_unique_names.
        -- by apply delete_at_most_one_active.
    + destruct Hrun as (w' & -> & Hquiet). by apply (quiet_registry_ok w).
Qed.

Lemma run_calls_registry_ok (calls : list Call) (w : World) :
  registry_ok w → registry_ok (run_calls net calls w).
Proof.
  unfold run_calls. revert w.
  induction calls as [|c calls IH]; intros w Hok; simpl; [done|].
  by apply IH, run_call_registry_ok.
Qed.

Lemma removeNetwork_active (w : World) (n : NetworkConfig) :
  unique_names (collection w) → n ∈ collection w → is_active n = true →
  removeNetwork (name n) w = (Throw (Error "Cannot remove active network"), w).
Proof.
  intros Hnames Hin Hactive.
  pose proof (removeNetwork_run (name n) w) as Hrun.
  destruct (list_find _ (collection w)) as [[index found]|] eqn:Hfind.
  - apply list_find_Some in Hfind as (Hfound & Hname & _).
    apply list_elem_of_lookup in Hin as [i Hi].
    assert (index = i) as ->.
    { apply (NoDup_lookup (name <$> collection w) index i (name n)); [done|..];
        rewrite list_lookup_fmap; [by rewrite Hfound; simpl; f_equal | by rewrite Hi]. }
    assert (found = n) as -> by congruence.
    by rewrite Hactive in Hrun.
  - apply list_find_None in Hfind.
    rewrite Forall_forall in Hfind. by destruct (Hfind n Hin).
Qed.

End RegistryFacts.

(** C1 as stated fails: at most one active network at the start is not
    enough when the registry file repeats a name. [switchNetwork] sets
    [isActive] on every entry of the name, so from [d] twice, neither
    active, a switch to [d] leaves two active entries; and [removeNetwork]
    looks at the first entry of the name only, so with [d] twice, the
    second active, it removes the first and does not throw, although [d]
    is the active network. *)
Lemma duplicate_names_break_registry :
  (at_most_one_active (collection Samples.d_twice)
   ∧ ¬ at_most_one_active
         (collection
            (run_calls Samples.slow_idle_chain [CallSwitch "d"] Samples.d_twice)))
  ∧ (at_most_one_active (collection Samples.d_shadowed)
     ∧ Samples.network_named "d" (Some true) ∈ collection Samples.d_shadowed
     ∧ is_active (Samples.network_named "d" (Some true)) = true
     ∧ ∃ w',
         NetworkManager.removeNetwork "d" Samples.d_shadowed = (Ok (), w')
         ∧ collection w' = [Samples.network_named "d" (Some true)]).
Proof.
  split.
  - split; [vm_compute; lia|]. vm_compute. lia.
  - split; [vm_compute; lia|].
    split; [apply (list_elem_of_lookup_2 _ 1); reflexivity|].
    split; [reflexivity|].
    eexists. split; [vm_compute; reflexivity|]. reflexivity.
Qed.

(** C1, amended. From a registry with unique names and at most one active network,
    any sequence of [addNetwork], [switchNetwork] and [removeNetwork] calls,
    whatever the endpoints answer, leaves at most one network active; and
    in the registry so reached, [removeNetwork] on an active network throws
    the cannot-remove-active error and changes nothing. *)
Theorem registry_at_most_one_active
    (net : NetworkManager.Oracle) (calls : list Call) (w : NetworkManager.World) :
  unique_names (collection w) →
  at_most_one_active (collection w) →
  at_most_one_active (collection (run_calls net calls w))
  ∧ ∀ n, n ∈ collection (run_calls net calls w) →
         is_active n = true →
         NetworkManager.removeNetwork (NetworkManager.name n) (run_calls net calls w)
         = (Throw (Error "Cannot remove active network"), run_calls net calls w).
Proof.
  intros Hnames Hone.
  destruct (run_calls_registry_ok net calls w) as [Hnames' Hone']; [done|].
  split; [done|]. intros n Hin Hactive. by apply removeNetwork_active.
Qed.

(** Add [local], switch to [b], remove [a], and try to remove [b]. *)
Lemma registry_at_most_one_active_witness :
  at_most_one_active
    (collection
       (run_calls Samples.slow_idle_chain
          [CallAdd Samples.local_options; CallSwitch "b"; CallRemove "a"]
          Samples.two_networks))
  ∧ NetworkManager.removeNetwork "b"
      (run_calls Samples.slow_idle_chain
         [CallAdd Samples.local_options; CallSwitch "b"; CallRemove "a"]
         Samples.two_networks)
    = (Throw (Error "Cannot remove active network"),
       run_calls Samples.slow_idle_chain
         [CallAdd Samples.local_options; CallSwitch "b"; CallRemove "a"]
         Samples.two_networks).
Proof.
  destruct (registry_at_most_one_active Samples.slow_idle_chain
              [CallAdd Samples.local_options; CallSwitch "b"; CallRemove "a"]
              Samples.two_networks) as [Hone Hremove].
  - vm_compute. repeat constructor; rewrite ?elem_of_cons, ?elem_of_nil; intuition discriminate.
  - vm_compute. lia.
  - split; [exact Hone|].
    apply (Hremove (Samples.network_named "b" (Some true))); [|reflexivity].
    apply (list_elem_of_lookup_2 _ 0). vm_compute. reflexivity.
Defined.

(** *** Cleanup *)

Lemma keeps_bind_post {S A B} (R : relation S) `{!PreOrder R} (Q : A → Prop)
    (m : ST S A) (f : A → ST S B) :
  keeps R m → post Q m → (∀ a, Q a → keeps R (f a)) → keeps R (m ≫= f).
Proof.
  intros Hm HQ Hf s. rewrite run_bind. specialize (Hm s). specialize (HQ s).
  destruct (m s) as [[a|e] s']; simpl in *; [|done].
  etrans; [exact Hm | by apply Hf, HQ].
Qed.

Lemma post_lift {L S A} (Q : A → Prop) (m : ST S A) :
  post Q m → post Q (lift (L:=L) m).
Proof. intros Hm [l s] a. unfold lift; simpl. apply Hm. Qed.

Lemma total_for_each {S A} (xs : list A) (body : A → ST S unit) :
  (∀ x, total (body x)) → total (for_each xs body).
Proof.
  intros Hbody. induction xs as [|x xs IH]; simpl.
  - apply total_ret.
  - apply total_bind; [apply Hbody | intros _; exact IH].
Qed.


#[local] Instance untouched_preorder : PreOrder untouched.
Proof.
  split.
  - by intros a.
  - intros a b c [Hl Hw] [Hl' Hw']. split; [congruence | by etrans].
Qed.

Lemma untouched_lift {A} (m : ST NetworkManager.World A) :
  keeps quiet m → keeps untouched (lift m).
Proof. intros Hm [l w]. split; [done | apply Hm]. Qed.

Section CleanupFacts.
Import NetworkManager.
Variable net : Oracle.

(** [cleanup] catches what a round throws: it always returns. *)
Lemma cleanup_total (options : CleanupOptions) : total (cleanup net options).
Proof.
  unfold cleanup. apply total_bind.
  - intros w. destruct (loadNetworks_run w) as (w' & -> & _). by eexists.
  - intros networks. apply total_with_locals, total_bind; [|intros _; apply total_local].
    apply total_for_each. intros network. apply total_try_catch.
    intros _. apply total_ret.
Qed.

(** With the [inactive] threshold alone, no round removes anything: the
    status check either throws, and the round is skipped, or returns a
    status that says [isConnected]. *)
Lemma cleanup_inactive_removes_nothing (days : Z) (w : World) :
  ∃ w', cleanup net {| inactive := Some days; unvalidated := None |} w = (Ok [], w')
        ∧ quiet w w'.
Proof.
  unfold cleanup. rewrite run_bind.
  destruct (loadNetworks_run w) as (w1 & -> & Hquiet & _).
  unfold with_locals. rewrite run_bind.
  set (body := λ network : NetworkConfig, try_catch _ _).
  assert (∀ network, keeps untouched (body network)) as Hbody.
  { intros network. unfold body.
    apply keeps_try_catch; [apply _ | | intros _; apply keeps_ret; apply _].
    apply keeps_bind; [apply _ | |].
    - cbn [inactive]. destruct (truthy_opt_Z (Some days)); [|apply keeps_ret; apply _].
      apply (keeps_bind_post _ (λ status, isConnected status = true)).
      + apply untouched_lift, getNetworkStatus_quiet.
      + apply post_lift, getNetworkStatus_connected.
      + intros status ->. apply keeps_ret; apply _.
    - intros [|]; [apply keeps_ret; apply _|].
      destruct (lastValidated network); apply keeps_ret; apply _. }
  pose proof (keeps_for_each untouched (collection w) body Hbody ([], w1)) as [Hl Hw].
  destruct (total_for_each (collection w) body) with (s := (([] : list string), w1))
    as [[] Hrun].
  { intros network. apply total_try_catch. intros _. apply total_ret. }
  destruct (for_each (collection w) body ([], w1)) as [r [l w2]].
  simpl in *. subst r l. eexists. split; [done|]. by etrans.
Qed.

End CleanupFacts.

(** C2 at its failing input. Nothing listens at the endpoint of [local]:
    the connectivity test reports a failure, and [switchNetwork], which
    does not look at the outcome of the test, writes the registry with
    [local] active and returns. *)
Theorem switchNetwork_commits_after_failed_test :
  (∃ tested w',
     NetworkManager.testNetwork Samples.refusing
       {| NetworkManager.to_name := Some "local"; NetworkManager.to_timeout := None |}
       Samples.local_world = (Ok tested, w')
     ∧ NetworkManager.success tested = false)
  ∧ ∃ result w',
      NetworkManager.switchNetwork Samples.refusing "local" Samples.local_world
      = (Ok result, w')
      ∧ collection w' = [Samples.network_named "local" (Some true)]
      ∧ NetworkManager.activeNetwork w' = Some "local"
      ∧ NetworkManager.trace w'
        = [NetworkManager.WriteFile [Samples.network_named "local" (Some true)];
           NetworkManager.Request "http://127.0.0.1:8545"
             NetworkManager.GetBlockNumber false;
           NetworkManager.Request "http://127.0.0.1:8545"
             NetworkManager.GetNetwork false].
Proof.
  split.
  - eexists _, _. split; [vm_compute; reflexivity | reflexivity].
  - eexists _, _. split; [vm_compute; reflexivity |]. by repeat split.
Qed.

(** C3 at its failing input. [retryAttempts] is 3 and the endpoint refuses
    the connection: [addNetwork] fails after a single validation attempt
    (one [getNetwork] request) and without the delay of a retry. *)
Theorem addNetwork_fails_after_one_attempt :
  NetworkManager.o_retryAttempts Samples.local_options = Some 3
  ∧ ∃ w',
      NetworkManager.addNetwork Samples.refusing Samples.local_options
        (Samples.world_with [])
      = (Throw (Error "Invalid network configuration: Connection refused. The RPC endpoint might be down or blocking requests."),
         w')
      ∧ NetworkManager.trace w'
        = [NetworkManager.Request "http://127.0.0.1:8545"
             NetworkManager.GetNetwork false]
      ∧ NetworkManager.clock w'
        = NetworkManager.clock (Samples.world_with []) + 3.
Proof.
  split; [reflexivity|].
  eexists. split; [vm_compute; reflexivity |]. by repeat split.
Qed.

(** C4 at its failing input. The status check of [local] fails, and
    [cleanup] with an [inactive] threshold neither removes [local] nor
    lists it: the failure is an exception, which the loop swallows. *)
Theorem cleanup_keeps_unreachable_network :
  (NetworkManager.getNetworkStatus Samples.refusing (Some "local")
     Samples.local_world).1
  = Throw (Error "connect ECONNREFUSED 127.0.0.1:8545")
  ∧ ∃ w',
      NetworkManager.cleanup Samples.refusing
        {| NetworkManager.inactive := Some 30; NetworkManager.unvalidated := None |}
        Samples.local_world
      = (Ok [], w')
      ∧ collection w' = [Samples.network_named "local" (Some false)].
Proof.
  split; [vm_compute; reflexivity|].
  eexists. split; [vm_compute; reflexivity | reflexivity].
Qed.

(** *** Benchmark *)

Section BenchmarkFacts.
Import NetworkManager.
Variable net : Oracle.


Lemma benchmark_loop_done (fuel : nat) (provider : string) (startTime duration : Z)
    (l : BenchLocals) (w : World) :
  duration * 1000 ≤ clock w - startTime →
  benchmark_loop net fuel provider startTime duration (l, w) = (Ok true, (l, w)).
Proof.
  intros Hdone%Z.ltb_ge. destruct fuel; simpl; st_run; unfold Date_now; st_run;
    by rewrite Hdone.
Qed.

Lemma benchmark_loop_out_of_fuel (provider : string) (startTime duration : Z)
    (l : BenchLocals) (w : World) :
  clock w - startTime < duration * 1000 →
  benchmark_loop net 0 provider startTime duration (l, w) = (Ok false, (l, w)).
Proof.
  intros Hrun%Z.ltb_lt. simpl; st_run; unfold Date_now; st_run. by rewrite Hrun.
Qed.

Lemma benchmark_loop_round (fuel : nat) (provider : string) (startTime duration : Z)
    (l : BenchLocals) (w : World) :
  clock w - startTime < duration * 1000 →
  benchmark_loop net (S fuel) provider startTime duration (l, w)
  = benchmark_loop net fuel provider startTime duration
      (round_locals net provider l w, round_world net provider w).
Proof.
  intros Hrun%Z.ltb_lt. unfold round_locals, round_world.
  cbn [benchmark_loop]. unfold request, issue, await, sleep, Date_now. st_run.
  rewrite Hrun. cbn [fst snd].
  destruct (rpc net (asked w) provider GetBlockNumber) as [t [a|e]]; simpl.
  - replace (clock w + Z.of_N t - clock w) with (Z.of_N t) by lia. reflexivity.
  - reflexivity.
Qed.

Lemma round_world_facts (provider : string) (w : World) :
  clock w + 100 ≤ clock (round_world net provider w)
  ∧ file (round_world net provider w) = file w
  ∧ trace (round_world net provider w)
    = [Sleep 100;
       Request provider GetBlockNumber
         (is_Ok (answer (rpc net (asked w) provider GetBlockNumber)))] ++ trace w.
Proof. unfold round_world; simpl. repeat split. lia. Qed.

(** The loop ends: every round takes at least the 100 ms of its pause, so
    one round of fuel per 100 ms that are left is enough. *)
Lemma benchmark_loop_finishes (fuel : nat) (provider : string)
    (startTime duration : Z) (l : BenchLocals) (w : World) :
  duration * 1000 - (clock w - startTime) ≤ 100 * Z.of_nat fuel →
  ∃ l' w',
    benchmark_loop net fuel provider startTime duration (l, w) = (Ok true, (l', w')).
Proof.
  revert l w. induction fuel as [|fuel IH]; intros l w Hfuel.
  - rewrite benchmark_loop_done by lia. eauto.
  - destruct (Z_lt_le_dec (clock w - startTime) (duration * 1000)) as [Hrun|Hdone].
    + rewrite benchmark_loop_round by done.
      destruct (round_world_facts provider w) as (Hclock & _).
      apply IH. lia.
    + rewrite benchmark_loop_done by done. eauto.
Qed.

(** When every liveness call fails, the loop ends, within one round per
    100 ms of the duration, and has counted no request. *)
Lemma benchmark_loop_all_errors (fuel : nat) (provider : string)
    (startTime duration : Z) (l : BenchLocals) (w : World) :
  (∀ n, is_Ok (answer (rpc net n provider GetBlockNumber)) = false) →
  duration * 1000 - (clock w - startTime) ≤ 100 * Z.of_nat fuel →
  ∃ l' w',
    benchmark_loop net fuel provider startTime duration (l, w) = (Ok true, (l', w'))
    ∧ results l' = results l
    ∧ requestCount l' = requestCount l
    ∧ duration * 1000 ≤ clock w' - startTime
    ∧ file w' = file w.
Proof.
  intros Herrors. revert l w.
  induction fuel as [|fuel IH]; intros l w Hfuel.
  - rewrite benchmark_loop_done by lia. eexists _, _. repeat split; lia.
  - destruct (Z_lt_le_dec (clock w - startTime) (duration * 1000)) as [Hrun|Hdone].
    + rewrite benchmark_loop_round by done.
      destruct (round_world_facts provider w) as (Hclock & Hfile & _).
      destruct (IH (round_locals net provider l w) (round_world net provider w))
        as (l' & w' & -> & Hresults & Hcount & Hend & Hfile'); [lia|].
      eexists _, _. split; [done|].
      unfold round_locals in Hresults, Hcount. specialize (Herrors (asked w)).
      destruct (answer (rpc net (asked w) provider GetBlockNumber)); [done|].
      by repeat split.
    + rewrite benchmark_loop_done by done. eexists _, _. by repeat split.
Qed.

Lemma liveness_calls_app (ok : bool) (events events' : list Event) :
  liveness_calls ok (events ++ events')
  = (liveness_calls ok events + liveness_calls ok events')%nat.
Proof. unfold liveness_calls. by rewrite List.filter_app, length_app. Qed.

(** What the loop has counted when it stops: [requestCount] and [results]
    grow with the liveness calls that succeeded, [errors] with those that
    failed. *)
Lemma benchmark_loop_counts (fuel : nat) (provider : string) (startTime duration : Z)
    (l l' : BenchLocals) (w w' : World) (finished : result bool) :
  benchmark_loop net fuel provider startTime duration (l, w) = (finished, (l', w')) →
  ∃ events,
    trace w' = events ++ trace w
    ∧ requestCount l' = requestCount l + Z.of_nat (liveness_calls true events)
    ∧ length (results l') = (length (results l) + liveness_calls true events)%nat
    ∧ length (bench_errors l')
      = (length (bench_errors l) + liveness_calls false events)%nat
    ∧ file w' = file w
    ∧ clock w ≤ clock w'.
Proof.
  revert l w. induction fuel as [|fuel IH]; intros l w.
  - destruct (Z_lt_le_dec (clock w - startTime) (duration * 1000)) as [Hrun|Hdone];
      [rewrite benchmark_loop_out_of_fuel by done | rewrite benchmark_loop_done by done];
      intros [= <- <- <-]; exists []; unfold liveness_calls; simpl; repeat split; lia.
  - destruct (Z_lt_le_dec (clock w - startTime) (duration * 1000)) as [Hrun|Hdone].
    + rewrite benchmark_loop_round by done. intros Hloop.
      destruct (IH _ _ Hloop) as (events & Htrace & Hcount & Hresults & Herrors & Hfile & Hclock).
      destruct (round_world_facts provider w) as (Hclock' & Hfile' & Htrace').
      exists (events ++ [Sleep 100;
                Request provider GetBlockNumber
                  (is_Ok (answer (rpc net (asked w) provider GetBlockNumber)))]).
      rewrite Htrace, Htrace', <- app_assoc. split; [done|].
      rewrite !liveness_calls_app. unfold round_locals in *.
      destruct (answer (rpc net (asked w) provider GetBlockNumber));
        simpl in *; rewrite ?length_app in *; simpl in *;
        unfold liveness_calls at 2 4 6; simpl; repeat split; try lia; congruence.
    + rewrite benchmark_loop_done by done.
      intros [= <- <- <-]; exists []; unfold liveness_calls; simpl; repeat split; lia.
Qed.

Lemma getProvider_registered (name : string) (network : NetworkConfig) (w : World) :
  find (named name) (collection w) = Some network →
  ∃ provider w0,
    getProvider name w = (Ok provider, w0)
    ∧ file w0 = file w ∧ clock w0 = clock w ∧ trace w0 = trace w
    ∧ file w = Some (collection w).
Proof.
  unfold collection. destruct (file w) as [networks|] eqn:Hfile; [|discriminate].
  simpl. intros Hfind. unfold getProvider, loadNetworks. st_run.
  destruct (providers w !! name) as [cached|]; simpl.
  - eexists _, _. by repeat split.
  - rewrite Hfile. simpl. rewrite Hfind. simpl. eexists _, _. by repeat split.
Qed.

End BenchmarkFacts.

Section BenchmarkResults.
Import NetworkManager.
Variable net : Oracle.

Lemma loadNetworks_existing (networks : list NetworkConfig) (w : World) :
  file w = Some networks → loadNetworks w = (Ok networks, w).
Proof. intros Hfile. unfold loadNetworks. st_run. by rewrite Hfile. Qed.

Lemma div_zero_numerator (q : Q) : ¬ (q == 0)%Q → div (inject_Z 0) q = Finite 0.
Proof.
  intros Hq. unfold div.
  destruct (Qeq_bool q 0) eqn:E; [by apply Qeq_bool_eq in E|].
  reflexivity.
Qed.

Lemma div_positive (a b : Z) :
  0 < b →
  ∃ q, div (inject_Z a) (inject_Z b) = Finite q
       ∧ (q == inject_Z a / inject_Z b)%Q
       ∧ (b < a → (1 < q)%Q).
Proof.
  intros Hb. unfold div.
  assert (0 < inject_Z b)%Q as Hpos by (unfold Qlt; simpl; lia).
  destruct (Qeq_bool (inject_Z b) 0) eqn:E.
  { apply Qeq_bool_eq in E. rewrite E in Hpos. by apply Qlt_irrefl in Hpos. }
  eexists. split; [done|]. split; [apply Qred_correct|].
  intros Hlt. rewrite Qred_correct. apply Qlt_shift_div_l; [done|].
  rewrite Qmult_1_l. unfold Qlt; simpl; lia.
Qed.

(** What [benchmarkNetwork] returns, in terms of what its loop counted. *)
Lemma benchmarkNetwork_run (fuel : nat) (name : string) (duration : Z)
    (network : NetworkConfig) (w : World) :
  find (named name) (collection w) = Some network →
  ∃ provider w0,
    getProvider name w = (Ok provider, w0)
    ∧ file w0 = Some (collection w) ∧ clock w0 = clock w ∧ trace w0 = trace w
    ∧ ∀ finished l w1,
        benchmark_loop net fuel provider (clock w) duration
          ({| results := []; bench_errors := []; requestCount := 0 |}, w0)
        = (Ok finished, (l, w1)) →
        if finished then
          ∃ result written,
            benchmarkNetwork net fuel name duration w
            = (Ok (Some result), record (WriteFile written) (set_file (Some written) w1))
            ∧ requestsPerSecond result
              = div (inject_Z (requestCount l))
                    (inject_Z (clock w1 - clock w) / inject_Z 1000)
            ∧ errorRate result
              = (if 0 <? requestCount l
                 then div (inject_Z (Z.of_nat (length (bench_errors l))))
                          (inject_Z (requestCount l))
                 else Finite 1)
        else benchmarkNetwork net fuel name duration w = (Ok None, w1).
Proof.
  intros Hfind.
  destruct (getProvider_registered name network w Hfind)
    as (provider & w0 & Hprovider & Hfile0 & Hclock0 & Htrace0 & Hfile).
  exists provider, w0. rewrite Hfile0, Hfile. repeat split; try done.
  intros finished l w1 Hloop.
  assert (∀ r : bool → ST (BenchLocals * World) (option NetworkBenchmarkResult),
            (with_locals {| results := []; bench_errors := []; requestCount := 0 |}
                  (benchmark_loop net fuel provider (clock w) duration ≫= r) w0)
               = ((r finished (l, w1)).1, (r finished (l, w1)).2.2)) as Hrest.
  { intros r. unfold with_locals. by rewrite run_bind, Hloop. }
  destruct finished.
  - eexists _, _. split; [|split].
    + unfold benchmarkNetwork. rewrite run_bind, Hprovider, run_bind.
      unfold Date_now at 1, gets at 1. rewrite run_bind.
      rewrite (loadNetworks_existing (collection w)) by congruence.
      rewrite Hfind, Hclock0, Hrest. reflexivity.
    + reflexivity.
    + reflexivity.
  - unfold benchmarkNetwork. rewrite run_bind, Hprovider, run_bind.
    unfold Date_now at 1, gets at 1. rewrite run_bind.
    rewrite (loadNetworks_existing (collection w)) by congruence.
    rewrite Hfind, Hclock0, Hrest. reflexivity.
Qed.

End BenchmarkResults.

(** C7 as stated fails: over a duration of 0 seconds the loop makes no
    call and no time passes, so [totalTime] is 0 and [requestsPerSecond]
    is 0 / 0, which is [NaN] and not 0; the error rate is 1 and nothing is
    thrown. *)
Lemma requestsPerSecond_is_NaN_at_duration_zero :
  find (NetworkManager.named "local") (collection Samples.local_world)
  = Some (Samples.network_named "local" (Some false))
  ∧ (∀ n url,
       is_Ok (NetworkManager.answer
                (NetworkManager.rpc Samples.refusing n url
                   NetworkManager.GetBlockNumber)) = false)
  ∧ ∃ result w',
      NetworkManager.benchmarkNetwork Samples.refusing 10 "local" 0 Samples.local_world
      = (Ok (Some result), w')
      ∧ NetworkManager.errorRate result = NetworkManager.Finite 1
      ∧ NetworkManager.requestsPerSecond result = NetworkManager.NaN.
Proof.
  split; [reflexivity|]. split; [reflexivity|].
  eexists _, _. split; [vm_compute; reflexivity|]. split; reflexivity.
Qed.

(** C7, amended. A benchmark of a registered network, over a positive duration and
    against an endpoint whose liveness call always fails, returns (with
    one round of fuel per 100 ms of the duration) a result with
    [errorRate = 1] and [requestsPerSecond = 0]; it does not throw. *)
Theorem benchmarkNetwork_always_failing
    (net : NetworkManager.Oracle) (fuel : nat) (name : string) (duration : Z)
    (network : NetworkManager.NetworkConfig) (w : NetworkManager.World) :
  find (NetworkManager.named name) (collection w) = Some network →
  (∀ n url,
     is_Ok (NetworkManager.answer
              (NetworkManager.rpc net n url NetworkManager.GetBlockNumber)) = false) →
  0 < duration →
  (Z.to_nat (duration * 10) ≤ fuel)%nat →
  ∃ result w',
    NetworkManager.benchmarkNetwork net fuel name duration w = (Ok (Some result), w')
    ∧ NetworkManager.errorRate result = NetworkManager.Finite 1
    ∧ NetworkManager.requestsPerSecond result = NetworkManager.Finite 0.
Proof.
  intros Hfind Herrors Hduration Hfuel.
  destruct (benchmarkNetwork_run net fuel name duration network w Hfind)
    as (provider & w0 & _ & _ & Hclock & _ & Hrun).
  destruct (benchmark_loop_all_errors net fuel provider (NetworkManager.clock w) duration
              {| NetworkManager.results := []; NetworkManager.bench_errors := [];
                 NetworkManager.requestCount := 0 |} w0)
    as (l & w1 & Hloop & _ & Hcount & Hend & _); [done | lia |].
  destruct (Hrun true l w1 Hloop) as (result & written & -> & Hrps & Hrate).
  simpl in Hcount. rewrite Hcount in Hrps, Hrate.
  eexists _, _. split; [done|]. split; [done|].
  rewrite Hrps. apply div_zero_numerator.
  intros Hzero. unfold Qeq in Hzero; simpl in Hzero. lia.
Qed.

(** An unregistered name makes [benchmarkNetwork] throw. *)
Lemma benchmarkNetwork_unregistered (net : NetworkManager.Oracle) (fuel : nat)
    (name : string) (duration : Z) (w : NetworkManager.World) :
  find (NetworkManager.named name) (collection w) = None →
  ∃ e w', NetworkManager.benchmarkNetwork net fuel name duration w = (Throw e, w').
Proof.
  intros Hfind. unfold NetworkManager.benchmarkNetwork. rewrite run_bind.
  pose proof (getProvider_quiet name w) as Hquiet.
  destruct (NetworkManager.getProvider name w) as [[provider|e] w0]; [|eauto].
  simpl in Hquiet. rewrite run_bind. unfold NetworkManager.Date_now at 1, gets at 1. rewrite run_bind.
  destruct (loadNetworks_run w0) as (w1 & -> & _).
  destruct Hquiet as [-> _]. rewrite Hfind. unfold throw. eauto.
Qed.


(** C7, on an endpoint that refuses every connection, for one second. *)
Lemma benchmarkNetwork_always_failing_witness :
  ∃ result w',
    NetworkManager.benchmarkNetwork Samples.refusing 10 "local" 1 Samples.local_world
    = (Ok (Some result), w')
    ∧ NetworkManager.errorRate result = NetworkManager.Finite 1
    ∧ NetworkManager.requestsPerSecond result = NetworkManager.Finite 0.
Proof.
  apply (benchmarkNetwork_always_failing Samples.refusing 10 "local" 1
           (Samples.network_named "local" (Some false)) Samples.local_world).
  - reflexivity.
  - intros n url. reflexivity.
  - lia.
  - vm_compute. lia.
Defined.

(** C10 as stated fails: against an endpoint that refuses every connection
    the failed calls outnumber the successful ones, of which there are
    none, and the error rate is 1, which does not exceed 1. *)
Lemma errorRate_is_one_without_success :
  ¬ (∀ net fuel name duration w result w',
       NetworkManager.benchmarkNetwork net fuel name duration w
       = (Ok (Some result), w') →
       (liveness_calls true (NetworkManager.trace w')
        < liveness_calls false (NetworkManager.trace w'))%nat →
       exceeds_one (NetworkManager.errorRate result)).
Proof.
  intros Hclaim.
  specialize (Hclaim Samples.refusing 10%nat "local" 1 Samples.local_world).
  remember (NetworkManager.benchmarkNetwork Samples.refusing 10 "local" 1
              Samples.local_world) as run eqn:Hrun.
  vm_compute in Hrun. subst run.
  specialize (Hclaim _ _ eq_refl).
  apply (Qlt_irrefl 1), Hclaim. vm_compute. lia.
Qed.

(** C10, amended. A benchmark of a registered network returns a result
    (with one round of fuel per 100 ms of the duration) in which
    [requestCount] is the number of liveness calls that succeeded:
    [requestsPerSecond] is that number over the elapsed seconds; if no call
    succeeded the error rate is 1; if at least one did, the error rate is
    the number of failed calls over the number of successful ones, and it
    exceeds 1 when the failed calls outnumber the successful ones. *)
Theorem benchmarkNetwork_error_rate
    (net : NetworkManager.Oracle) (fuel : nat) (name : string) (duration : Z)
    (network : NetworkManager.NetworkConfig) (w : NetworkManager.World) :
  find (NetworkManager.named name) (collection w) = Some network →
  (Z.to_nat (duration * 10) ≤ fuel)%nat →
  ∃ result w' events written,
    NetworkManager.benchmarkNetwork net fuel name duration w = (Ok (Some result), w')
    ∧ NetworkManager.trace w'
      = NetworkManager.WriteFile written :: events ++ NetworkManager.trace w
    ∧ NetworkManager.requestsPerSecond result
      = NetworkManager.div
          (inject_Z (Z.of_nat (liveness_calls true events)))
          (inject_Z (NetworkManager.clock w' - NetworkManager.clock w) / inject_Z 1000)
    ∧ (liveness_calls true events = 0%nat →
       NetworkManager.errorRate result = NetworkManager.Finite 1)
    ∧ ((0 < liveness_calls true events)%nat →
       ∃ q,
         NetworkManager.errorRate result = NetworkManager.Finite q
         ∧ (q == inject_Z (Z.of_nat (liveness_calls false events))
                 / inject_Z (Z.of_nat (liveness_calls true events)))%Q
         ∧ ((liveness_calls true events < liveness_calls false events)%nat →
            (1 < q)%Q)).
Proof.
  intros Hfind Hfuel.
  destruct (benchmarkNetwork_run net fuel name duration network w Hfind)
    as (provider & w0 & _ & _ & Hclock & Htrace & Hrun).
  destruct (benchmark_loop_finishes net fuel provider (NetworkManager.clock w) duration
              {| NetworkManager.results := []; NetworkManager.bench_errors := [];
                 NetworkManager.requestCount := 0 |} w0)
    as (l & w1 & Hloop); [lia|].
  destruct (Hrun true l w1 Hloop) as (result & written & Hresult & Hrps & Hrate).
  destruct (benchmark_loop_counts net fuel provider _ duration _ _ _ _ _ Hloop)
    as (events & Hevents & Hcount & _ & Herrors & _).
  simpl in Hcount, Herrors. rewrite ?Z.add_0_l in Hcount.
  eexists result, _, events, written. split; [exact Hresult|].
  simpl. rewrite Hevents, Htrace.
  split; [done|]. split; [by rewrite Hrps, Hcount|]. split.
  - intros Hnone. rewrite Hrate, Hcount, Hnone. reflexivity.
  - intros Hsome. rewrite Hrate, Hcount, Herrors.
    rewrite (proj2 (Z.ltb_lt _ _)) by lia.
    destruct (div_positive (Z.of_nat (liveness_calls false events))
                (Z.of_nat (liveness_calls true events))) as (q & -> & Hq & Hgt); [lia|].
    exists q. split; [done|]. split; [done|]. intros Hmore. apply Hgt. lia.
Qed.

(** A run of one second in which 3 calls succeed and 7 fail. *)
Lemma benchmarkNetwork_error_rate_witness :
  ∃ result w' events written,
    NetworkManager.benchmarkNetwork Samples.flaky 10 "local" 1 Samples.local_world
    = (Ok (Some result), w')
    ∧ NetworkManager.trace w'
      = NetworkManager.WriteFile written
          :: events ++ NetworkManager.trace Samples.local_world
    ∧ NetworkManager.requestsPerSecond result
      = NetworkManager.div
          (inject_Z (Z.of_nat (liveness_calls true events)))
          (inject_Z (NetworkManager.clock w'
                     - NetworkManager.clock Samples.local_world) / inject_Z 1000)
    ∧ (liveness_calls true events = 0%nat →
       NetworkManager.errorRate result = NetworkManager.Finite 1)
    ∧ ((0 < liveness_calls true events)%nat →
       ∃ q,
         NetworkManager.errorRate result = NetworkManager.Finite q
         ∧ (q == inject_Z (Z.of_nat (liveness_calls false events))
                 / inject_Z (Z.of_nat (liveness_calls true events)))%Q
         ∧ ((liveness_calls true events < liveness_calls false events)%nat →
            (1 < q)%Q)).
Proof.
  apply (benchmarkNetwork_error_rate Samples.flaky 10 "local" 1
           (Samples.network_named "local" (Some false)) Samples.local_world).
  - reflexivity.
  - vm_compute. lia.
Defined.

(** In that run the error rate is 7/3. *)
Example benchmarkNetwork_flaky_error_rate :
  ∃ result w',
    NetworkManager.benchmarkNetwork Samples.flaky 10 "local" 1 Samples.local_world
    = (Ok (Some result), w')
    ∧ NetworkManager.errorRate result = NetworkManager.Finite (7 # 3).
Proof. eexists _, _. split; [vm_compute; reflexivity | reflexivity]. Qed.

(** ** The registry and the provider cache under every method *)

#[local] Instance preserves_preorder {S} (P : S → Prop) : PreOrder (preserves P).
Proof. split; unfold preserves; [by intros s | intros s1 s2 s3; tauto]. Qed.

#[local] Instance cache_step_preorder : PreOrder cache_step.
Proof.
  split.
  - intros w. split; [done|]. by left.
  - intros w1 w2 w3 [Hc Hp] [Hc' Hp']. split; [congruence|].
    intros name url Hcached.
    destruct (Hp' name url Hcached) as [Hold|Hfound]; [by apply Hp|].
    right. by rewrite <- Hc.
Qed.

Lemma keeps_weaken {S A} (R R' : relation S) (m : ST S A) :
  (∀ s s', R s s' → R' s s') → keeps R m → keeps R' m.
Proof. intros Hsub Hm s. apply Hsub, Hm. Qed.

Lemma cache_step_well_formed (w w' : NetworkManager.World) :
  cache_step w w' → preserves well_formed w w'.
Proof.
  intros [Hsame Hcache] [Hok Hcoherent]. split.
  - unfold registry_ok. by rewrite Hsame.
  - intros name url Hcached. rewrite Hsame.
    destruct (Hcache name url Hcached) as [Hold|Hfound]; [by apply Hcoherent | done].
Qed.

Section CacheFacts.
Import NetworkManager.
Variable net : Oracle.

Lemma Date_now_cache : keeps cache_step Date_now.
Proof. apply keeps_gets; apply _. Qed.

Lemma issue_cache (url : string) (method : Method) : keeps cache_step (issue net url method).
Proof. intros w. split; [done|]. by left. Qed.

Lemma await_cache {A} (p : Reply A) : keeps cache_step (await p).
Proof. intros w. split; [done|]. by left. Qed.

Lemma sleep_cache (ms : Z) : keeps cache_step (sleep net ms).
Proof. intros w. split; [done|]. by left. Qed.

Lemma request_cache (url : string) (method : Method) :
  keeps cache_step (request net url method).
Proof.
  apply keeps_bind; [apply _ | apply issue_cache | intros p; apply await_cache].
Qed.

Lemma loadNetworks_cache : keeps cache_step loadNetworks.
Proof.
  intros w. destruct (loadNetworks_run w) as (w' & -> & Hquiet & _ & Hproviders).
  split; [apply Hquiet|]. simpl. rewrite Hproviders. by left.
Qed.

#[local] Hint Resolve Date_now_cache issue_cache await_cache sleep_cache
  request_cache loadNetworks_cache : keeps.

Lemma getProvider_cache (networkName : string) : keeps cache_step (getProvider networkName).
Proof.
  intros w. unfold getProvider. rewrite run_bind. unfold gets at 1.
  destruct (providers w !! networkName) as [cached|] eqn:Hcached.
  { split; [done|]. by left. }
  rewrite run_bind.
  destruct (loadNetworks_run w) as (w1 & -> & Hquiet & _ & Hproviders).
  destruct (find (named networkName) (collection w)) as [network|] eqn:Hfind.
  - st_run. split; [apply Hquiet|]. simpl. intros name url.
    rewrite Hproviders, lookup_insert. case_decide as Hname.
    + intros [= <-]. subst name. right. eauto.
    + by left.
  - st_run. split; [apply Hquiet|]. simpl. rewrite Hproviders. by left.
Qed.

#[local] Hint Resolve getProvider_cache : keeps.

Lemma validateNetwork_cache (options : NetworkOptions) :
  keeps cache_step (validateNetwork net options).
Proof. unfold validateNetwork. keeps_auto. Qed.

Lemma testNetwork_cache (options : TestOptions) :
  keeps cache_step (testNetwork net options).
Proof. unfold testNetwork. keeps_auto. Qed.

Lemma getNetworkStatus_cache (name : option string) :
  keeps cache_step (getNetworkStatus net name).
Proof. unfold getNetworkStatus. keeps_auto. Qed.

Lemma listNetworks_cache (options : NetworkListOptions) :
  keeps cache_step (listNetworks options).
Proof. unfold listNetworks. keeps_auto. Qed.

Lemma syncNetwork_cache (name : option string) :
  keeps cache_step (syncNetwork net name).
Proof. unfold syncNetwork. keeps_auto. Qed.

Lemma getNetworkInfo_cache (name : option string) :
  keeps cache_step (getNetworkInfo net name).
Proof. unfold getNetworkInfo. keeps_auto. Qed.

Lemma retry_loop_cache (options : NetworkOptions) (maxRetries : Z) (pending : list Z) :
  keeps cache_step (retry_loop net options maxRetries pending).
Proof.
  destruct pending as [|retryCount rest]; [apply keeps_ret; apply _|].
  intros w. rewrite retry_loop_single_attempt. simpl.
  apply validateNetwork_cache.
Qed.

End CacheFacts.

(** Two registries whose entries agree, one by one, on name and URL. *)
Section Similar.
Import NetworkManager.

Lemma similar_names (l l' : list NetworkConfig) :
  Forall2 same_endpoint l l' → name <$> l' = name <$> l.
Proof. induction 1 as [|a b l l' (Hn & _) _ IH]; simpl; [done | by f_equal]. Qed.

Lemma similar_find (l l' : list NetworkConfig) (target : string) (n : NetworkConfig) :
  Forall2 same_endpoint l l' →
  find (named target) l = Some n →
  ∃ n', find (named target) l' = Some n' ∧ rpcUrl n' = rpcUrl n.
Proof.
  induction 1 as [|a b l l' (Hn & Hu) _ IH]; simpl; [done|].
  unfold named at 1 3. rewrite Hn.
  destruct (String.eqb (name b) target); [|done].
  intros [= <-]. eauto.
Qed.

Lemma similar_map (f : NetworkConfig → NetworkConfig) (l : list NetworkConfig) :
  (∀ n, same_endpoint n (f n)) → Forall2 same_endpoint l (map f l).
Proof. intros Hf. induction l; simpl; by constructor. Qed.

Lemma similar_update_first (p : NetworkConfig → bool) (f : NetworkConfig → NetworkConfig)
    (l : list NetworkConfig) :
  (∀ n, same_endpoint n (f n)) → Forall2 same_endpoint l (update_first p f l).
Proof.
  intros Hf. induction l as [|n l IH]; simpl; [constructor|].
  destruct (p n).
  - constructor; [apply Hf|]. apply Forall2_same_length_lookup_2; [done|].
    intros i a b Ha Hb. by assert (a = b) as -> by congruence.
  - constructor; [done | exact IH].
Qed.

Lemma update_first_active (p : NetworkConfig → bool) (f : NetworkConfig → NetworkConfig)
    (l : list NetworkConfig) :
  (∀ n, is_active (f n) = is_active n) →
  length (filter (λ n, is_active n = true) (update_first p f l))
  = length (filter (λ n, is_active n = true) l).
Proof.
  intros Hf. induction l as [|n l IH]; simpl; [done|].
  destruct (p n); rewrite !filter_cons, ?Hf; case_decide; simpl; by rewrite ?IH.
Qed.

(** The cache stays coherent when the registry is replaced by a similar one
    and the cache has grown by entries of the registry only. *)
Lemma similar_coherent (w w' : World) (networks : list NetworkConfig) :
  Forall2 same_endpoint (collection w) networks →
  file w' = Some networks →
  (∀ target url, providers w' !! target = Some url →
     providers w !! target = Some url
     ∨ ∃ n, find (named target) (collection w) = Some n ∧ rpcUrl n = url) →
  cache_coherent w → cache_coherent w'.
Proof.
  intros Hsimilar Hfile Hcache Hcoherent target url Hcached.
  assert (collection w' = networks) as -> by (unfold collection; by rewrite Hfile).
  destruct (Hcache target url Hcached) as [Hold | (n & Hfind & Hurl)].
  - destruct (Hcoherent target url Hold) as (n & Hfind & Hurl).
    destruct (similar_find _ _ target n Hsimilar Hfind) as (n' & ? & ?).
    exists n'. split; [done | congruence].
  - destruct (similar_find _ _ target n Hsimilar Hfind) as (n' & ? & ?).
    exists n'. split; [done | congruence].
Qed.

End Similar.

Section MutationFacts.
Import NetworkManager.
Variable net : Oracle.

Lemma find_named_app (target : string) (l l' : list NetworkConfig) (n : NetworkConfig) :
  find (named target) l = Some n → find (named target) (l ++ l') = Some n.
Proof. induction l as [|a l IH]; simpl; [done|]. by destruct (named target a). Qed.

Lemma find_named_delete (target other : string) (l : list NetworkConfig)
    (index : nat) (found : NetworkConfig) :
  list_find (λ n, name n = target) l = Some (index, found) →
  other ≠ target →
  find (named other) (delete index l) = find (named other) l.
Proof.
  intros Hfind Hne. apply list_find_Some in Hfind as (Hat & Hname & _).
  revert index Hat. induction l as [|a l IH]; intros [|index] Hat; simpl in *; try done.
  - injection Hat as ->. unfold named at 2.
    by rewrite (proj2 (String.eqb_neq _ _)) by congruence.
  - destruct (named other a); [done | by apply IH].
Qed.

(** What a call of [removeNetwork] that removes leaves behind. *)
Lemma removeNetwork_removed (target : string) (w : World) (index : nat)
    (found : NetworkConfig) :
  list_find (λ n, name n = target) (collection w) = Some (index, found) →
  is_active found = false →
  ∃ w', removeNetwork target w = (Ok (), w')
        ∧ file w' = Some (delete index (collection w))
        ∧ providers w' = delete target (providers w)
        ∧ activeNetwork w' = activeNetwork w.
Proof.
  intros Hfind Hinactive.
  unfold removeNetwork. rewrite try_catch_rethrow, run_bind.
  assert (∃ networks, file w = Some networks) as [networks Hfile].
  { unfold collection in Hfind. destruct (file w); [eauto | discriminate]. }
  unfold loadNetworks, collection in *. st_run. rewrite Hfile in *. simpl in *.
  rewrite Hfind. unfold is_active in Hinactive. rewrite Hinactive. simpl. eauto.
Qed.

Lemma removeNetwork_well_formed (target : string) :
  keeps (preserves well_formed) (removeNetwork target).
Proof.
  intros w [[Hnames Hone] Hcoherent].
  pose proof (removeNetwork_run target w) as Hrun.
  destruct (list_find _ (collection w)) as [[index found]|] eqn:Hfind.
  - destruct (is_active found) eqn:Hactive.
    + rewrite Hrun. simpl. by split.
    + clear Hrun.
      destruct (removeNetwork_removed target w index found Hfind Hactive)
        as (w' & -> & Hfile & Hproviders & _). simpl.
      assert (collection w' = delete index (collection w)) as Hnew
        by (unfold collection at 1; by rewrite Hfile).
      split; [split|].
      * rewrite Hnew. by apply delete_unique_names.
      * rewrite Hnew. by apply delete_at_most_one_active.
      * intros other url. rewrite Hproviders, Hnew, lookup_delete.
        case_decide as Hother; [done|]. intros Hcached.
        rewrite (find_named_delete target other _ index found) by done.
        by apply Hcoherent.
  - clear Hrun.
    refine (cache_step_well_formed w _ _ (conj (conj Hnames Hone) Hcoherent)).
    pose proof (loadNetworks_cache w) as Hstep.
    unfold removeNetwork. rewrite try_catch_rethrow, run_bind.
    destruct (loadNetworks_run w) as (w1 & Hload & _). rewrite Hload in *.
    rewrite Hfind. exact Hstep.
Qed.

(** What a call of [addNetwork] leaves behind: it throws and the registry
    is as before, or it has appended the entry it returns. *)
Lemma addNetwork_added (options : NetworkOptions) (w : World) :
  ∃ r w',
    addNetwork net options w = (r, w')
    ∧ ((∃ e, r = Throw e) ∧ cache_step w w'
       ∨ ∃ new w1,
           r = Ok new
           ∧ cache_step w w1
           ∧ file w' = Some (collection w ++ [new])
           ∧ providers w' = providers w1
           ∧ activeNetwork w' = activeNetwork w
           ∧ name new = o_name options
           ∧ rpcUrl new = o_rpcUrl options
           ∧ isActive new = Some false
           ∧ isTestnet new = Some (truthy_opt_bool (o_testnet options))
           ∧ maxGasPrice new = None
           ∧ benchmarkResults new = None
           ∧ existsb (named (o_name options)) (collection w) = false).
Proof.
  unfold addNetwork. rewrite try_catch_rethrow. cbv zeta. rewrite run_bind.
  pose proof (retry_loop_cache net options (or_Z (o_retryAttempts options) 3)
                (seqZ 0 (or_Z (o_retryAttempts options) 3)) w) as Hstep.
  pose proof (retry_loop_quiet net options (or_Z (o_retryAttempts options) 3)
                (seqZ 0 (or_Z (o_retryAttempts options) 3)) w) as Hquiet.
  destruct (retry_loop net options _ _ w) as [[[validation|]|e] w1];
    simpl in Hstep, Hquiet;
    [| by eexists _, _; split; [done | left; eauto] ..].
  destruct (isValid validation); cbn [negb];
    [| by eexists _, _; split; [done | left; eauto]].
  rewrite run_bind. unfold Date_now, gets. rewrite run_bind.
  pose proof (loadNetworks_cache w1) as Hstep2.
  destruct (loadNetworks_run w1) as (w2 & Hload & Hquiet2 & Hfile & Hproviders).
  rewrite Hload in *. simpl in Hstep2.
  assert (collection w1 = collection w) as Hsame by apply Hquiet.
  rewrite Hsame. cbn [name].
  destruct (existsb _ (collection w)) eqn:Hexists.
  - eexists _, _. split; [done|]. left. split; [eauto | by etrans].
  - st_run. eexists _, _. split; [done|]. right. eexists _, w1.
    split; [done|]. split; [exact Hstep|]. split; [done|]. split; [done|].
    split; [|by repeat split]. simpl.
    destruct Hquiet as (_ & <- & _). by destruct Hquiet2 as (_ & -> & _).
Qed.

Lemma addNetwork_well_formed (options : NetworkOptions) :
  keeps (preserves well_formed) (addNetwork net options).
Proof.
  intros w Hwf.
  destruct (addNetwork_added options w)
    as (r & w' & -> & [[_ Hstep] | (new & w1 & -> & Hstep & Hfile & Hproviders & _
                                      & Hname & _ & Hnew & _ & _ & _ & Hfresh)]); simpl.
  - by apply (cache_step_well_formed w).
  - destruct (cache_step_well_formed w w1 Hstep Hwf) as [_ Hcoherent].
    destruct Hwf as [[Hnames Hone] _]. destruct Hstep as [Hsame _].
    assert (collection w' = collection w ++ [new]) as Hcollection
      by (unfold collection at 1; by rewrite Hfile).
    split; [split|].
    + rewrite Hcollection. unfold unique_names. rewrite fmap_app. apply NoDup_app.
      split; [done|]. split; [|apply NoDup_singleton].
      intros x Hx [->|[]%elem_of_nil]%elem_of_cons.
      rewrite Hname in Hx. by apply existsb_named_false in Hfresh.
    + rewrite Hcollection. unfold at_most_one_active.
      rewrite filter_app, filter_cons, decide_False.
      * by rewrite filter_nil, app_nil_r.
      * unfold is_active. by rewrite Hnew.
    + intros target url. rewrite Hproviders, Hcollection. intros Hcached.
      destruct (Hcoherent target url Hcached) as (n & Hfind & Hurl).
      rewrite Hsame in Hfind. exists n. split; [by apply find_named_app | done].
Qed.

Lemma switchNetwork_well_formed (target : string) :
  keeps (preserves well_formed) (switchNetwork net target).
Proof.
  intros w Hwf. unfold switchNetwork. rewrite try_catch_rethrow, run_bind.
  pose proof (loadNetworks_cache w) as Hstep1.
  destruct (loadNetworks_run w) as (w1 & Hload & _). rewrite Hload in *.
  simpl in Hstep1.
  destruct (find (named target) (collection w)) as [network|].
  - rewrite run_bind.
    pose proof (testNetwork_cache net {| to_name := Some target; to_timeout := None |} w1)
      as Hstep2.
    pose proof (testNetwork_total net {| to_name := Some target; to_timeout := None |} w1)
      as [tested Htested].
    destruct (testNetwork net _ w1) as [r w2]; simpl in Htested, Hstep2; subst r.
    assert (cache_step w w2) as [Hsame Hcache] by (by etrans).
    st_run. destruct Hwf as [[Hnames Hone] Hcoherent]. split; [split|].
    + unfold collection; simpl. fold (collection w). unfold unique_names.
      by rewrite switch_names.
    + unfold collection; simpl. fold (collection w).
      by apply switch_at_most_one_active.
    + eapply (similar_coherent w); [|reflexivity|exact Hcache|exact Hcoherent].
      by apply Forall2_fmap_r, Forall_Forall2_diag, Forall_true.
  - st_run. by apply (cache_step_well_formed w).
Qed.

Lemma benchmark_loop_cache (fuel : nat) (provider : string) (startTime duration : Z) :
  keeps (on_state cache_step) (benchmark_loop net fuel provider startTime duration).
Proof.
  induction fuel as [|fuel IH]; cbn [benchmark_loop]; keeps_auto;
    eauto using Date_now_cache, request_cache, sleep_cache.
Qed.

Lemma benchmarkNetwork_well_formed (fuel : nat) (name : string) (duration : Z) :
  keeps (preserves well_formed) (benchmarkNetwork net fuel name duration).
Proof.
  intros w Hwf. unfold benchmarkNetwork. rewrite run_bind.
  pose proof (getProvider_cache name w) as Hstep0.
  destruct (getProvider name w) as [[provider|e] w0]; simpl in Hstep0;
    [|by apply (cache_step_well_formed w)].
  rewrite run_bind. unfold Date_now at 1, gets at 1. rewrite run_bind.
  pose proof (loadNetworks_cache w0) as Hstep1.
  destruct (loadNetworks_run w0) as (w1 & Hload & _). rewrite Hload in *.
  simpl in Hstep1.
  assert (cache_step w w1) as Hstep by (by etrans).
  destruct (find (named name) (collection w0)) as [network|];
    [|by apply (cache_step_well_formed w)].
  unfold with_locals. rewrite run_bind.
  pose proof (benchmark_loop_cache fuel provider (clock w0) duration
                ({| results := []; bench_errors := []; requestCount := 0 |}, w1))
    as Hloop.
  destruct (benchmark_loop net fuel provider (clock w0) duration _)
    as [[finished|e] [l w2]]; unfold on_state in Hloop; simpl in Hloop;
    [|by apply (cache_step_well_formed w); [etrans|]].
  assert (cache_step w w2) as [Hsame Hcache] by (by etrans).
  destruct finished; cbn [negb];
    [|by apply (cache_step_well_formed w)].
  st_run. unfold Date_now. st_run.
  destruct Hwf as [[Hnames Hone] Hcoherent].
  assert (collection w0 = collection w) as -> by apply Hstep0.
  match goal with
  | |- context [set_benchmarkResults (Some ?r)] => generalize r; intros result
  end.
  pose proof (similar_update_first (named name)
                (set_benchmarkResults (Some result)) (collection w)
                (λ n, conj eq_refl eq_refl)) as Hsimilar.
  split; [split|].
  - unfold collection at 1; simpl. unfold unique_names.
    by rewrite (similar_names _ _ Hsimilar).
  - unfold collection at 1; simpl. unfold at_most_one_active.
    by rewrite update_first_active.
  - eapply (similar_coherent w); [exact Hsimilar|reflexivity|exact Hcache|exact Hcoherent].
Qed.

Lemma cache_keeps_well_formed {A} (m : M A) :
  keeps cache_step m → keeps (preserves well_formed) m.
Proof. apply keeps_weaken, cache_step_well_formed. Qed.

#[local] Hint Resolve removeNetwork_well_formed addNetwork_well_formed
  switchNetwork_well_formed benchmarkNetwork_well_formed : keeps.
#[local] Hint Extern 1 (keeps (preserves well_formed) _) =>
  apply cache_keeps_well_formed;
  first [ apply Date_now_cache | apply loadNetworks_cache
        | apply getNetworkStatus_cache | apply validateNetwork_cache
        | apply testNetwork_cache | apply listNetworks_cache
        | apply syncNetwork_cache | apply getNetworkInfo_cache ] : keeps.

Lemma cleanup_well_formed (options : CleanupOptions) :
  keeps (preserves well_formed) (cleanup net options).
Proof. unfold cleanup. keeps_auto. Qed.

Lemma import_parsed_well_formed (importData : NetworkExportData) (overwrite : bool) :
  keeps (preserves well_formed) (import_parsed net importData overwrite).
Proof. unfold import_parsed. keeps_auto. Qed.

Lemma run_op_well_formed (w : World) (op : Op) :
  well_formed w → well_formed (run_op net w op).
Proof.
  assert (∀ A (m : M A), keeps (preserves well_formed) m →
            well_formed w → well_formed (m w).2) as Hkeeps
    by (intros A m Hm; apply Hm).
  intros Hwf. destruct op; cbn [run_op];
    match goal with
    | |- well_formed (?m w).2 => apply (Hkeeps _ m); [|done]
    end;
    first [ apply cleanup_well_formed | apply import_parsed_well_formed
          | solve [eauto with keeps] ].
Qed.

Lemma run_ops_well_formed (ops : list Op) (w : World) :
  well_formed w → well_formed (run_ops net ops w).
Proof.
  unfold run_ops. revert w.
  induction ops as [|op ops IH]; intros w Hwf; simpl; [done|].
  by apply IH, run_op_well_formed.
Qed.

End MutationFacts.

(** X1. A registry with unique names, at most one active network and a
    provider cache that agrees with it stays so under every sequence of
    calls of the manager: listing, adding, switching, status, validation,
    synchronisation, removal, benchmark, import, cleanup, test and
    information. Afterwards [getProvider] hands out, for every registered
    name, the URL the registry gives it. *)
Theorem manager_keeps_registry_well_formed
    (net : NetworkManager.Oracle) (ops : list Op) (w : NetworkManager.World) :
  unique_names (collection w) →
  at_most_one_active (collection w) →
  cache_coherent w →
  unique_names (collection (run_ops net ops w))
  ∧ at_most_one_active (collection (run_ops net ops w))
  ∧ cache_coherent (run_ops net ops w)
  ∧ ∀ name network,
      find (NetworkManager.named name) (collection (run_ops net ops w)) = Some network →
      (NetworkManager.getProvider name (run_ops net ops w)).1
      = Ok (NetworkManager.rpcUrl network).
Proof.
  intros Hnames Hone Hcoherent.
  destruct (run_ops_well_formed net ops w) as [[Hnames' Hone'] Hcoherent']; [done|].
  repeat split; try done.
  intros name network Hfind. set (w' := run_ops net ops w) in *.
  unfold NetworkManager.getProvider. rewrite run_bind. unfold gets at 1.
  destruct (NetworkManager.providers w' !! name) as [cached|] eqn:Hcached.
  - destruct (Hcoherent' name cached Hcached) as (n & Hfind' & Hurl).
    simpl. congruence.
  - rewrite run_bind.
    destruct (loadNetworks_run w') as (w1 & -> & _).
    rewrite Hfind. reflexivity.
Qed.

(** X1, on a registry of two networks: a network is added, made active,
    measured, and the registry is cleaned up. *)
Lemma manager_keeps_registry_well_formed_witness :
  let w' :=
    run_ops Samples.slow_idle_chain
      [OpAdd Samples.local_options; OpSwitch "local"; OpBenchmark 10 "local" 1;
       OpCleanup {| NetworkManager.inactive := Some 30;
                    NetworkManager.unvalidated := Some 30 |};
       OpRemove "a"; OpInfo None]
      Samples.two_networks in
  unique_names (collection w') ∧ at_most_one_active (collection w') ∧ cache_coherent w'.
Proof.
  destruct (manager_keeps_registry_well_formed Samples.slow_idle_chain
              [OpAdd Samples.local_options; OpSwitch "local"; OpBenchmark 10 "local" 1;
               OpCleanup {| NetworkManager.inactive := Some 30;
                            NetworkManager.unvalidated := Some 30 |};
               OpRemove "a"; OpInfo None]
              Samples.two_networks) as (Hnames & Hone & Hcoherent & _).
  - vm_compute. repeat constructor; rewrite ?elem_of_cons, ?elem_of_nil; intuition discriminate.
  - vm_compute. lia.
  - intros name url Hcached. vm_compute in Hcached. discriminate.
  - by repeat split.
Defined.

(** ** Listing *)

Lemma listNetworks_run (options : NetworkManager.NetworkListOptions)
    (w : NetworkManager.World) :
  ∃ w', NetworkManager.listNetworks options w
        = (Ok (List.filter (NetworkManager.listed options) (collection w)), w')
        ∧ quiet w w'.
Proof.
  unfold NetworkManager.listNetworks. rewrite try_catch_rethrow, run_bind.
  destruct (loadNetworks_run w) as (w' & -> & Hquiet & _). eauto.
Qed.


(** ** Validation, synchronisation and information *)

(** X3. When the endpoint names its chain but the block number cannot be
    read, [validateNetwork] does not compare the chain with the expected
    one: the configuration counts as valid, with a warning, whatever chain
    id was asked for. *)
Theorem validateNetwork_skips_chain_check_when_reads_fail
    (net : NetworkManager.Oracle) (options : NetworkManager.NetworkOptions)
    (w : NetworkManager.World) (chain : Z) (e : thrown) :
  NetworkManager.answer
    (NetworkManager.rpc net (NetworkManager.asked w)
       (NetworkManager.o_rpcUrl options) NetworkManager.GetNetwork) = Ok chain →
  Z.of_N (NetworkManager.took
    (NetworkManager.rpc net (NetworkManager.asked w)
       (NetworkManager.o_rpcUrl options) NetworkManager.GetNetwork)) < 10000 →
  chain ≠ 0 →
  NetworkManager.answer
    (NetworkManager.rpc net (S (NetworkManager.asked w))
       (NetworkManager.o_rpcUrl options) NetworkManager.GetBlockNumber) = Throw e →
  ∃ v w' e',
    NetworkManager.validateNetwork net options w = (Ok v, w')
    ∧ NetworkManager.isValid v = true
    ∧ NetworkManager.errors v = []
    ∧ NetworkManager.v_chainId v = Some chain
    ∧ NetworkManager.warnings v = ["Additional checks failed: " +:+ message_of e'].
Proof.
  destruct w as [stored cache active now n events]; simpl.
  destruct (NetworkManager.rpc net n (NetworkManager.o_rpcUrl options)
              NetworkManager.GetNetwork) as [t0 a0] eqn:E0.
  destruct (NetworkManager.rpc net (S n) (NetworkManager.o_rpcUrl options)
              NetworkManager.GetBlockNumber) as [t1 a1] eqn:E1.
  destruct (NetworkManager.rpc net (S (S n)) (NetworkManager.o_rpcUrl options)
              NetworkManager.GetGasPrice) as [t2 a2] eqn:E2.
  simpl. intros -> Hfast%Z.ltb_lt Hchain%Z.eqb_neq ->.
  unfold NetworkManager.validateNetwork, NetworkManager.request,
    NetworkManager.issue, NetworkManager.await, NetworkManager.race_timeout,
    NetworkManager.all2, NetworkManager.Date_now, NetworkManager.when, truthy_Z.
  st_run. simpl. rewrite E0. simpl. rewrite Hfast. simpl. rewrite Hchain. simpl.
  rewrite E1, E2. simpl.
  destruct a2 as [gas|e2]; simpl; [|destruct (t1 <=? t2)%N; simpl];
    eexists _, _, _; repeat split.
Qed.

(** X3, on an endpoint of chain 5 asked for chain 1337. *)
Lemma validateNetwork_skips_chain_check_when_reads_fail_witness :
  NetworkManager.o_chainId Samples.local_options = Some 1337
  ∧ ∃ v w' e',
      NetworkManager.validateNetwork Samples.names_chain_only Samples.local_options
        (Samples.world_with []) = (Ok v, w')
      ∧ NetworkManager.isValid v = true
      ∧ NetworkManager.errors v = []
      ∧ NetworkManager.v_chainId v = Some 5
      ∧ NetworkManager.warnings v = ["Additional checks failed: " +:+ message_of e'].
Proof.
  split; [reflexivity|].
  apply (validateNetwork_skips_chain_check_when_reads_fail Samples.names_chain_only
           Samples.local_options (Samples.world_with []) 5 (Error "missing trie node")).
  - reflexivity.
  - vm_compute. reflexivity.
  - lia.
  - reflexivity.
Defined.

Section QuietFacts.
Import NetworkManager.
Variable net : Oracle.

#[local] Hint Resolve Date_now_quiet issue_quiet await_quiet sleep_quiet
  request_quiet loadNetworks_quiet getProvider_quiet : keeps.

Lemma syncNetwork_quiet (name : option string) : keeps quiet (syncNetwork net name).
Proof. unfold syncNetwork. keeps_auto. Qed.

Lemma getNetworkInfo_quiet (name : option string) :
  keeps quiet (getNetworkInfo net name).
Proof. unfold getNetworkInfo. keeps_auto. Qed.

Lemma syncNetwork_named (name : string) (w : World) :
  truthy_string name = true →
  syncNetwork net (Some name) w
  = try_catch
      (provider ← getProvider name;
       _ ← request net provider GetBlockNumber;
       mret {| sync_name := name; sync_status := "synchronized" |})
      (λ error, mret {| sync_name := name; sync_status := "failed" |}) w.
Proof.
  intros Hname. unfold syncNetwork, or_opt_string. rewrite run_bind.
  unfold gets; cbn [truthy_opt_string]. rewrite Hname.
  cbn [truthy_opt_string]. by rewrite Hname.
Qed.

Lemma getNetworkInfo_named (name : string) (w : World) :
  truthy_string name = true →
  getNetworkInfo net (Some name) w
  = (networks ← loadNetworks;
     match find (named name) networks with
     | None => throw (Error ("Network '" +:+ name +:+ "' not found"))
     | Some network =>
         provider ← getProvider name;
         p1 ← issue net provider GetBlockNumber;
         p2 ← issue net provider GetGasPrice;
         p3 ← issue net provider NetPeerCount;
         three ← await (all2 (all2 p1 (then_reply p2 (formatUnits_gwei net)))
                             (catch_reply p3 0));
         mret {| info_config := network;
                 i_blockNumber := three.1.1;
                 i_gasPrice := three.1.2;
                 i_peers := three.2 |}
     end) w.
Proof.
  intros Hname. unfold getNetworkInfo, or_opt_string. rewrite run_bind.
  unfold gets; cbn [truthy_opt_string]. rewrite Hname.
  cbn [truthy_opt_string]. by rewrite Hname.
Qed.

End QuietFacts.


(** X5. [getNetworkInfo] of a registered network whose block number and
    gas price can be read returns the registry entry with both, and with
    the peer count of the endpoint, or 0 when the endpoint does not give
    one: a failing peer count does not make the call fail. *)
Theorem getNetworkInfo_reads_missing_peers_as_zero
    (net : NetworkManager.Oracle) (name : string)
    (network : NetworkManager.NetworkConfig) (w : NetworkManager.World)
    (block gas : Z) :
  truthy_string name = true →
  find (NetworkManager.named name) (collection w) = Some network →
  cache_coherent w →
  NetworkManager.answer
    (NetworkManager.rpc net (NetworkManager.asked w)
       (NetworkManager.rpcUrl network) NetworkManager.GetBlockNumber) = Ok block →
  NetworkManager.answer
    (NetworkManager.rpc net (S (NetworkManager.asked w))
       (NetworkManager.rpcUrl network) NetworkManager.GetGasPrice) = Ok gas →
  ∃ w',
    NetworkManager.getNetworkInfo net (Some name) w
    = (Ok {| NetworkManager.info_config := network;
             NetworkManager.i_blockNumber := block;
             NetworkManager.i_gasPrice := NetworkManager.formatUnits_gwei net gas;
             NetworkManager.i_peers :=
               match NetworkManager.answer
                       (NetworkManager.rpc net (S (S (NetworkManager.asked w)))
                          (NetworkManager.rpcUrl network) NetworkManager.NetPeerCount)
               with
               | Ok peers => peers
               | Throw _ => 0
               end |}, w')
    ∧ collection w' = collection w.
Proof.
  intros Hname Hfind Hcoherent.
  assert (∃ networks, NetworkManager.file w = Some networks) as [networks Hfile].
  { unfold collection in Hfind. destruct (NetworkManager.file w); [eauto | discriminate]. }
  assert (collection w = networks) as Hcollection
    by (unfold collection; by rewrite Hfile).
  rewrite Hcollection in Hfind.
  rewrite getNetworkInfo_named by done. rewrite run_bind.
  rewrite (loadNetworks_existing networks) by done.
  rewrite Hfind, run_bind.
  assert (∃ w0, NetworkManager.getProvider name w
                = (Ok (NetworkManager.rpcUrl network), w0)
                ∧ NetworkManager.asked w0 = NetworkManager.asked w
                ∧ NetworkManager.file w0 = NetworkManager.file w) as (w0 & -> & Hasked & Hfile0).
  { unfold NetworkManager.getProvider. rewrite run_bind. unfold gets at 1.
    destruct (NetworkManager.providers w !! name) as [cached|] eqn:Hcached.
    - destruct (Hcoherent name cached Hcached) as (n & Hn & <-).
      rewrite Hcollection, Hfind in Hn. injection Hn as <-. by eexists.
    - rewrite run_bind, (loadNetworks_existing networks) by done.
      rewrite Hfind. st_run. by eexists. }
  unfold NetworkManager.issue, NetworkManager.await, NetworkManager.all2,
    NetworkManager.then_reply, NetworkManager.catch_reply.
  st_run. simpl. rewrite !Hasked.
  destruct (NetworkManager.rpc net (NetworkManager.asked w) _ NetworkManager.GetBlockNumber)
    as [t1 a1].
  destruct (NetworkManager.rpc net (S (NetworkManager.asked w)) _ NetworkManager.GetGasPrice)
    as [t2 a2].
  destruct (NetworkManager.rpc net (S (S (NetworkManager.asked w))) _
              NetworkManager.NetPeerCount) as [t3 a3].
  simpl. intros -> ->. simpl.
  destruct a3 as [peers|e]; simpl; eexists; (split; [reflexivity|]);
    unfold collection; simpl; by rewrite Hfile0.
Qed.


(** X5, on an endpoint that does not know [net_peerCount]. *)
Lemma getNetworkInfo_reads_missing_peers_as_zero_witness :
  ∃ w',
    NetworkManager.getNetworkInfo Samples.no_peer_count (Some "local")
      Samples.local_world
    = (Ok {| NetworkManager.info_config := Samples.network_named "local" (Some false);
             NetworkManager.i_blockNumber := 120;
             NetworkManager.i_gasPrice := "50";
             NetworkManager.i_peers := 0 |}, w')
    ∧ collection w' = collection Samples.local_world.
Proof.
  apply (getNetworkInfo_reads_missing_peers_as_zero Samples.no_peer_count "local"
           (Samples.network_named "local" (Some false)) Samples.local_world
           120 50000000000).
  - reflexivity.
  - reflexivity.
  - intros name url Hcached. vm_compute in Hcached. discriminate.
  - reflexivity.
  - reflexivity.
Defined.

(** ** Export and import *)

Lemma for_each_skips {S A} (xs : list A) (body : A → ST S unit) (s : S) :
  (∀ x, x ∈ xs → body x = mret ()) → for_each xs body s = (Ok (), s).
Proof.
  induction xs as [|x xs IH]; intros Hbody; simpl; [done|].
  rewrite run_bind, (Hbody x) by (apply elem_of_cons; eauto).
  apply IH. intros y Hy. apply Hbody, elem_of_cons; eauto.
Qed.

(** A loop whose rounds keep [P] and that has a round which throws
    whenever [P] holds, throws, and [P] still holds then. *)
Lemma for_each_throws {S A} (P : S → Prop) (B : A → Prop) (xs : list A)
    (body : A → ST S unit) (s : S) :
  (∀ x, keeps (preserves P) (body x)) →
  (∀ x s, B x → P s → ∃ e, (body x s).1 = Throw e) →
  (∃ x, x ∈ xs ∧ B x) →
  P s →
  ∃ e s', for_each xs body s = (Throw e, s') ∧ P s'.
Proof.
  intros Hkeeps Hthrows. revert s.
  induction xs as [|x xs IH]; intros s (bad & Hin & Hbad) HP.
  { by apply elem_of_nil in Hin. }
  simpl. rewrite run_bind. pose proof (Hkeeps x s HP) as HP'.
  destruct (body x s) as [[[]|e] s1] eqn:Hrun; simpl in HP'; [|eauto].
  apply IH; [|done]. apply elem_of_cons in Hin as [->|Hin]; [|eauto].
  destruct (Hthrows x s Hbad HP) as [e He]. rewrite Hrun in He. discriminate.
Qed.

Section ImportFacts.
Import NetworkManager.
Variable net : Oracle.

Lemma import_parsed_nothing_new (importData : NetworkExportData) (w : World) :
  (∀ network, network ∈ e_networks importData →
     existsb (named (name network)) (collection w) = true) →
  ∃ w', import_parsed net importData false w = (Ok 0%nat, w')
        ∧ loadNetworks w = (Ok (collection w), w').
Proof.
  intros Hexist. unfold import_parsed. rewrite run_bind.
  destruct (loadNetworks_run w) as (w1 & Hload & _). rewrite Hload.
  unfold with_locals. rewrite run_bind, for_each_skips; [by eexists|].
  intros network Hin. cbv zeta. by rewrite Hexist.
Qed.

Lemma removeNetwork_holds (n : NetworkConfig) (target : string) :
  is_active n = true → keeps (preserves (holds n)) (removeNetwork target).
Proof.
  intros Hactive w [Hnames Hin].
  pose proof (removeNetwork_run target w) as Hrun.
  destruct (list_find _ (collection w)) as [[index found]|] eqn:Hfind.
  - destruct (is_active found) eqn:Hfound.
    + rewrite Hrun. by split.
    + clear Hrun.
      destruct (removeNetwork_removed target w index found Hfind Hfound)
        as (w' & -> & Hfile & _). simpl. unfold holds.
      assert (collection w' = delete index (collection w)) as ->
        by (unfold collection at 1; by rewrite Hfile).
      split; [by apply delete_unique_names|].
      apply list_find_Some in Hfind as (Hat & _).
      apply list_elem_of_lookup in Hin as [i Hi].
      assert (i ≠ index) as Hne by (intros ->; congruence).
      apply list_elem_of_lookup.
      destruct (decide (i < index)%nat).
      * exists i. by rewrite list_lookup_delete_lt.
      * exists (pred i). rewrite list_lookup_delete_ge by lia.
        by replace (S (pred i)) with i by lia.
  - destruct Hrun as (w' & -> & Hquiet & _). simpl. unfold holds.
    by rewrite Hquiet.
Qed.

Lemma addNetwork_holds (n : NetworkConfig) (options : NetworkOptions) :
  keeps (preserves (holds n)) (addNetwork net options).
Proof.
  intros w [Hnames Hin].
  destruct (addNetwork_added net options w)
    as (r & w' & -> & [[_ [Hsame _]] | (new & w1 & -> & _ & Hfile & _ & _ & Hname
                                          & _ & _ & _ & _ & _ & Hfresh)]); simpl.
  - unfold holds. by rewrite Hsame.
  - unfold holds.
    assert (collection w' = collection w ++ [new]) as ->
      by (unfold collection at 1; by rewrite Hfile).
    split; [|apply elem_of_app; eauto].
    unfold unique_names. rewrite fmap_app. apply NoDup_app.
    split; [done|]. split; [|apply NoDup_singleton].
    intros x Hx [->|[]%elem_of_nil]%elem_of_cons.
    rewrite Hname in Hx. by apply existsb_named_false in Hfresh.
Qed.

Lemma existsb_named_self (network : NetworkConfig) (networks : list NetworkConfig) :
  network ∈ networks → existsb (named (name network)) networks = true.
Proof.
  intros Hin. apply existsb_exists. exists network.
  split; [by apply list_elem_of_In | apply String.eqb_refl].
Qed.

Lemma existsb_named_name (n network : NetworkConfig) (networks : list NetworkConfig) :
  n ∈ networks → name network = name n →
  existsb (named (name network)) networks = true.
Proof. intros Hin ->. by apply existsb_named_self. Qed.

#[local] Instance kept_or_afresh_preorder : PreOrder kept_or_afresh.
Proof.
  split.
  - intros w n Hin. by left.
  - intros w1 w2 w3 H12 H23 n Hin.
    destruct (H23 n Hin) as [Hin2|Hfresh]; [by apply H12 | by right].
Qed.

Lemma quiet_kept (w w' : World) : quiet w w' → kept_or_afresh w w'.
Proof. intros (Hsame & _) n. rewrite Hsame. by left. Qed.

Lemma removeNetwork_kept (target : string) : keeps kept_or_afresh (removeNetwork target).
Proof.
  intros w. pose proof (removeNetwork_run target w) as Hrun.
  destruct (list_find _ (collection w)) as [[index found]|] eqn:Hfind.
  - destruct (is_active found) eqn:Hfound.
    + rewrite Hrun. simpl. reflexivity.
    + destruct Hrun as (w' & -> & Hfile). simpl. intros n.
      unfold collection at 1. rewrite Hfile. simpl.
      intros Hin%list_elem_of_delete_inv. by left.
  - destruct Hrun as (w' & -> & Hquiet). by apply quiet_kept.
Qed.

Lemma addNetwork_kept (network : NetworkConfig) :
  keeps kept_or_afresh (addNetwork net (as_options network)).
Proof.
  intros w.
  destruct (addNetwork_added net (as_options network) w)
    as (r & w' & -> & [[_ [Hsame _]] | (new & w1 & -> & _ & Hfile & _ & _ & _
                                          & _ & ? & ? & ? & ? & _)]); simpl.
  - intros n. rewrite Hsame. by left.
  - intros n. unfold collection at 1. rewrite Hfile. simpl.
    intros [Hin | ->%list_elem_of_singleton]%elem_of_app; [by left|].
    right. by repeat split.
Qed.

Lemma loadNetworks_kept : keeps kept_or_afresh loadNetworks.
Proof. intros w. apply quiet_kept, loadNetworks_quiet. Qed.

#[local] Hint Resolve loadNetworks_kept removeNetwork_kept addNetwork_kept : keeps.

Lemma import_parsed_kept (importData : NetworkExportData) (overwrite : bool) :
  keeps kept_or_afresh (import_parsed net importData overwrite).
Proof. unfold import_parsed. keeps_auto. Qed.

End ImportFacts.

(** X6. Importing, without [overwrite], the file that [exportNetworks] has
    just written imports nothing: the call returns 0 and does no more to
    the manager than reading the registry does. *)
Theorem importNetworks_of_export_imports_nothing
    (net : NetworkManager.Oracle) (filepath : string)
    (files : NetworkManager.Exports) (w : NetworkManager.World) :
  ∃ w',
    (NetworkManager.exportNetworks filepath
       ≫= λ _, NetworkManager.importNetworks net filepath false) (files, w)
    = (Ok 0%nat,
       (<[filepath := {| NetworkManager.e_version := "1.0";
                         NetworkManager.e_timestamp := NetworkManager.clock w;
                         NetworkManager.e_networks := collection w |}]> files, w'))
    ∧ NetworkManager.loadNetworks w = (Ok (collection w), w').
Proof.
  destruct (loadNetworks_run w) as (w1 & Hload & Hquiet & Hfile & _).
  exists w1. split; [|done].
  unfold NetworkManager.exportNetworks, NetworkManager.importNetworks,
    NetworkManager.Date_now.
  st_run. rewrite Hload. cbn [fst snd]. rewrite lookup_insert_eq. cbn [fst snd].
  destruct (import_parsed_nothing_new net
              {| NetworkManager.e_version := "1.0";
                 NetworkManager.e_timestamp := NetworkManager.clock w1;
                 NetworkManager.e_networks := collection w |} w1)
    as (w2 & -> & Hload2).
  { simpl. intros network Hin. destruct Hquiet as [-> _].
    by apply existsb_named_self. }
  rewrite (loadNetworks_existing (collection w)) in Hload2 by done.
  injection Hload2 as _ <-. cbn [fst snd].
  assert (NetworkManager.clock w1 = NetworkManager.clock w) as ->; [|done].
  unfold NetworkManager.loadNetworks in Hload. revert Hload. st_run.
  destruct (NetworkManager.file w); simpl; by intros [= _ <-].
Qed.

(** X7. An import with [overwrite] cannot replace the active network: when
    the file names it, [importNetworks] throws, and the active entry is
    still in the registry. *)
Theorem importNetworks_cannot_replace_active
    (net : NetworkManager.Oracle) (filepath : string)
    (files : NetworkManager.Exports) (importData : NetworkManager.NetworkExportData)
    (w : NetworkManager.World) (n : NetworkManager.NetworkConfig) :
  files !! filepath = Some importData →
  unique_names (collection w) →
  n ∈ collection w →
  is_active n = true →
  NetworkManager.name n ∈ NetworkManager.name <$> NetworkManager.e_networks importData →
  ∃ e files' w',
    NetworkManager.importNetworks net filepath true (files, w) = (Throw e, (files', w'))
    ∧ n ∈ collection w'.
Proof.
  intros Hstored Hnames Hin Hactive Hnamed.
  unfold NetworkManager.importNetworks. rewrite run_bind.
  unfold local, gets at 1. cbn [fst]. rewrite Hstored.
  unfold lift, NetworkManager.import_parsed. cbn [fst snd]. rewrite run_bind.
  destruct (loadNetworks_run w) as (w1 & -> & (Hsame & _) & _).
  unfold with_locals. rewrite run_bind.
  match goal with
  | |- context [for_each _ ?body _] =>
      destruct (for_each_throws (λ s : nat * NetworkManager.World, holds n s.2)
                  (λ x, NetworkManager.name x = NetworkManager.name n)
                  (NetworkManager.e_networks importData) body (0%nat, w1))
        as (e & [count w2] & -> & _ & Hin2)
  end.
  - intros network. cbv zeta. rewrite orb_true_r.
    change (preserves (λ s : nat * NetworkManager.World, holds n s.2))
      with (on_state (L:=nat) (preserves (holds n))).
    pose proof (λ target, removeNetwork_holds n target Hactive) as Hremove.
    pose proof (addNetwork_holds net n) as Hadd.
    keeps_auto.
  - intros network [count w2] Hname [Hnames2 Hin2]. cbv zeta.
    rewrite orb_true_r, (existsb_named_name n) by done.
    rewrite run_bind. unfold lift at 1. cbn [fst snd]. rewrite Hname.
    rewrite (removeNetwork_active w2 n) by done. by eexists.
  - apply list_elem_of_fmap in Hnamed as (network & Hname & Hnetwork). eauto.
  - split; simpl; by rewrite Hsame.
  - eexists _, _, _. split; [reflexivity|]. exact Hin2.
Qed.

(** X8. Whatever the entries of the file say, every entry that
    [importNetworks] leaves in the registry, whether it returns or throws,
    was there before the call or is stored as [addNetwork] stores it: not a
    testnet and not active, without gas price ceiling and benchmark
    results. An exported testnet comes back as a mainnet. *)
Theorem importNetworks_stores_entries_afresh
    (net : NetworkManager.Oracle) (filepath : string) (overwrite : bool)
    (files : NetworkManager.Exports) (w : NetworkManager.World)
    (n : NetworkManager.NetworkConfig) :
  n ∈ collection (NetworkManager.importNetworks net filepath overwrite (files, w)).2.2 →
  n ∈ collection w
  ∨ (NetworkManager.isTestnet n = Some false
     ∧ NetworkManager.isActive n = Some false
     ∧ NetworkManager.maxGasPrice n = None
     ∧ NetworkManager.benchmarkResults n = None).
Proof.
  unfold NetworkManager.importNetworks. rewrite run_bind.
  unfold local, gets at 1. cbn [fst].
  destruct (files !! filepath) as [importData|]; [|by left].
  unfold lift. cbn [fst snd]. apply (import_parsed_kept net importData overwrite w).
Qed.

(** X7, on an export file that names the active network [a]. *)
Lemma importNetworks_cannot_replace_active_witness :
  ∃ e files' w',
    NetworkManager.importNetworks Samples.slow_idle_chain "networks-export.json" true
      (Samples.exported_files, Samples.two_networks) = (Throw e, (files', w'))
    ∧ Samples.network_named "a" (Some true) ∈ collection w'.
Proof.
  apply (importNetworks_cannot_replace_active Samples.slow_idle_chain
           "networks-export.json" Samples.exported_files Samples.export_of_a_and_c
           Samples.two_networks (Samples.network_named "a" (Some true))).
  - reflexivity.
  - vm_compute. repeat constructor; rewrite ?elem_of_cons, ?elem_of_nil; intuition discriminate.
  - apply (list_elem_of_lookup_2 _ 0). reflexivity.
  - reflexivity.
  - apply (list_elem_of_lookup_2 _ 0). reflexivity.
Defined.

(** X8, on an export file whose entry [c] is a testnet and active: it is
    stored as neither. *)
Lemma importNetworks_stores_entries_afresh_witness :
  ∃ n,
    collection
      (NetworkManager.importNetworks Samples.slow_idle_chain "networks-export.json"
         false (Samples.exported_files, Samples.two_networks)).2.2 !! 2%nat = Some n
    ∧ NetworkManager.name n = "c"
    ∧ (n ∈ collection Samples.two_networks
       ∨ (NetworkManager.isTestnet n = Some false
          ∧ NetworkManager.isActive n = Some false
          ∧ NetworkManager.maxGasPrice n = None
          ∧ NetworkManager.benchmarkResults n = None)).
Proof.
  eexists. split; [vm_compute; reflexivity|]. split; [reflexivity|].
  apply (importNetworks_stores_entries_afresh Samples.slow_idle_chain
           "networks-export.json" false Samples.exported_files Samples.two_networks).
  apply (list_elem_of_lookup_2 _ 2). vm_compute. reflexivity.
Defined.

(** ** Cleanup *)

#[local] Instance cleanup_step_preorder : PreOrder cleanup_step.
Proof.
  split.
  - intros a. split; [done|]. split; [done|]. split; [done|].
    exists []. by rewrite app_nil_r.
  - intros a b c (Hsub & Hlen & Hactive & names & Hnames & Hfrom)
                 (Hsub' & Hlen' & Hactive' & names' & Hnames' & Hfrom').
    split; [by etrans|]. split; [lia|]. split; [eauto|].
    exists (names ++ names'). split; [by rewrite Hnames', Hnames, app_assoc|].
    apply Forall_app. split; [done|].
    eapply Forall_impl; [exact Hfrom'|]. intros r Hr. simpl in Hr.
    eapply elem_of_sublist; [exact Hr|]. by apply fmap_sublist.
Qed.

Section CleanupAccounting.
Import NetworkManager.
Variable net : Oracle.

Lemma quiet_cleanup_step {A} (m : M A) :
  keeps quiet m → keeps cleanup_step (lift (L:=list string) m).
Proof.
  intros Hm [removed w]. destruct (Hm w) as (Hsame & _).
  unfold cleanup_step, lift; cbn [fst snd]. rewrite Hsame.
  split; [done|]. split; [done|]. split; [done|].
  exists []. by rewrite app_nil_r.
Qed.

(** Removing a network and pushing its name, as one step. *)
Lemma remove_and_push (target : string) (removed : list string) (w : World) :
  match removeNetwork target w with
  | (Ok _, w') => cleanup_step (removed, w) (removed ++ [target], w')
  | (Throw _, w') => cleanup_step (removed, w) (removed, w')
  end.
Proof.
  pose proof (removeNetwork_run target w) as Hrun.
  destruct (list_find _ (collection w)) as [[index found]|] eqn:Hfind.
  - destruct (is_active found) eqn:Hfound.
    + rewrite Hrun. reflexivity.
    + destruct Hrun as (w' & -> & Hfile).
      assert (collection w' = delete index (collection w)) as Hnew
        by (unfold collection at 1; by rewrite Hfile).
      apply list_find_Some in Hfind as (Hat & Hname & _).
      unfold cleanup_step; cbn [fst snd]. rewrite Hnew.
      split; [apply sublist_delete|]. split; [|split].
      * rewrite length_delete by eauto. rewrite length_app. simpl.
        apply lookup_lt_Some in Hat. lia.
      * intros n Hin Hactive.
        apply list_elem_of_lookup in Hin as [i Hi].
        assert (i ≠ index) as Hne by (intros ->; congruence).
        apply list_elem_of_lookup.
        destruct (decide (i < index)%nat).
        -- exists i. by rewrite list_lookup_delete_lt.
        -- exists (pred i). rewrite list_lookup_delete_ge by lia.
           by replace (S (pred i)) with i by lia.
      * exists [target]. split; [done|]. apply Forall_singleton.
        apply list_elem_of_fmap. exists found.
        split; [done | by eapply list_elem_of_lookup_2].
  - destruct Hrun as (w' & -> & Hquiet & _).
    unfold cleanup_step; cbn [fst snd]. rewrite Hquiet.
    split; [done|]. split; [done|]. split; [done|].
    exists []. by rewrite app_nil_r.
Qed.

Lemma remove_and_push_keeps (target : string) :
  keeps cleanup_step
    (lift (removeNetwork target);;
     set_local (λ removed : list string, (removed ++ [target])%list)).
Proof.
  intros [removed w]. pose proof (remove_and_push target removed w) as Hstep.
  rewrite run_bind. unfold lift at 1. cbn [fst snd].
  by destruct (removeNetwork target w) as [[[]|e] w'].
Qed.

Lemma remove_and_push_then {A} (target : string) (k : ST (list string * World) A) :
  keeps cleanup_step k →
  keeps cleanup_step
    (lift (removeNetwork target);;
     set_local (λ removed : list string, (removed ++ [target])%list);;
     k).
Proof.
  intros Hk [removed w]. pose proof (remove_and_push target removed w) as Hstep.
  rewrite run_bind. unfold lift at 1. cbn [fst snd].
  destruct (removeNetwork target w) as [[[]|e] w']; [|done].
  rewrite run_bind. unfold set_local, modify. cbn [fst snd].
  etrans; [exact Hstep | apply Hk].
Qed.

End CleanupAccounting.


Lemma older_than (elapsed days : Z) :
  negb (Qle_bool (inject_Z elapsed / inject_Z (1000 * 60 * 60 * 24)) (inject_Z days))
  = (days * 86400000 <? elapsed).
Proof.
  unfold Qle_bool, Qdiv, Qmult, Qinv, inject_Z. simpl.
  change (Z.pos (1 * (1000 * 60 * 60 * 24))) with 86400000.
  by rewrite !Z.mul_1_r, <- Z.ltb_antisym.
Qed.

Section CleanupByAge.
Import NetworkManager.
Variable net : Oracle.

Lemma list_find_middle (kept rest : list NetworkConfig) (network : NetworkConfig) :
  unique_names (kept ++ network :: rest) →
  list_find (λ n, name n = name network) (kept ++ network :: rest)
  = Some (length kept, network).
Proof.
  intros Hnames. apply list_find_Some. split; [|split; [done|]].
  - by rewrite lookup_app_r, Nat.sub_diag by lia.
  - intros j other Hother Hj Hname.
    unfold unique_names in Hnames.
    assert ((name <$> kept ++ network :: rest) !! j = Some (name network)) as H1
      by (by rewrite list_lookup_fmap, Hother; simpl; f_equal).
    assert ((name <$> kept ++ network :: rest) !! length kept = Some (name network)) as H2.
    { by rewrite list_lookup_fmap, lookup_app_r, Nat.sub_diag by lia. }
    pose proof (NoDup_lookup _ _ _ _ Hnames H1 H2). lia.
Qed.

(** A loop whose round removes the entry it is at when the entry is
    outdated, and pushes its name, over the entries [rest] that are still
    to come, [kept] being those before. *)
Lemma cleanup_by_age_loop (today days : Z)
    (body : NetworkConfig → ST (list string * World) unit) :
  (∀ network kept rest removed w,
     file w = Some (kept ++ network :: rest) →
     unique_names (kept ++ network :: rest) →
     clock w = today →
     ∃ w',
       body network (removed, w)
       = (Ok (), (if outdated today days network
                  then removed ++ [name network] else removed, w'))
       ∧ file w'
         = Some (if outdated today days network
                 then kept ++ rest else kept ++ network :: rest)
       ∧ clock w' = today) →
  ∀ rest kept removed w,
    file w = Some (kept ++ rest) →
    unique_names (kept ++ rest) →
    clock w = today →
    ∃ w',
      for_each rest body (removed, w)
      = (Ok (), (removed ++ (name <$> List.filter (outdated today days) rest), w'))
      ∧ file w' = Some (kept ++ List.filter (λ n, negb (outdated today days n)) rest)
      ∧ clock w' = today.
Proof.
  intros Hbody.
  induction rest as [|network rest IH]; intros kept removed w Hfile Hnames Hclock.
  { exists w. simpl. by rewrite !app_nil_r in *. }
  cbn [for_each List.filter]. rewrite run_bind.
  destruct (Hbody network kept rest removed w Hfile Hnames Hclock)
    as (w1 & -> & Hfile1 & Hclock1).
  destruct (outdated today days network); cbn [negb].
  - destruct (IH kept (removed ++ [name network]) w1) as (w' & -> & Hfile' & Hclock');
      [done | | done |].
    { unfold unique_names in *. rewrite fmap_app, fmap_cons in Hnames.
      rewrite fmap_app. apply NoDup_app in Hnames as (? & Hdisjoint & [_ ?]%NoDup_cons).
      apply NoDup_app. split; [done|]. split; [|done].
      intros x Hx Hx'. apply (Hdisjoint x Hx). by right. }
    exists w'. by rewrite fmap_cons, <- app_assoc.
  - destruct (IH (kept ++ [network]) removed w1) as (w' & -> & Hfile' & Hclock');
      [by rewrite <- app_assoc .. | done |].
    exists w'. by rewrite <- app_assoc in Hfile'.
Qed.

End CleanupByAge.

(** X10. With the threshold [unvalidated] alone, in a registry with unique
    names, [cleanup] removes the entries that are not active and were
    validated more than that many days ago, and no other: it returns their
    names, in the order of the registry. *)
Theorem cleanup_removes_outdated_networks
    (net : NetworkManager.Oracle) (days : Z) (w : NetworkManager.World) :
  unique_names (collection w) →
  days ≠ 0 →
  ∃ w',
    NetworkManager.cleanup net
      {| NetworkManager.inactive := None; NetworkManager.unvalidated := Some days |} w
    = (Ok (NetworkManager.name
             <$> List.filter (outdated (NetworkManager.clock w) days) (collection w)),
       w')
    ∧ collection w'
      = List.filter (λ n, negb (outdated (NetworkManager.clock w) days n)) (collection w).
Proof.
  intros Hnames Hdays. unfold NetworkManager.cleanup. rewrite run_bind.
  destruct (loadNetworks_run w) as (w1 & Hload & (Hsame & _) & Hfile & _).
  rewrite Hload. unfold with_locals. rewrite run_bind.
  assert (NetworkManager.clock w1 = NetworkManager.clock w) as Hclock.
  { revert Hload. unfold NetworkManager.loadNetworks. st_run.
    destruct (NetworkManager.file w); simpl; by intros [= _ <-]. }
  match goal with
  | |- context [for_each _ ?body _] =>
      destruct (cleanup_by_age_loop (NetworkManager.clock w) days body)
        with (rest := collection w) (kept := @nil NetworkManager.NetworkConfig)
             (removed := @nil string) (w := w1)
        as (w' & -> & Hfile' & _); [|done..|]
  end.
  2: { exists w'. split; [done|]. unfold collection at 1. by rewrite Hfile'. }
  clear Hnames Hload Hsame Hfile Hclock. generalize (NetworkManager.clock w).
  clear w w1. intros today network kept rest removed w Hfile Hnames <-.
  rewrite run_try_catch.
  cbn [NetworkManager.inactive NetworkManager.unvalidated truthy_opt_Z].
  assert (truthy_Z days = true) as ->.
  { unfold truthy_Z. by rewrite (proj2 (Z.eqb_neq _ _)). }
  rewrite run_bind. st_unfold. cbn [fst snd default].
  unfold outdated.
  destruct (NetworkManager.lastValidated network) as [validated|] eqn:Hvalidated.
  2: { rewrite andb_false_r. by exists w. }
  unfold NetworkManager.Date_now, gets. cbn [fst snd id]. rewrite older_than.
  destruct (days * 86400000 <? NetworkManager.clock w - validated) eqn:Hold.
  2: { rewrite andb_false_r. by exists w. }
  rewrite andb_true_r. cbn [fst snd].
  pose proof (removeNetwork_run (NetworkManager.name network) w) as Hrun.
  assert (collection w = kept ++ network :: rest) as Hcollection
    by (unfold collection; by rewrite Hfile).
  rewrite Hcollection, list_find_middle in Hrun by done.
  destruct (is_active network) eqn:Hactive; cbn [negb].
  - rewrite Hrun. cbn [fst snd]. by exists w.
  - clear Hrun.
    destruct (removeNetwork_removed (NetworkManager.name network) w (length kept) network)
      as (w1 & Hrun & Hfile1 & _); [by rewrite Hcollection, list_find_middle | done |].
    rewrite Hrun. cbn [fst snd].
    assert (NetworkManager.clock w1 = NetworkManager.clock w) as Hclock1.
    { revert Hrun. unfold NetworkManager.removeNetwork.
      rewrite try_catch_rethrow, run_bind.
      rewrite (loadNetworks_existing (kept ++ network :: rest)) by done.
      destruct (list_find _ _) as [[i found]|]; [|by st_run].
      destruct (truthy_opt_bool _); st_run; [done|]. by intros [= <-]. }
    rewrite Hcollection, delete_middle in Hfile1.
    by exists w1.
Qed.

(** X10, forty days after the validation of [a], which is active, and of
    [b], which is not. *)
Lemma cleanup_removes_outdated_networks_witness :
  ∃ w',
    NetworkManager.cleanup Samples.refusing
      {| NetworkManager.inactive := None; NetworkManager.unvalidated := Some 30 |}
      Samples.forty_days_later
    = (Ok ["b"], w')
    ∧ collection w' = [Samples.network_named "a" (Some true)].
Proof.
  apply (cleanup_removes_outdated_networks Samples.refusing 30 Samples.forty_days_later).
  - vm_compute. repeat constructor; rewrite ?elem_of_cons, ?elem_of_nil; intuition discriminate.
  - lia.
Defined.

(** ** Adding, then removing or switching; benchmark results *)

Section AddFacts.
Import NetworkManager.
Variable net : Oracle.

Lemma list_find_appended (target : string) (l : list NetworkConfig) (new : NetworkConfig) :
  existsb (named target) l = false → name new = target →
  list_find (λ n, name n = target) (l ++ [new]) = Some (length l, new).
Proof.
  intros Hfresh%existsb_named_false Hname. apply list_find_Some.
  split; [by rewrite lookup_app_r, Nat.sub_diag by lia|]. split; [done|].
  intros j other Hother Hj Hnamed. apply Hfresh.
  rewrite lookup_app_l in Hother by done.
  apply list_elem_of_fmap. exists other. split; [done|].
  by eapply list_elem_of_lookup_2.
Qed.

Lemma find_update_first (target : string) (f : NetworkConfig → NetworkConfig)
    (l : list NetworkConfig) :
  (∀ n, name (f n) = name n) →
  find (named target) (update_first (named target) f l) = f <$> find (named target) l.
Proof.
  intros Hf. induction l as [|n l IH]; simpl; [done|].
  destruct (named target n) eqn:Hn; simpl.
  - unfold named in *. by rewrite Hf, Hn.
  - by rewrite Hn.
Qed.

Lemma find_update_first_ne (target other : string) (f : NetworkConfig → NetworkConfig)
    (l : list NetworkConfig) :
  (∀ n, name (f n) = name n) → other ≠ target →
  find (named other) (update_first (named target) f l) = find (named other) l.
Proof.
  intros Hf Hne. induction l as [|n l IH]; simpl; [done|].
  destruct (named target n) eqn:Hn; simpl.
  - unfold named in *. rewrite Hf. apply String.eqb_eq in Hn.
    by rewrite !(proj2 (String.eqb_neq _ _)) by congruence.
  - by rewrite IH.
Qed.

End AddFacts.

(** X11. A network that [addNetwork] has added can be removed again, and
    the registry is then what it was before the two calls. *)
Theorem removeNetwork_undoes_addNetwork
    (net : NetworkManager.Oracle) (options : NetworkManager.NetworkOptions)
    (w w1 : NetworkManager.World) (new : NetworkManager.NetworkConfig) :
  NetworkManager.addNetwork net options w = (Ok new, w1) →
  ∃ w2,
    NetworkManager.removeNetwork (NetworkManager.o_name options) w1 = (Ok (), w2)
    ∧ collection w2 = collection w.
Proof.
  intros Hadd.
  destruct (addNetwork_added net options w)
    as (r & w' & Hrun & [[[e ->] _] | (new' & w0 & -> & _ & Hfile & _ & _ & Hname
                                         & _ & Hactive & _ & _ & _ & Hfresh)]);
    rewrite Hadd in Hrun; [discriminate|].
  injection Hrun as <- <-.
  assert (collection w1 = collection w ++ [new]) as Hcollection
    by (unfold collection at 1; by rewrite Hfile).
  destruct (removeNetwork_removed (NetworkManager.o_name options) w1
              (length (collection w)) new) as (w2 & -> & Hfile2 & _).
  - rewrite Hcollection. by apply list_find_appended.
  - unfold is_active. by rewrite Hactive.
  - exists w2. split; [done|]. unfold collection at 1. rewrite Hfile2. simpl.
    rewrite Hcollection. by rewrite (delete_middle _ []), app_nil_r.
Qed.

(** X12. A network that [addNetwork] has added can be switched to at once,
    whatever its endpoint answers by then; it is then the one active
    entry of the registry and the active network of the manager. *)
Theorem switchNetwork_after_addNetwork
    (net : NetworkManager.Oracle) (options : NetworkManager.NetworkOptions)
    (w w1 : NetworkManager.World) (new : NetworkManager.NetworkConfig) :
  NetworkManager.addNetwork net options w = (Ok new, w1) →
  ∃ result w2,
    NetworkManager.switchNetwork net (NetworkManager.o_name options) w1
    = (Ok result, w2)
    ∧ NetworkManager.activeNetwork w2 = Some (NetworkManager.o_name options)
    ∧ (∃ n, n ∈ collection w2
            ∧ NetworkManager.name n = NetworkManager.o_name options)
    ∧ ∀ n, n ∈ collection w2 →
           (is_active n = true ↔ NetworkManager.name n = NetworkManager.o_name options).
Proof.
  intros Hadd.
  destruct (addNetwork_added net options w)
    as (r & w' & Hrun & [[[e ->] _] | (new' & w0 & -> & _ & Hfile & _ & _ & Hname
                                         & _ & Hactive & _ & _ & _ & Hfresh)]);
    rewrite Hadd in Hrun; [discriminate|].
  injection Hrun as <- <-.
  assert (collection w1 = collection w ++ [new]) as Hcollection
    by (unfold collection at 1; by rewrite Hfile).
  pose proof (switchNetwork_run net (NetworkManager.o_name options) w1) as Hswitch.
  destruct (find _ (collection w1)) as [found|] eqn:Hfound.
  2: { eapply find_none in Hfound; [|apply list_elem_of_In; rewrite Hcollection;
                                      apply elem_of_app; right; by apply list_elem_of_singleton].
       unfold NetworkManager.named in Hfound. rewrite Hname in Hfound.
       by rewrite String.eqb_refl in Hfound. }
  destruct Hswitch as (result & w2 & -> & Hfile2 & Hactive2).
  exists result, w2. split; [done|]. split; [done|].
  assert (collection w2
          = map (λ n, NetworkManager.set_isActive
                        (Some (NetworkManager.named (NetworkManager.o_name options) n)) n)
                (collection w1)) as ->
    by (unfold collection at 1; by rewrite Hfile2).
  split.
  - eexists. split; [apply list_elem_of_fmap_2|].
    + rewrite Hcollection. apply elem_of_app. right. by apply list_elem_of_singleton.
    + done.
  - intros n (m & -> & _)%list_elem_of_fmap. rewrite is_active_set.
    unfold NetworkManager.named. simpl. apply String.eqb_eq.
Qed.


(** X11, on the network [local], added to a registry of two. *)
Lemma removeNetwork_undoes_addNetwork_witness :
  ∃ new w1 w2,
    NetworkManager.addNetwork Samples.slow_idle_chain Samples.local_options
      Samples.two_networks = (Ok new, w1)
    ∧ NetworkManager.removeNetwork "local" w1 = (Ok (), w2)
    ∧ collection w2 = collection Samples.two_networks.
Proof.
  eexists _, _. 
  edestruct (removeNetwork_undoes_addNetwork Samples.slow_idle_chain Samples.local_options
               Samples.two_networks) as (w2 & Hremove & Hsame).
  - vm_compute. reflexivity.
  - exists w2. split; [vm_compute; reflexivity|]. split; [exact Hremove | exact Hsame].
Defined.

(** X12, on the same network. *)
Lemma switchNetwork_after_addNetwork_witness :
  ∃ new w1 result w2,
    NetworkManager.addNetwork Samples.slow_idle_chain Samples.local_options
      Samples.two_networks = (Ok new, w1)
    ∧ NetworkManager.switchNetwork Samples.slow_idle_chain "local" w1 = (Ok result, w2)
    ∧ NetworkManager.activeNetwork w2 = Some "local"
    ∧ ∀ n, n ∈ collection w2 → (is_active n = true ↔ NetworkManager.name n = "local").
Proof.
  eexists _, _.
  edestruct (switchNetwork_after_addNetwork Samples.slow_idle_chain Samples.local_options
               Samples.two_networks) as (result & w2 & Hswitch & Hactive & _ & Honly).
  - vm_compute. reflexivity.
  - exists result, w2. split; [vm_compute; reflexivity|].
    split; [exact Hswitch|]. split; [exact Hactive | exact Honly].
Defined.


(** ** Monitoring *)

Section MonitoringFacts.
Import NetworkManager.
Variable net : Oracle.

(** What one run of the closure [monitor] does. *)
Lemma monitor_run (name : string) (networks : list NetworkConfig)
    (m : Monitoring) (w : World) :
  ∃ event w' networks',
    monitor net name networks (m, w) = (Ok networks', (emit event m, w'))
    ∧ match (getNetworkStatus net (Some name) w).1 with
      | Ok status =>
          ∃ today stamp,
            event = NetworkStatusEvent status stamp
            ∧ networks' = update_first (named name) (set_lastValidated (Some today)) networks
            ∧ file w' = Some networks'
      | Throw e =>
          ∃ stamp,
            event = MonitoringError name e stamp
            ∧ networks' = networks
            ∧ w' = (getNetworkStatus net (Some name) w).2
      end.
Proof.
  unfold monitor. rewrite run_try_catch, run_bind. unfold lift at 1. cbn [fst snd].
  destruct (getNetworkStatus net (Some name) w) as [[status|e] w1]; cbn [fst snd].
  - unfold Date_now, saveNetworks. st_run. eexists _, _, _. split; [reflexivity|].
    eexists _, _. by repeat split.
  - unfold Date_now. st_run. eexists _, _, _. split; [reflexivity|].
    eexists. by repeat split.
Qed.

(** What [startNetworkMonitoring] leaves behind for a registered name. *)
Lemma startNetworkMonitoring_run (name : string) (interval : Z)
    (network : NetworkConfig) (m : Monitoring) (w : World) :
  find (named name) (collection w) = Some network →
  ∃ event w' networks',
    startNetworkMonitoring net name interval (m, w)
    = (Ok (),
       ({| monitoringHandle := Some (timers_made m);
           armed :=
             {| handle := timers_made m; t_name := name; t_interval := interval |}
               :: match monitoringHandle m with
                  | Some h => List.filter (λ t, negb (handle t =? h)%nat) (armed m)
                  | None => armed m
                  end;
           timers_made := S (timers_made m);
           emitted := event :: emitted m |}, w'))
    ∧ file w'
      = Some (update_first (named name)
                (λ n, set_monitoringInterval (Some interval)
                        (set_monitoringEnabled (Some true) n)) networks')
    ∧ match (getNetworkStatus net (Some name) w).1 with
      | Ok status =>
          ∃ today stamp,
            event = NetworkStatusEvent status stamp
            ∧ networks'
              = update_first (named name) (set_lastValidated (Some today)) (collection w)
      | Throw e =>
          ∃ stamp, event = MonitoringError name e stamp ∧ networks' = collection w
      end.
Proof.
  intros Hfind.
  assert (file w = Some (collection w)) as Hfile.
  { unfold collection in *. destruct (file w); [done | discriminate]. }
  unfold startNetworkMonitoring. rewrite run_bind. unfold lift at 1. cbn [fst snd].
  rewrite (loadNetworks_existing (collection w)) by done. cbn [fst snd].
  rewrite Hfind, run_bind. unfold local at 1, gets at 1. cbn [fst snd].
  rewrite run_bind.
  destruct (monitoringHandle m) as [h|] eqn:Hhandle.
  - unfold clearInterval, set_local at 1, modify at 1. cbn [fst snd]. rewrite run_bind.
    match goal with
    | |- context [monitor net name _ (?m1, w)] =>
        destruct (monitor_run name (collection w) m1 w)
          as (event & w1 & networks' & -> & Hevent)
    end.
    unfold setInterval, set_monitoringHandle, saveNetworks. st_run.
    eexists event, _, networks'. split; [reflexivity|].
    split; [reflexivity|].
    destruct (getNetworkStatus net (Some name) w).1.
    + destruct Hevent as (today & stamp & -> & -> & _). eauto.
    + destruct Hevent as (stamp & -> & -> & _). eauto.
  - unfold mret at 1, ST_ret at 1. rewrite run_bind.
    destruct (monitor_run name (collection w) m w)
      as (event & w1 & networks' & -> & Hevent).
    unfold setInterval, set_monitoringHandle, saveNetworks. st_run.
    eexists event, _, networks'. split; [reflexivity|].
    split; [reflexivity|].
    destruct (getNetworkStatus net (Some name) w).1.
    + destruct Hevent as (today & stamp & -> & -> & _). eauto.
    + destruct Hevent as (stamp & -> & -> & _). eauto.
Qed.

(** What [stopNetworkMonitoring] leaves behind when a handle is held. *)
Lemma stopNetworkMonitoring_run (h : nat) (m : Monitoring) (w : World) :
  monitoringHandle m = Some h →
  ∃ w',
    stopNetworkMonitoring (m, w)
    = (Ok (),
       ({| monitoringHandle := None;
           armed := List.filter (λ t, negb (handle t =? h)%nat) (armed m);
           timers_made := timers_made m;
           emitted := emitted m |}, w'))
    ∧ file w' = Some (map (set_monitoringEnabled (Some false)) (collection w)).
Proof.
  intros Hhandle. unfold stopNetworkMonitoring. rewrite run_bind.
  unfold local at 1, gets at 1. cbn [fst snd]. rewrite Hhandle.
  unfold clearInterval, set_monitoringHandle, set_local, modify.
  rewrite run_bind. cbn [fst snd]. rewrite run_bind. cbn [fst snd].
  rewrite run_bind. unfold lift at 1. cbn [fst snd].
  destruct (loadNetworks_run w) as (w1 & -> & _ & Hfile & _). unfold saveNetworks.
  st_run. eexists. by split.
Qed.

Lemma run_monitoring_one_timer (s : Monitoring * World) (c : MonitoringCall) :
  one_timer s.1 → one_timer (run_monitoring net s c).1.
Proof.
  destruct s as [m w]. cbn [fst]. intros Hone. destruct c as [name interval|]; simpl.
  - destruct (find (named name) (collection w)) as [network|] eqn:Hfind.
    + destruct (startNetworkMonitoring_run name interval network m w Hfind)
        as (event & w' & networks' & -> & _). simpl.
      unfold one_timer in *. simpl.
      exists {| handle := timers_made m; t_name := name; t_interval := interval |}.
      split; [|done]. f_equal.
      destruct (monitoringHandle m) as [h|]; [|done].
      destruct Hone as (t & -> & <-). simpl. by rewrite Nat.eqb_refl.
    + unfold startNetworkMonitoring. rewrite run_bind. unfold lift at 1. cbn [fst snd].
      destruct (loadNetworks_run w) as (w1 & -> & _). cbn [fst snd].
      by rewrite Hfind.
  - destruct (monitoringHandle m) as [h|] eqn:Hhandle.
    + destruct (stopNetworkMonitoring_run h m w Hhandle) as (w' & -> & _). simpl.
      unfold one_timer in *. rewrite Hhandle in Hone. simpl.
      destruct Hone as (t & -> & <-). simpl. by rewrite Nat.eqb_refl.
    + unfold stopNetworkMonitoring. rewrite run_bind.
      unfold local at 1, gets at 1. cbn [fst snd]. by rewrite Hhandle.
Qed.

End MonitoringFacts.

(** X14. Whatever the sequence of [startNetworkMonitoring] and
    [stopNetworkMonitoring] calls, at most one monitoring timer is armed,
    and it is the one whose handle the manager holds. *)
Theorem monitoring_arms_at_most_one_timer
    (net : NetworkManager.Oracle) (calls : list MonitoringCall)
    (m : NetworkManager.Monitoring) (w : NetworkManager.World) :
  one_timer m →
  one_timer (foldl (run_monitoring net) (m, w) calls).1
  ∧ (length (NetworkManager.armed (foldl (run_monitoring net) (m, w) calls).1) ≤ 1)%nat.
Proof.
  intros Hone.
  assert (one_timer (foldl (run_monitoring net) (m, w) calls).1) as Hone'.
  { change m with (m, w).1 in Hone. revert Hone. generalize (m, w).
    induction calls as [|c calls IH]; intros s Hs; simpl; [done|].
    by apply IH, run_monitoring_one_timer. }
  split; [done|]. unfold one_timer in Hone'.
  destruct (NetworkManager.monitoringHandle _); [|rewrite Hone'; simpl; lia].
  destruct Hone' as (t & -> & _). simpl. lia.
Qed.

(** X15. For a registered network, [startNetworkMonitoring] succeeds
    whatever the endpoint answers: it emits the status, or the error of the
    status check, arms a timer for the network and stores the entry with
    [monitoringEnabled] and the interval. *)
Theorem startNetworkMonitoring_enables
    (net : NetworkManager.Oracle) (name : string) (interval : Z)
    (network : NetworkManager.NetworkConfig)
    (m : NetworkManager.Monitoring) (w : NetworkManager.World) :
  find (NetworkManager.named name) (collection w) = Some network →
  ∃ m' w' event entry,
    NetworkManager.startNetworkMonitoring net name interval (m, w) = (Ok (), (m', w'))
    ∧ NetworkManager.emitted m' = event :: NetworkManager.emitted m
    ∧ match (NetworkManager.getNetworkStatus net (Some name) w).1 with
      | Ok status => ∃ stamp, event = NetworkManager.NetworkStatusEvent status stamp
      | Throw e => ∃ stamp, event = NetworkManager.MonitoringError name e stamp
      end
    ∧ NetworkManager.monitoringHandle m' = Some (NetworkManager.timers_made m)
    ∧ {| NetworkManager.handle := NetworkManager.timers_made m;
         NetworkManager.t_name := name;
         NetworkManager.t_interval := interval |} ∈ NetworkManager.armed m'
    ∧ find (NetworkManager.named name) (collection w') = Some entry
    ∧ NetworkManager.monitoringEnabled entry = Some true
    ∧ NetworkManager.monitoringInterval entry = Some interval
    ∧ NetworkManager.rpcUrl entry = NetworkManager.rpcUrl network
    ∧ NetworkManager.isActive entry = NetworkManager.isActive network.
Proof.
  intros Hfind.
  destruct (startNetworkMonitoring_run net name interval network m w Hfind)
    as (event & w' & networks' & -> & Hfile & Hevent).
  assert (∃ before, find (NetworkManager.named name) networks' = Some before
                    ∧ NetworkManager.rpcUrl before = NetworkManager.rpcUrl network
                    ∧ NetworkManager.isActive before = NetworkManager.isActive network)
    as (before & Hbefore & Hurl & Hactive).
  { destruct (NetworkManager.getNetworkStatus net (Some name) w).1.
    - destruct Hevent as (today & stamp & _ & ->).
      rewrite find_update_first, Hfind by done. by eexists.
    - destruct Hevent as (stamp & _ & ->). by eexists. }
  eexists _, w', event, _. split; [reflexivity|]. simpl.
  split; [done|]. split.
  { destruct (NetworkManager.getNetworkStatus net (Some name) w).1.
    - destruct Hevent as (today & stamp & -> & _). eauto.
    - destruct Hevent as (stamp & -> & _). eauto. }
  split; [done|]. split; [apply elem_of_cons; by left|].
  unfold collection. rewrite Hfile. simpl.
  rewrite find_update_first, Hbefore by done. done.
Qed.

(** X16. Without a timer, [stopNetworkMonitoring] does nothing. With one, it
    disarms it, gives up its handle and stores every entry of the registry
    with [monitoringEnabled] false. *)
Theorem stopNetworkMonitoring_disables
    (m : NetworkManager.Monitoring) (w : NetworkManager.World) :
  (NetworkManager.monitoringHandle m = None →
   NetworkManager.stopNetworkMonitoring (m, w) = (Ok (), (m, w)))
  ∧ (∀ h, NetworkManager.monitoringHandle m = Some h →
       ∃ m' w',
         NetworkManager.stopNetworkMonitoring (m, w) = (Ok (), (m', w'))
         ∧ NetworkManager.monitoringHandle m' = None
         ∧ (∀ t, t ∈ NetworkManager.armed m' →
                 t ∈ NetworkManager.armed m ∧ NetworkManager.handle t ≠ h)
         ∧ (one_timer m → NetworkManager.armed m' = [])
         ∧ length (collection w') = length (collection w)
         ∧ ∀ n, n ∈ collection w' →
                NetworkManager.monitoringEnabled n = Some false).
Proof.
  split.
  - intros Hhandle. unfold NetworkManager.stopNetworkMonitoring. rewrite run_bind.
    unfold local at 1, gets at 1. cbn [fst snd]. by rewrite Hhandle.
  - intros h Hhandle.
    destruct (stopNetworkMonitoring_run h m w Hhandle) as (w' & -> & Hfile).
    eexists _, w'. split; [reflexivity|]. simpl. split; [done|].
    split; [|split; [|split]].
    + intros t [Hin Hne%negb_true_iff%Nat.eqb_neq]%list_elem_of_In%filter_In.
      by rewrite list_elem_of_In.
    + unfold one_timer. rewrite Hhandle. intros (t & -> & <-). simpl.
      by rewrite Nat.eqb_refl.
    + unfold collection at 1. rewrite Hfile. simpl. by rewrite length_map.
    + unfold collection at 1. rewrite Hfile. simpl.
      by intros n (before & -> & _)%list_elem_of_fmap.
Qed.

(** X14, on a manager that monitors nothing yet. *)
Lemma monitoring_arms_at_most_one_timer_witness :
  (length
     (NetworkManager.armed
        (foldl (run_monitoring Samples.refusing)
           (Samples.no_monitoring, Samples.two_networks)
           [CallStart "a" 60000; CallStart "b" 30000; CallStop; CallStart "a" 1000]).1)
   ≤ 1)%nat.
Proof.
  apply (monitoring_arms_at_most_one_timer Samples.refusing
           [CallStart "a" 60000; CallStart "b" 30000; CallStop; CallStart "a" 1000]
           Samples.no_monitoring Samples.two_networks).
  reflexivity.
Defined.

(** X15, on an endpoint nobody listens on. *)
Lemma startNetworkMonitoring_enables_witness :
  ∃ m' w' entry,
    NetworkManager.startNetworkMonitoring Samples.refusing "local" 60000
      (Samples.no_monitoring, Samples.local_world) = (Ok (), (m', w'))
    ∧ (∃ stamp,
         NetworkManager.emitted m'
         = [NetworkManager.MonitoringError "local"
              (Error "connect ECONNREFUSED 127.0.0.1:8545") stamp])
    ∧ find (NetworkManager.named "local") (collection w') = Some entry
    ∧ NetworkManager.monitoringEnabled entry = Some true.
Proof.
  destruct (startNetworkMonitoring_enables Samples.refusing "local" 60000
              (Samples.network_named "local" (Some false))
              Samples.no_monitoring Samples.local_world)
    as (m' & w' & event & entry & Hrun & Hemitted & Hevent & _ & _ & Hfind & Henabled & _).
  - reflexivity.
  - exists m', w', entry. split; [exact Hrun|]. split; [|split; [exact Hfind | exact Henabled]].
    destruct Hevent as [stamp ->]. exists stamp. exact Hemitted.
Defined.

(** ** The wallet store: import and deletion *)

Section WalletStoreFacts.
Import BlockchainManager WalletManager.
Variable Date_parse : string → option Z.
Variable write_error : string → option thrown.
Variable unlink_error : string → thrown.

(** Looking for wallets leaves the directory as it is. *)
Lemma listWallets_disk (options : WalletFilter) (d : Disk) :
  (listWallets Date_parse options d).2 = d.
Proof.
  unfold listWallets. st_run.
  by destruct (read_wallets Date_parse (map_to_list (files d)) options).
Qed.

Lemma walletExists_total (name network : string) (d : Disk) :
  ∃ answer, walletExists Date_parse name network d = (Ok answer, d).
Proof.
  unfold walletExists, findWallets. rewrite run_try_catch, run_bind.
  pose proof (listWallets_disk
                {| f_name := Some name; f_network := Some network;
                   f_date := None; f_hash := None |} d) as Hdisk.
  destruct (listWallets _ _ d) as [[wallets|e] d1]; simpl in Hdisk; subst d1;
    by eexists.
Qed.

(** One round of the loop of [importWallets] counts its record once. *)
Lemma importWallets_round (wallet : WalletData) (network : string)
    (overwrite : option bool) (c : WalletImportResult) (d : Disk) :
  ∃ c' d',
    try_catch
      (exists_ ← lift (walletExists Date_parse (name wallet) network);
       if exists_ && negb (truthy_opt_bool overwrite) then
         set_local (λ c, {| imported := imported c; skipped := S (skipped c) |})
       else
         lift (saveWallet write_error wallet);;
         set_local (λ c, {| imported := S (imported c); skipped := skipped c |}))
      (λ error,
         set_local (λ c, {| imported := imported c; skipped := S (skipped c) |}))
      (c, d) = (Ok (), (c', d'))
    ∧ (imported c' + skipped c' = S (imported c + skipped c))%nat.
Proof.
  destruct (walletExists_total (name wallet) network d) as [answer Hexists].
  rewrite run_try_catch, run_bind. unfold lift at 1. cbn [fst snd]. rewrite Hexists.
  cbn [fst snd]. unfold saveWallet.
  destruct (answer && negb (truthy_opt_bool overwrite)); st_run.
  - eexists _, _. split; [done|]. simpl. lia.
  - destruct (write_error _); st_run; (eexists _, _; split; [done|]; simpl; lia).
Qed.

Lemma importWallets_loop (wallets : list WalletData) (network : string)
    (overwrite : option bool) (c : WalletImportResult) (d : Disk) :
  ∃ c' d',
    for_each wallets (λ wallet,
      try_catch
        (exists_ ← lift (walletExists Date_parse (name wallet) network);
         if exists_ && negb (truthy_opt_bool overwrite) then
           set_local (λ c, {| imported := imported c; skipped := S (skipped c) |})
         else
           lift (saveWallet write_error wallet);;
           set_local (λ c, {| imported := S (imported c); skipped := skipped c |}))
        (λ error,
           set_local (λ c, {| imported := imported c; skipped := S (skipped c) |})))
      (c, d) = (Ok (), (c', d'))
    ∧ (imported c' + skipped c' = length wallets + (imported c + skipped c))%nat.
Proof.
  revert c d. induction wallets as [|wallet wallets IH]; intros c d.
  - eexists _, _. split; [done|]. simpl. lia.
  - cbn [for_each]. rewrite run_bind.
    destruct (importWallets_round wallet network overwrite c d)
      as (c1 & d1 & -> & Hcount).
    destruct (IH c1 d1) as (c' & d' & -> & Hcount').
    eexists _, _. split; [done|]. simpl. lia.
Qed.

End WalletStoreFacts.

(** X17. [importWallets] does not throw once the file is parsed, whatever
    the directory holds and whichever write fails, and it accounts for
    every record: the records imported and skipped add up to the records
    of the file. *)
Theorem importWallets_counts_every_record
    (Date_parse : string → option Z) (write_error : string → option thrown)
    (wallets : list BlockchainManager.WalletData) (network : string)
    (overwrite : option bool) (d : WalletManager.Disk) :
  ∃ r d',
    WalletManager.importWallets Date_parse write_error wallets network overwrite d
    = (Ok r, d')
    ∧ (WalletManager.imported r + WalletManager.skipped r = length wallets)%nat.
Proof.
  unfold WalletManager.importWallets. rewrite try_catch_rethrow.
  unfold with_locals. rewrite run_bind.
  destruct (importWallets_loop Date_parse write_error wallets network overwrite
              {| WalletManager.imported := 0; WalletManager.skipped := 0 |} d)
    as (c' & d' & -> & Hcount).
  eexists _, _. split; [done|]. simpl in *. lia.
Qed.

(** X18. With [overwrite] and a file system that takes every write,
    [importWallets] skips nothing: every record is written, in the order
    of the file, to the file named after it, a later record replacing an
    earlier one of the same file name, and the other files stay. *)
Theorem importWallets_overwrite_writes_every_record
    (Date_parse : string → option Z) (write_error : string → option thrown)
    (wallets : list BlockchainManager.WalletData) (network : string)
    (d : WalletManager.Disk) :
  (∀ file, write_error file = None) →
  WalletManager.importWallets Date_parse write_error wallets network (Some true) d
  = (Ok {| WalletManager.imported := length wallets; WalletManager.skipped := 0 |},
     {| WalletManager.files :=
          foldl (λ stored wallet,
                   <[WalletManager.walletFileName wallet None
                     := WalletManager.WalletJson wallet]> stored)
                (WalletManager.files d) wallets |}).
Proof.
  intros Hwrites.
  unfold WalletManager.importWallets. rewrite try_catch_rethrow.
  unfold with_locals. rewrite run_bind.
  assert (∀ c d,
    for_each wallets (λ wallet,
      try_catch
        (exists_ ← lift (WalletManager.walletExists Date_parse
                           (BlockchainManager.name wallet) network);
         if exists_ && negb (truthy_opt_bool (Some true)) then
           set_local (λ c, {| WalletManager.imported := WalletManager.imported c;
                              WalletManager.skipped := S (WalletManager.skipped c) |})
         else
           lift (WalletManager.saveWallet write_error wallet);;
           set_local (λ c, {| WalletManager.imported := S (WalletManager.imported c);
                              WalletManager.skipped := WalletManager.skipped c |}))
        (λ error,
           set_local (λ c, {| WalletManager.imported := WalletManager.imported c;
                              WalletManager.skipped := S (WalletManager.skipped c) |})))
      (c, d)
    = (Ok (),
       ({| WalletManager.imported := length wallets + WalletManager.imported c;
           WalletManager.skipped := WalletManager.skipped c |},
        {| WalletManager.files :=
             foldl (λ stored wallet,
                      <[WalletManager.walletFileName wallet None
                        := WalletManager.WalletJson wallet]> stored)
                   (WalletManager.files d) wallets |})))
    as Hloop.
  { induction wallets as [|wallet wallets IH]; intros c d0.
    - by destruct c, d0.
    - cbn [for_each]. rewrite run_bind, run_try_catch, run_bind.
      destruct (walletExists_total Date_parse (BlockchainManager.name wallet) network d0)
        as [answer Hexists].
      unfold lift at 1. cbn [fst snd]. rewrite Hexists. cbn [fst snd].
      rewrite andb_false_r. unfold WalletManager.saveWallet. rewrite Hwrites.
      st_run. rewrite IH. simpl. do 3 f_equal. lia. }
  rewrite Hloop. simpl. by rewrite Nat.add_0_r.
Qed.

(** X18, on the records [al] and [bob], with [alice] stored. *)
Lemma importWallets_overwrite_writes_every_record_witness :
  WalletManager.importWallets Samples.no_dates Samples.writes_succeed
    [Samples.al; Samples.bob] "ethereum" (Some true) Samples.disk_with_alice
  = (Ok {| WalletManager.imported := 2; WalletManager.skipped := 0 |},
     {| WalletManager.files :=
          <["bob-ethereum-0x2546Bc.json" := WalletManager.WalletJson Samples.bob]>
            (<["al-ethereum-0x71C765.json" := WalletManager.WalletJson Samples.al]>
               (WalletManager.files Samples.disk_with_alice)) |}).
Proof.
  apply (importWallets_overwrite_writes_every_record Samples.no_dates
           Samples.writes_succeed [Samples.al; Samples.bob] "ethereum"
           Samples.disk_with_alice).
  reflexivity.
Defined.

Section DeleteFacts.
Import BlockchainManager WalletManager.
Variable Date_parse : string → option Z.
Variable unlink_error : string → thrown.

(** What [listWallets] reads from files that all hold a wallet. *)
Lemma read_wallets_filter (found : list (string * JsonFile)) (options : WalletFilter)
    (wallets : list WalletData) :
  found.*2 = WalletJson <$> wallets →
  read_wallets Date_parse found options
  = Ok (List.filter (λ wallet, matchesFilter Date_parse wallet options) wallets).
Proof.
  revert wallets. induction found as [|[file content] found IH];
    intros [|wallet wallets] Hfound; simplify_eq/=; [done|].
  rewrite (IH wallets) by done. simpl.
  by destruct (matchesFilter Date_parse wallet options).
Qed.

(** The loop of [deleteWallets] over wallets whose files are all there,
    under names that differ. *)
Lemma deleteWallets_loop (wallets : list WalletData) (count : nat) (d : Disk) :
  NoDup ((λ wallet, walletFileName wallet None) <$> wallets) →
  (∀ wallet, wallet ∈ wallets → is_Some (files d !! walletFileName wallet None)) →
  ∃ d',
    for_each wallets (λ wallet,
      lift (unlink unlink_error (walletFileName wallet None));;
      set_local S) (count, d)
    = (Ok (), ((length wallets + count)%nat, d'))
    ∧ ∀ file,
        files d' !! file
        = if decide (file ∈ (λ wallet, walletFileName wallet None) <$> wallets)
          then None else files d !! file.
Proof.
  revert count d. induction wallets as [|wallet wallets IH]; intros count d Hnames Hthere.
  - exists d. split; [done|]. intros file.
    case_decide as Hin; [by apply elem_of_nil in Hin | done].
  - apply NoDup_cons in Hnames as [Hfresh Hnames].
    destruct (Hthere wallet) as [content Hcontent]; [apply elem_of_cons; eauto|].
    assert (unlink unlink_error (walletFileName wallet None) d
            = (Ok (), {| files := delete (walletFileName wallet None) (files d) |}))
      as Hunlink by (unfold unlink; st_run; by rewrite Hcontent).
    cbn [for_each]. rewrite run_bind, run_bind. unfold lift at 1.
    cbn [fst snd]. rewrite Hunlink. cbn [fst snd].
    unfold set_local at 1, modify at 1. cbn [fst snd].
    destruct (IH (S count) {| files := delete (walletFileName wallet None) (files d) |})
      as (d' & Hloop & Hfiles); [done| |].
    { intros other Hother. simpl. rewrite lookup_delete_ne.
      - apply Hthere, elem_of_cons; eauto.
      - intros Hsame. apply Hfresh. rewrite Hsame.
        by apply (list_elem_of_fmap_2 (λ wallet, walletFileName wallet None)). }
    exists d'. split; [rewrite Hloop; simpl; by rewrite Nat.add_succ_r|].
    intros file. rewrite Hfiles. cbn [files]. rewrite fmap_cons.
    destruct (decide (file = walletFileName wallet None)) as [->|Hne].
    + rewrite lookup_delete_eq.
      case_decide; case_decide as Hout; [done..|].
      exfalso. apply Hout, elem_of_cons; eauto.
    + rewrite lookup_delete_ne by done.
      case_decide as Hin; case_decide as Hin'; [done| | |done].
      * exfalso. apply Hin', elem_of_cons; eauto.
      * apply elem_of_cons in Hin' as [?|?]; done.
Qed.

End DeleteFacts.

Section DeleteWallets.
Import BlockchainManager WalletManager.
Variable Date_parse : string → option Z.
Variable unlink_error : string → thrown.

Lemma List_filter_sublist {A} (f : A → bool) (l : list A) :
  List.filter f l `sublist_of` l.
Proof.
  induction l as [|x l IH]; simpl; [done|].
  destruct (f x); by constructor.
Qed.

(** The files of a directory in which every file is named after its wallet. *)
Lemma named_after_wallets_list (d : Disk) :
  named_after_wallets d →
  ∃ wallets,
    map_to_list (files d)
    = (λ wallet, (walletFileName wallet None, WalletJson wallet)) <$> wallets.
Proof.
  intros Hnamed.
  assert (Forall (λ entry, ∃ wallet,
                    entry = (walletFileName wallet None, WalletJson wallet))
                 (map_to_list (files d))) as Hall.
  { apply Forall_forall. intros [file content] Hin%elem_of_map_to_list.
    destruct (Hnamed file content Hin) as (wallet & -> & ->). by exists wallet. }
  induction Hall as [|entry found [wallet ->] _ [wallets ->]].
  - by exists [].
  - by exists (wallet :: wallets).
Qed.

(** What [deleteWallets] does in such a directory, in terms of the wallets
    that its filter selects. *)
Lemma deleteWallets_run (name : string) (network : option string) (d : Disk) :
  named_after_wallets d →
  ∃ wallets selected d',
    map_to_list (files d)
    = (λ wallet, (walletFileName wallet None, WalletJson wallet)) <$> wallets
    ∧ selected
      = List.filter
          (λ wallet, matchesFilter Date_parse wallet (delete_filter name network))
          wallets
    ∧ findWallets Date_parse (delete_filter name network) d = (Ok selected, d)
    ∧ deleteWallets Date_parse unlink_error name network d
      = (Ok (length selected), d')
    ∧ ∀ file,
        files d' !! file
        = if decide (file ∈ (λ wallet, walletFileName wallet None) <$> selected)
          then None else files d !! file.
Proof.
  intros Hnamed.
  destruct (named_after_wallets_list d Hnamed) as [wallets Hlist].
  assert (findWallets Date_parse (delete_filter name network) d
          = (Ok (List.filter
                   (λ wallet, matchesFilter Date_parse wallet
                                (delete_filter name network)) wallets), d)) as Hfind.
  { unfold findWallets, listWallets. rewrite run_try_catch, run_bind.
    unfold gets at 1. cbn [fst snd]. unfold of_result.
    rewrite (read_wallets_filter Date_parse _ _ wallets); [done|].
    rewrite Hlist, <- list_fmap_compose. done. }
  set (selected := List.filter _ wallets) in *.
  assert (NoDup ((λ wallet, walletFileName wallet None) <$> selected)) as Hnames.
  { pose proof (NoDup_fst_map_to_list (files d)) as Hkeys.
    rewrite Hlist, <- list_fmap_compose in Hkeys.
    eapply sublist_NoDup; [exact Hkeys|].
    apply (fmap_sublist (λ wallet, walletFileName wallet None)), List_filter_sublist. }
  assert (∀ wallet, wallet ∈ selected →
            is_Some (files d !! walletFileName wallet None)) as Hthere.
  { intros wallet Hin. exists (WalletJson wallet).
    apply elem_of_map_to_list. rewrite Hlist.
    apply (list_elem_of_fmap_2
             (λ wallet, (walletFileName wallet None, WalletJson wallet))).
    apply list_elem_of_In. apply list_elem_of_In, filter_In in Hin. tauto. }
  assert (∃ d',
            deleteWallets Date_parse unlink_error name network d
            = (Ok (length selected), d')
            ∧ ∀ file,
                files d' !! file
                = if decide (file ∈ (λ wallet, walletFileName wallet None) <$> selected)
                  then None else files d !! file) as (d' & Hdelete & Hfiles).
  { unfold deleteWallets. rewrite try_catch_rethrow, run_bind.
    fold (delete_filter name network). rewrite Hfind.
    destruct (length selected =? 0)%nat eqn:Hempty.
    - apply Nat.eqb_eq in Hempty. exists d. rewrite Hempty.
      split; [done|]. intros file. destruct selected; [|done].
      case_decide as Hin; [by apply elem_of_nil in Hin | done].
    - destruct (deleteWallets_loop unlink_error selected 0 d Hnames Hthere)
        as (d' & Hloop & Hfiles).
      exists d'. split; [|done]. unfold with_locals. rewrite run_bind, Hloop. simpl.
      by rewrite Nat.add_0_r. }
  by exists wallets, selected, d'.
Qed.

End DeleteWallets.



Section DeleteMisplaced.
Import BlockchainManager WalletManager.
Variable Date_parse : string → option Z.
Variable unlink_error : string → thrown.

(** A round of the loop of [deleteWallets] only takes files away. *)
Lemma deleteWallets_round_shrinks (d : Disk) (missing : string) (wallet : WalletData) :
  keeps (preserves (λ s : nat * Disk,
           files s.2 ⊆ files d ∧ files s.2 !! missing = None))
        (lift (unlink unlink_error (walletFileName wallet None));; set_local S).
Proof.
  intros [count d0] [Hsub Hmissing]. simpl in Hsub, Hmissing.
  unfold unlink. st_run.
  destruct (files d0 !! walletFileName wallet None) as [content|] eqn:Hfile; simpl.
  - split.
    + etrans; [apply delete_subseteq | done].
    + destruct (decide (missing = walletFileName wallet None)) as [->|Hne].
      * apply lookup_delete_eq.
      * by rewrite lookup_delete_ne.
  - done.
Qed.

End DeleteMisplaced.

(** X20. A wallet that [findWallets] finds for the name and the network, but
    in a file that is not named after it while no file of that name exists
    (a wallet in a subdirectory, say): [deleteWallets] throws, after
    deleting at most some of the other files, and returns no count. *)
Theorem deleteWallets_throws_for_wallet_in_other_file
    (Date_parse : string → option Z) (unlink_error : string → thrown)
    (name : string) (network : option string) (d : WalletManager.Disk)
    (file : string) (wallet : BlockchainManager.WalletData) :
  (∀ file, WalletManager.files d !! file ≠ Some WalletManager.Unparsable) →
  WalletManager.files d !! file = Some (WalletManager.WalletJson wallet) →
  WalletManager.matchesFilter Date_parse wallet (delete_filter name network) = true →
  WalletManager.files d !! WalletManager.walletFileName wallet None = None →
  ∃ wallets e d',
    WalletManager.findWallets Date_parse (delete_filter name network) d
    = (Ok wallets, d)
    ∧ wallet ∈ wallets
    ∧ WalletManager.deleteWallets Date_parse unlink_error name network d
      = (Throw e, d')
    ∧ WalletManager.files d' ⊆ WalletManager.files d.
Proof.
  intros Hparse Hfile Hmatch Hmissing.
  destruct (read_wallets_parsable Date_parse (map_to_list (WalletManager.files d))
              (delete_filter name network)) as (wallets & Hread & Hspec).
  { apply Forall_forall. intros [f content] Hin%elem_of_map_to_list; simpl.
    intros ->. by apply (Hparse f). }
  assert (wallet ∈ wallets) as Hin.
  { apply Hspec. split; [done|]. exists file. by apply elem_of_map_to_list. }
  assert (WalletManager.findWallets Date_parse (delete_filter name network) d
          = (Ok wallets, d)) as Hfind.
  { unfold WalletManager.findWallets, WalletManager.listWallets.
    rewrite run_try_catch, run_bind. unfold gets at 1. cbn [fst snd].
    unfold of_result. by rewrite Hread. }
  exists wallets.
  unfold WalletManager.deleteWallets. rewrite try_catch_rethrow, run_bind.
  fold (delete_filter name network). rewrite Hfind.
  destruct wallets as [|first rest]; [by apply elem_of_nil in Hin|].
  cbn [length Nat.eqb]. unfold with_locals. rewrite run_bind.
  destruct (for_each_throws
              (λ s : nat * WalletManager.Disk,
                 WalletManager.files s.2 ⊆ WalletManager.files d
                 ∧ WalletManager.files s.2
                   !! WalletManager.walletFileName wallet None = None)
              (λ other, other = wallet) (first :: rest)
              (λ wallet,
                 lift (WalletManager.unlink unlink_error
                         (WalletManager.walletFileName wallet None));;
                 set_local S)
              (0%nat, d)) as (e & [count d'] & Hloop & Hsub & _).
  - intros other. apply deleteWallets_round_shrinks.
  - intros other [count d0] -> [_ Hgone]. exists (unlink_error
      (WalletManager.walletFileName wallet None)).
    simpl in Hgone. unfold WalletManager.unlink. st_run. by rewrite Hgone.
  - by exists wallet.
  - done.
  - rewrite Hloop. by exists e, d'.
Qed.

(** X20, on [alice] stored in the subdirectory [team]. *)
Lemma deleteWallets_throws_for_wallet_in_other_file_witness :
  ∃ wallets e d',
    WalletManager.findWallets Samples.no_dates (delete_filter "alice" None)
      Samples.disk_with_alice_in_team
    = (Ok wallets, Samples.disk_with_alice_in_team)
    ∧ Samples.alice ∈ wallets
    ∧ WalletManager.deleteWallets Samples.no_dates Samples.no_such_file "alice" None
        Samples.disk_with_alice_in_team
      = (Throw e, d')
    ∧ WalletManager.files d' ⊆ WalletManager.files Samples.disk_with_alice_in_team.
Proof.
  apply (deleteWallets_throws_for_wallet_in_other_file Samples.no_dates
           Samples.no_such_file "alice" None Samples.disk_with_alice_in_team
           "team/alice-ethereum-0x9858Ef.json" Samples.alice).
  - intros file. unfold Samples.disk_with_alice_in_team. simpl.
    intros [_ [=]]%lookup_singleton_Some.
  - reflexivity.
  - reflexivity.
  - reflexivity.
Defined.

(** ** CSV export and import of wallets *)

Section CsvFacts.
Import WalletManager.

Lemma has_char_app (c : Ascii.ascii) (a b : string) :
  has_char c (a +:+ b) = has_char c a || has_char c b.
Proof.
  induction a as [|x a IH]; simpl; [done|]. by rewrite IH, orb_assoc.
Qed.

Lemma split_plain (sep : Ascii.ascii) (s : string) :
  has_char sep s = false → split sep s = [s].
Proof.
  induction s as [|c s IH]; simpl; [done|].
  intros [Hc Hs]%orb_false_iff. by rewrite Hc, IH.
Qed.

Lemma split_app (sep : Ascii.ascii) (a b : string) :
  has_char sep a = false →
  split sep (a +:+ String sep b) = a :: split sep b.
Proof.
  induction a as [|c a IH]; simpl.
  - intros _. by rewrite Ascii.eqb_refl.
  - intros [Hc Ha]%orb_false_iff. by rewrite Hc, IH.
Qed.

Lemma split_join (sep : Ascii.ascii) (l : list string) :
  l ≠ [] → Forall (λ s, has_char sep s = false) l → split sep (join sep l) = l.
Proof.
  intros Hl Hplain. induction Hplain as [|x l Hx Hplain IH]; [done|].
  destruct l as [|y l].
  - simpl. by apply split_plain.
  - change (join sep (x :: y :: l)) with (x +:+ String sep (join sep (y :: l))).
    rewrite split_app by done. by rewrite IH.
Qed.

Lemma has_char_join (c sep : Ascii.ascii) (l : list string) :
  Ascii.eqb sep c = false →
  Forall (λ s, has_char c s = false) l → has_char c (join sep l) = false.
Proof.
  intros Hsep Hplain. induction Hplain as [|x l Hx Hplain IH]; [done|].
  destruct l as [|y l]; [done|].
  change (join sep (x :: y :: l)) with (x +:+ String sep (join sep (y :: l))).
  rewrite has_char_app, Hx. cbn [orb has_char]. by rewrite Hsep, IH.
Qed.

Lemma remove_all_quoted (c : Ascii.ascii) (value : string) :
  has_char c value = false →
  remove_all c (String c (value +:+ String c EmptyString)) = value.
Proof.
  intros Hplain. simpl. rewrite Ascii.eqb_refl.
  induction value as [|a value IH]; simpl.
  - by rewrite Ascii.eqb_refl.
  - simpl in Hplain. apply orb_false_iff in Hplain as [Ha Hvalue].
    by rewrite Ha, IH.
Qed.

Lemma with_key_fresh (key value : string) (obj : JsObject) :
  key ∉ obj.*1 → with_key key value obj = obj ++ [(key, value)].
Proof.
  induction obj as [|[k v] obj IH]; simpl; [done|].
  intros [Hne Hfresh]%not_elem_of_cons.
  rewrite (proj2 (String.eqb_neq k key)) by done. by rewrite IH.
Qed.

(** The [reduce] over the headers of a row that holds a quoted value for
    each header. *)
Lemma reduce_headers_row (before : list string) (wallet obj : JsObject) :
  NoDup (obj.*1 ++ wallet.*1) →
  Forall (λ value, has_char quote value = false) wallet.*2 →
  reduce_headers
    (before
       ++ ((λ value, String quote (value +:+ String quote EmptyString)) <$> wallet.*2))
    wallet.*1 (length before) obj
  = Ok (obj ++ wallet).
Proof.
  revert before obj. induction wallet as [|[key value] wallet IH];
    intros before obj Hkeys Hvalues.
  - simpl. by rewrite app_nil_r.
  - apply Forall_cons in Hvalues as [Hvalue Hvalues].
    rewrite !fmap_cons. cbn [fst snd reduce_headers].
    rewrite lookup_app_r, Nat.sub_diag by done. cbn [lookup list_lookup].
    rewrite remove_all_quoted by done.
    apply NoDup_app in Hkeys as (Hobj & Hfresh & Hwallet).
    apply NoDup_cons in Hwallet as [Hkey Hwallet].
    rewrite with_key_fresh by (intros Hin; apply (Hfresh _ Hin), elem_of_cons; eauto).
    specialize (IH (before ++ [String quote (value +:+ String quote EmptyString)])
                   (obj ++ [(key, value)])).
    rewrite length_app, Nat.add_1_r, <- !app_assoc in IH. simpl in IH.
    rewrite IH; [done| |done].
    rewrite fmap_app. simpl. rewrite <- app_assoc. simpl.
    apply NoDup_app. split; [done|]. split; [|by apply NoDup_cons].
    intros k Hk [->|Hin]%elem_of_cons; [|by apply (Hfresh k Hk), elem_of_cons; eauto].
    apply (Hfresh key Hk), elem_of_cons; eauto.
Qed.

Lemma mapM_Ok {A B} (f : A → result B) (l : list A) (k : list B) :
  Forall2 (λ x y, f x = Ok y) l k → mapM f l = Ok k.
Proof.
  induction 1 as [|x y l k Hxy _ IH]; simpl; [done|]. by rewrite Hxy, IH.
Qed.

End CsvFacts.

(** X21. Wallets written by [formatWalletsAsCsv] are read back by
    [parseCsvWallets] as they were, when there is at least one wallet,
    every wallet has the keys of the first one in the same order, at least
    one of them, no key holds a comma or a line feed or is an array index,
    and no value holds a comma, a line feed or a double quote. *)
Theorem parseCsvWallets_reads_formatWalletsAsCsv
    (first : WalletManager.JsObject) (others : list WalletManager.JsObject) :
  first ≠ [] →
  NoDup first.*1 →
  Forall csv_key first.*1 →
  Forall (λ wallet : WalletManager.JsObject,
            wallet.*1 = first.*1 ∧ Forall csv_value wallet.*2) (first :: others) →
  ∃ text,
    WalletManager.formatWalletsAsCsv (first :: others) = Ok text
    ∧ WalletManager.parseCsvWallets text = Ok (first :: others).
Proof.
  intros Hfirst Hnodup Hkeys Hwallets.
  set (quoted := λ value, String WalletManager.quote
                            (value +:+ String WalletManager.quote EmptyString)).
  set (row := λ wallet : WalletManager.JsObject,
                WalletManager.join WalletManager.comma (quoted <$> wallet.*2)).
  exists (WalletManager.join WalletManager.newline
            (WalletManager.join WalletManager.comma first.*1
               :: (row <$> first :: others))).
  split; [done|].
  assert (∀ c value, has_char c value = false →
            Ascii.eqb WalletManager.quote c = false →
            has_char c (quoted value) = false) as Hquoted.
  { intros c value Hvalue Hc. unfold quoted. cbn [has_char].
    rewrite Hc, has_char_app, Hvalue. cbn [has_char orb]. by rewrite Hc. }
  unfold WalletManager.parseCsvWallets.
  rewrite split_join; [| done |].
  2: { apply Forall_cons. split.
       - apply has_char_join; [done|].
         eapply Forall_impl; [exact Hkeys|]. by intros key (_ & Hnewline & _).
       - apply Forall_fmap, Forall_forall. intros wallet Hin.
         apply has_char_join; [done|]. apply Forall_fmap.
         apply (proj1 (Forall_forall _ _) Hwallets) in Hin as [_ Hvalues].
         eapply Forall_impl; [exact Hvalues|].
         intros value (_ & Hnewline & _). by apply Hquoted. }
  cbn [hd_error tl from_option id].
  rewrite split_join; [| by destruct first |].
  2: { eapply Forall_impl; [exact Hkeys|]. by intros key (Hcomma & _). }
  apply mapM_Ok. apply Forall2_fmap_l, Forall_Forall2_diag.
  eapply Forall_impl; [exact Hwallets|]. intros wallet [Hsame Hvalues].
  unfold row, compose. cbv beta. rewrite split_join.
  - rewrite <- Hsame.
    apply (reduce_headers_row [] wallet []); simpl; [by rewrite Hsame|].
    eapply Forall_impl; [exact Hvalues|]. by intros value (_ & _ & Hquote).
  - intros Hempty%fmap_nil_inv. apply Hfirst.
    apply (fmap_nil_inv fst). rewrite <- Hsame.
    apply (f_equal length) in Hempty. rewrite length_fmap in Hempty.
    apply length_zero_iff_nil. by rewrite length_fmap in *.
  - apply Forall_fmap. eapply Forall_impl; [exact Hvalues|].
    intros value (Hcomma & _). by apply Hquoted.
Qed.

(** X21, on the wallets [alice] and [bob] with their name, network and
    address. *)
Lemma parseCsvWallets_reads_formatWalletsAsCsv_witness :
  ∃ text,
    WalletManager.formatWalletsAsCsv [Samples.alice_object; Samples.bob_object]
    = Ok text
    ∧ WalletManager.parseCsvWallets text
      = Ok [Samples.alice_object; Samples.bob_object].
Proof.
  apply (parseCsvWallets_reads_formatWalletsAsCsv Samples.alice_object
           [Samples.bob_object]).
  - discriminate.
  - apply (bool_decide_unpack _). vm_compute. reflexivity.
  - repeat (constructor; [repeat split; reflexivity|]). constructor.
  - repeat (constructor;
            [split; [reflexivity|];
             repeat (constructor; [repeat split; reflexivity|]); constructor|]).
    constructor.
Defined.

Section CsvErrors.
Import WalletManager.

Lemma split_cons (sep : Ascii.ascii) (s : string) :
  ∃ first others, split sep s = first :: others.
Proof.
  induction s as [|c s (first & others & IH)]; simpl; [by eexists _, _|].
  destruct (Ascii.eqb c sep); [by eexists _, _|]. rewrite IH. by eexists _, _.
Qed.

(** A text that ends with the separator ends with an empty field. *)
Lemma split_snoc (sep : Ascii.ascii) (s : string) :
  split sep (s +:+ String sep EmptyString) = split sep s ++ [EmptyString].
Proof.
  induction s as [|c s IH]; simpl.
  - by rewrite Ascii.eqb_refl.
  - destruct (Ascii.eqb c sep); [by rewrite IH|].
    rewrite IH. by destruct (split_cons sep s) as (first & others & ->).
Qed.

Lemma reduce_headers_throws (values headers : list string) (index : nat)
    (obj : JsObject) :
  (∃ e, reduce_headers values headers index obj = Throw e)
  ↔ headers ≠ [] ∧ (length values < index + length headers)%nat.
Proof.
  revert index obj. induction headers as [|header headers IH]; intros index obj; simpl.
  - split; [by intros [e ?] | by intros [? _]].
  - destruct (values !! index) as [value|] eqn:Hvalue.
    + apply lookup_lt_Some in Hvalue. rewrite IH. split.
      * intros [_ Hshort]. split; [done | lia].
      * intros [_ Hshort]. split; [|lia]. intros ->. simpl in Hshort. lia.
    + apply lookup_ge_None in Hvalue. split; [|by eexists].
      intros _. split; [done | lia].
Qed.

Lemma mapM_Throw {A B} (f : A → result B) (l : list A) :
  (∃ e, mapM f l = Throw e) ↔ Exists (λ x, ∃ e, f x = Throw e) l.
Proof.
  induction l as [|x l IH]; simpl.
  - split; [by intros [e ?] | by intros ?%Exists_nil].
  - rewrite Exists_cons, <- IH. destruct (f x) as [y|e]; simpl.
    + destruct (mapM f l) as [k|e]; simpl.
      * split; [by intros [e ?] | by intros [[e ?]|[e ?]]].
      * split; [by right; eexists | by eexists].
    + split; [by left; eexists | by eexists].
Qed.

End CsvErrors.

(** X22. [parseCsvWallets] throws exactly when a line after the first has
    fewer fields than the first line has headers. So a text with two
    headers or more that ends with a line feed cannot be parsed: its last
    line is empty. *)
Theorem parseCsvWallets_throws_on_short_line (content : string) :
  let lines := WalletManager.split WalletManager.newline content in
  let headers :=
    WalletManager.split WalletManager.comma (default EmptyString (head lines)) in
  ((∃ e, WalletManager.parseCsvWallets content = Throw e)
   ↔ Exists (λ line,
               (length (WalletManager.split WalletManager.comma line)
                < length headers)%nat)
            (tail lines))
  ∧ ((2 ≤ length headers)%nat →
     ∃ e,
       WalletManager.parseCsvWallets
         (content +:+ String WalletManager.newline EmptyString)
       = Throw e).
Proof.
  intros lines headers.
  assert (∀ text,
            (∃ e, WalletManager.parseCsvWallets text = Throw e)
            ↔ Exists (λ line,
                (length (WalletManager.split WalletManager.comma line)
                 < length (WalletManager.split WalletManager.comma
                             (default EmptyString
                                (head (WalletManager.split WalletManager.newline
                                         text)))))%nat)
                (tail (WalletManager.split WalletManager.newline text)))
    as Hthrows.
  { intros text. unfold WalletManager.parseCsvWallets. rewrite mapM_Throw.
    apply Exists_proper; [|done]. intros line. rewrite reduce_headers_throws.
    split; [by intros [_ ?] | intros Hshort; split; [|done]].
    intros Hnone. rewrite Hnone in Hshort. simpl in Hshort. lia. }
  split; [apply Hthrows|].
  intros Hheaders. apply Hthrows. rewrite split_snoc. fold lines.
  destruct (split_cons WalletManager.newline content) as (first & others & Hlines).
  subst headers. fold lines in Hlines. rewrite Hlines in *. simpl in *.
  apply Exists_app. right. apply Exists_cons. left. simpl. lia.
Qed.
